(** * Precious Metals India: the price update, broadcast and render pipeline

    A shallow embedding of [server.js], [mcx-api.js] and the browser class
    [PreciousMetalsApp], and the properties of the specification that can be
    stated over it.

    Conventions of the embedding.
    - A JavaScript number is a value of a type [N] carrying the operations of
      the class [JsNumber].  The program is translated once, over any such
      [N], and read at two instances: [Q] (exact arithmetic, the reading the
      general theorems are proved in) and [float] (IEEE 754 binary64, what the
      engine computes; used to evaluate the program on concrete inputs).
    - [Math.random()], [new Date()] and the reply of the HTTP client are
      inputs of the model: a stream of draws and a clock in the state, and an
      explicit [AxiosResult] argument.
    - A plain object used as a dictionary is a [gmap string _]; property
      enumeration order is not modelled.  Where a key comes from outside the
      program (a route parameter) the lookup also sees [Object.prototype].
    - Code that mutates module-level variables runs in the monad [Eff], which
      threads the state and propagates a thrown exception. *)

From Stdlib Require Import ZArith QArith Qround Qabs Lqa Lia.
From Stdlib Require Import String Ascii List Floats Uint63.
From stdpp Require Import base gmap strings.
Import ListNotations.

Set Default Proof Using "Type".
#[local] Set Warnings "-inexact-float".
#[local] Open Scope string_scope.
#[local] Open Scope list_scope.

(** ** JavaScript numbers *)

Class JsNumber (N : Type) : Type := {
  lit : Q → N;                (* a numeric literal of the source text *)
  nadd : N → N → N;
  nsub : N → N → N;
  nmul : N → N → N;
  ndiv : N → N → N;
  Math_abs : N → N;
  Math_round : N → N;         (* nearest integer, ties towards +infinity *)
  Math_floor : N → N;
  nlt : N → N → bool;         (* [a < b] *)
  truthy : N → bool;          (* neither [0] nor [NaN] *)
  to_index : N → option nat   (* the array index a number denotes, if any *)
}.

Arguments lit {N _} q%_Q.

Declare Scope js_scope.
Delimit Scope js_scope with js.
Infix "+" := nadd : js_scope.
Infix "-" := nsub : js_scope.
Infix "*" := nmul : js_scope.
Infix "/" := ndiv : js_scope.
Notation "a <? b" := (nlt a b) : js_scope.
Notation "a >? b" := (nlt b a) : js_scope.

(** *** Exact rationals

    The idealised reading: no rounding error, no overflow, no [NaN].  Division
    is total with [x / 0 == 0], where the engine yields an infinity or [NaN];
    statements about a quotient therefore assume a non-zero divisor. *)

Definition Q_round (q : Q) : Q := inject_Z (Qfloor (q + (1 # 2))%Q).
Definition Q_floor (q : Q) : Q := inject_Z (Qfloor q).
Definition Q_lt (a b : Q) : bool := negb (Qle_bool b a).
Definition Q_truthy (q : Q) : bool := negb (Qeq_bool q 0%Q).
Definition Q_index (q : Q) : option nat :=
  if Qeq_bool q (inject_Z (Qfloor q)) && (0 <=? Qfloor q)%Z
  then Some (Z.to_nat (Qfloor q)) else None.

#[export] Instance Q_number : JsNumber Q := {|
  lit q := q;
  nadd := Qplus; nsub := Qminus; nmul := Qmult; ndiv := Qdiv;
  Math_abs := Qabs;
  Math_round := Q_round;
  Math_floor := Q_floor;
  nlt := Q_lt;
  truthy := Q_truthy;
  to_index := Q_index
|}.

(** *** IEEE 754 binary64

    The primitive floats of the kernel.  A literal [n / 10^k] is the correctly
    rounded quotient of two exactly representable integers, which is the
    double the engine's parser produces for it.  [Math.round] and
    [Math.floor] are computed on the exact value of the double; the sign of a
    zero result is not tracked. *)

Definition F_of_Z (z : Z) : float :=
  match z with
  | Z0 => 0%float
  | Zpos _ => PrimFloat.of_uint63 (Uint63.of_Z z)
  | Zneg p => PrimFloat.opp (PrimFloat.of_uint63 (Uint63.of_Z (Zpos p)))
  end.

Definition F_lit (q : Q) : float :=
  PrimFloat.div (F_of_Z (Qnum q)) (F_of_Z (Zpos (Qden q))).

Definition F_exact (f : float) : option Q :=
  match Prim2SF f with
  | S754_zero _ => Some 0%Q
  | S754_finite s m e =>
      Some ((if s then inject_Z (Zneg m) else inject_Z (Zpos m)) * Qpower 2 e)%Q
  | S754_infinity _ | S754_nan => None
  end.

(** Doubles of magnitude [2^52] and above are integers already. *)
Definition F_small (f : float) : bool :=
  PrimFloat.ltb (PrimFloat.abs f) 4503599627370496%float.

Definition F_round (f : float) : float :=
  match F_exact f with
  | Some q => if F_small f then F_of_Z (Qfloor (q + (1 # 2))%Q) else f
  | None => f
  end.

Definition F_floor (f : float) : float :=
  match F_exact f with
  | Some q => if F_small f then F_of_Z (Qfloor q) else f
  | None => f
  end.

Definition F_truthy (f : float) : bool :=
  PrimFloat.eqb f f && negb (PrimFloat.eqb f 0%float).

Definition F_index (f : float) : option nat :=
  match F_exact f with
  | Some q => if F_small f then Q_index q else None
  | None => None
  end.

#[export] Instance F_number : JsNumber float := {|
  lit := F_lit;
  nadd := PrimFloat.add; nsub := PrimFloat.sub;
  nmul := PrimFloat.mul; ndiv := PrimFloat.div;
  Math_abs := PrimFloat.abs;
  Math_round := F_round;
  Math_floor := F_floor;
  nlt := PrimFloat.ltb;
  truthy := F_truthy;
  to_index := F_index
|}.

(** ** Strings (ASCII letters only) *)

Definition upper_ascii (c : ascii) : ascii :=
  let n := nat_of_ascii c in
  if (97 <=? n)%nat && (n <=? 122)%nat then ascii_of_nat (n - 32) else c.

Definition lower_ascii (c : ascii) : ascii :=
  let n := nat_of_ascii c in
  if (65 <=? n)%nat && (n <=? 90)%nat then ascii_of_nat (n + 32) else c.

Fixpoint toUpperCase (s : string) : string :=
  match s with
  | EmptyString => EmptyString
  | String c s' => String (upper_ascii c) (toUpperCase s')
  end.

Fixpoint toLowerCase (s : string) : string :=
  match s with
  | EmptyString => EmptyString
  | String c s' => String (lower_ascii c) (toLowerCase s')
  end.

(** [s.includes(pat)] *)
Fixpoint includes (s pat : string) : bool :=
  if String.prefix pat s then true
  else match s with
       | EmptyString => false
       | String _ s' => includes s' pat
       end.

(** A non-empty string is truthy. *)
Definition nonempty (s : string) : bool :=
  match s with EmptyString => false | String _ _ => true end.

(** ** Effects: state and exceptions *)

Inductive Outcome (S A : Type) : Type :=
| Done (a : A) (s : S)
| Thrown (e : string) (s : S).
Arguments Done {S A} a s.
Arguments Thrown {S A} e s.

Definition Eff (S A : Type) : Type := S → Outcome S A.

Definition ret {S A} (a : A) : Eff S A := fun s => Done a s.

Definition bind {S A B} (m : Eff S A) (k : A → Eff S B) : Eff S B :=
  fun s => match m s with
           | Done a s' => k a s'
           | Thrown e s' => Thrown e s'
           end.

Definition throw {S A} (e : string) : Eff S A := fun s => Thrown e s.

(** [try { m } catch (e) { h e }] *)
Definition try_catch {S A} (m : Eff S A) (h : string → Eff S A) : Eff S A :=
  fun s => match m s with
           | Done a s' => Done a s'
           | Thrown e s' => h e s'
           end.

Definition gets {S A} (f : S → A) : Eff S A := fun s => Done (f s) s.
Definition modify {S} (f : S → S) : Eff S unit := fun s => Done tt (f s).

Declare Scope eff_scope.
Delimit Scope eff_scope with eff.
Bind Scope eff_scope with Eff.
Notation "x <- m ;; k" := (bind m (fun x => k))
  (at level 100, m at next level, k at level 200, right associativity)
  : eff_scope.
Notation "m ;; k" := (bind m (fun _ => k))
  (at level 100, k at level 200, right associativity) : eff_scope.

(** [l.forEach(f)] *)
Fixpoint forEach {S A} (l : list A) (f : A → Eff S unit) : Eff S unit :=
  match l with
  | [] => ret tt
  | x :: l' => bind (f x) (fun _ => forEach l' f)
  end.

(** The state an outcome leaves behind, whether it returned or threw. *)
Definition final {S A} (o : Outcome S A) : S :=
  match o with Done _ s => s | Thrown _ s => s end.

(** ** Data model *)

Record City : Type := { cid : string; cname : string; cstate : string }.

Inductive Direction : Type := up | down | stable.

(** [undefined] is [None]. *)
Record Trend : Type := { tgold : option Direction; tsilver : option Direction }.

(** The object [{'24k': _, '22k': _, '18k': _}]. *)
Record GoldPrices (N : Type) : Type := { k24 : N; k22 : N; k18 : N }.
Arguments Build_GoldPrices {N}.
Arguments k24 {N}. Arguments k22 {N}. Arguments k18 {N}.

(** The object [{'999': _, '925': _}]. *)
Record SilverPrices (N : Type) : Type := { s999 : N; s925 : N }.
Arguments Build_SilverPrices {N}.
Arguments s999 {N}. Arguments s925 {N}.

Record BasePrices (N : Type) : Type :=
  { base_gold : GoldPrices N; base_silver : SilverPrices N }.
Arguments Build_BasePrices {N}.
Arguments base_gold {N}. Arguments base_silver {N}.

(** A quote of the exchange, as [parseMCXData] and [getFallbackData] build it. *)
Record Quote (N : Type) : Type := {
  symbol : string;
  ltp : N; change : N; changePercent : N;
  high : N; low : N; open : N; close : N; volume : N;
  timestamp : Z
}.
Arguments Build_Quote {N}.
Arguments symbol {N}. Arguments ltp {N}. Arguments change {N}.
Arguments changePercent {N}. Arguments high {N}. Arguments low {N}.
Arguments open {N}. Arguments close {N}. Arguments volume {N}.
Arguments timestamp {N}.

(** [{gold?: Quote, silver?: Quote}] *)
Record McxData (N : Type) : Type :=
  { mcx_gold : option (Quote N); mcx_silver : option (Quote N) }.
Arguments Build_McxData {N}.
Arguments mcx_gold {N}. Arguments mcx_silver {N}.

(** One entry of the price table.  [mcxData] is present on the bundles the
    live path builds and absent on those of [initializePrices]. *)
Record Bundle (N : Type) : Type := {
  cityInfo : City;
  gold : GoldPrices N;
  silver : SilverPrices N;
  lastUpdated : Z;
  trend : Trend;
  mcxData : option (McxData N)
}.
Arguments Build_Bundle {N}.
Arguments cityInfo {N}. Arguments gold {N}. Arguments silver {N}.
Arguments lastUpdated {N}. Arguments trend {N}. Arguments mcxData {N}.

Definition METRO_CITIES : list City := [
  {| cid := "mumbai"; cname := "Mumbai"; cstate := "Maharashtra" |};
  {| cid := "delhi"; cname := "Delhi"; cstate := "Delhi" |};
  {| cid := "bangalore"; cname := "Bangalore"; cstate := "Karnataka" |};
  {| cid := "kolkata"; cname := "Kolkata"; cstate := "West Bengal" |};
  {| cid := "chennai"; cname := "Chennai"; cstate := "Tamil Nadu" |};
  {| cid := "hyderabad"; cname := "Hyderabad"; cstate := "Telangana" |};
  {| cid := "pune"; cname := "Pune"; cstate := "Maharashtra" |};
  {| cid := "ahmedabad"; cname := "Ahmedabad"; cstate := "Gujarat" |};
  {| cid := "jaipur"; cname := "Jaipur"; cstate := "Rajasthan" |};
  {| cid := "surat"; cname := "Surat"; cstate := "Gujarat" |};
  {| cid := "lucknow"; cname := "Lucknow"; cstate := "Uttar Pradesh" |};
  {| cid := "kanpur"; cname := "Kanpur"; cstate := "Uttar Pradesh" |};
  {| cid := "nagpur"; cname := "Nagpur"; cstate := "Maharashtra" |};
  {| cid := "indore"; cname := "Indore"; cstate := "Madhya Pradesh" |};
  {| cid := "thane"; cname := "Thane"; cstate := "Maharashtra" |};
  {| cid := "bhopal"; cname := "Bhopal"; cstate := "Madhya Pradesh" |};
  {| cid := "visakhapatnam"; cname := "Visakhapatnam"; cstate := "Andhra Pradesh" |};
  {| cid := "pimpri"; cname := "Pimpri-Chinchwad"; cstate := "Maharashtra" |};
  {| cid := "patna"; cname := "Patna"; cstate := "Bihar" |};
  {| cid := "vadodara"; cname := "Vadodara"; cstate := "Gujarat" |}
].

(** An object literal mapping names to numeric literals, and [t[k]]. *)
Fixpoint table_get (t : list (string * Q)) (k : string) : option Q :=
  match t with
  | [] => None
  | (k', v) :: t' => if String.eqb k k' then Some v else table_get t' k
  end.

(** ** The server: [server.js] and [mcx-api.js] *)

(** The module-level variables of [server.js], and the inputs of the model:
    [draws] and [drawn] are the values [Math.random()] returns and how many
    were taken, [clock] is the time in milliseconds, [timeouts] holds the
    expiry times of the pending [setTimeout] callbacks (all of them re-enable
    the live source), [emitted] logs the payloads of
    [io.emit('priceUpdate', _)], oldest first. *)
Record Server (N : Type) : Type := {
  BASE_PRICES : BasePrices N;
  currentPrices : gmap string (Bundle N);
  useMCXData : bool;
  timeouts : list Z;
  emitted : list (gmap string (Bundle N));
  draws : nat → N;
  drawn : nat;
  clock : Z
}.
Arguments Build_Server {N}.
Arguments BASE_PRICES {N}. Arguments currentPrices {N}.
Arguments useMCXData {N}. Arguments timeouts {N}. Arguments emitted {N}.
Arguments draws {N}. Arguments drawn {N}. Arguments clock {N}.

(** What [axios.post] settles to: a rejection (time-out, network error,
    status outside 2xx), or a response whose [data.d] is falsy ([None]), is
    not JSON ([Some None]), or parses to a value.

    An item of the array is an object whose [Symbol] is a string; the empty
    string also stands for a [Symbol] that is missing or falsy, and for an
    item that is a number, a string, a boolean or an array, whose [Symbol] is
    [undefined].  An array holding [null], or an object whose [Symbol] is
    truthy and not a string, is not a [Payload]: on it the loop of
    [parseMCXData] raises a [TypeError], its [catch] returns
    [getFallbackData()], and [fetchLiveData] returns what it returns for
    [Resolved (Some None)]. *)
Record Item (N : Type) : Type := {
  Symbol : string;
  (* [parseFloat] / [parseInt] of the field; [None] is [NaN] *)
  LTP : option N; Change : option N; ChangePercent : option N;
  High : option N; Low : option N; Open : option N; Close : option N;
  Volume : option N
}.
Arguments Build_Item {N}.
Arguments Symbol {N}. Arguments LTP {N}. Arguments Change {N}.
Arguments ChangePercent {N}. Arguments High {N}. Arguments Low {N}.
Arguments Open {N}. Arguments Close {N}. Arguments Volume {N}.

Inductive Payload (N : Type) : Type :=
| NotArray
| Items (l : list (Item N)).
Arguments NotArray {N}.
Arguments Items {N} l.

Inductive AxiosResult (N : Type) : Type :=
| Rejected (e : string)
| Resolved (d : option (option (Payload N))).
Arguments Rejected {N} e.
Arguments Resolved {N} d.

Inductive JsValue (N : Type) : Type :=
| Own (b : Bundle N)              (* a property of the object itself *)
| Inherited (k : string).         (* a member of [Object.prototype] *)
Arguments Own {N} b.
Arguments Inherited {N} k.

Inductive Response (N : Type) : Type :=
| Json (v : JsValue N)            (* [res.json(v)], status 200 *)
| NotFound (error : string).      (* [res.status(404).json({error})] *)
Arguments Json {N} v.
Arguments NotFound {N} error.

(** The property names every plain object inherits; each is bound to a
    function or, for [__proto__], to an object: all truthy. *)
Definition Object_prototype : list string := [
  "constructor"; "__defineGetter__"; "__defineSetter__"; "hasOwnProperty";
  "__lookupGetter__"; "__lookupSetter__"; "isPrototypeOf";
  "propertyIsEnumerable"; "toString"; "valueOf"; "__proto__";
  "toLocaleString"
].

Section Server.
Context {N : Type} `{JsNumber N}.

Definition set_BASE_PRICES (v : BasePrices N) (s : Server N) : Server N :=
  {| BASE_PRICES := v; currentPrices := currentPrices s;
     useMCXData := useMCXData s; timeouts := timeouts s;
     emitted := emitted s; draws := draws s; drawn := drawn s;
     clock := clock s |}.

Definition set_currentPrices (v : gmap string (Bundle N)) (s : Server N)
  : Server N :=
  {| BASE_PRICES := BASE_PRICES s; currentPrices := v;
     useMCXData := useMCXData s; timeouts := timeouts s;
     emitted := emitted s; draws := draws s; drawn := drawn s;
     clock := clock s |}.

Definition set_useMCXData (v : bool) (s : Server N) : Server N :=
  {| BASE_PRICES := BASE_PRICES s; currentPrices := currentPrices s;
     useMCXData := v; timeouts := timeouts s;
     emitted := emitted s; draws := draws s; drawn := drawn s;
     clock := clock s |}.

Definition set_timeouts (v : list Z) (s : Server N) : Server N :=
  {| BASE_PRICES := BASE_PRICES s; currentPrices := currentPrices s;
     useMCXData := useMCXData s; timeouts := v;
     emitted := emitted s; draws := draws s; drawn := drawn s;
     clock := clock s |}.

Definition set_emitted (v : list (gmap string (Bundle N))) (s : Server N)
  : Server N :=
  {| BASE_PRICES := BASE_PRICES s; currentPrices := currentPrices s;
     useMCXData := useMCXData s; timeouts := timeouts s;
     emitted := v; draws := draws s; drawn := drawn s;
     clock := clock s |}.

Definition set_drawn (v : nat) (s : Server N) : Server N :=
  {| BASE_PRICES := BASE_PRICES s; currentPrices := currentPrices s;
     useMCXData := useMCXData s; timeouts := timeouts s;
     emitted := emitted s; draws := draws s; drawn := v;
     clock := clock s |}.

Definition set_clock (v : Z) (s : Server N) : Server N :=
  {| BASE_PRICES := BASE_PRICES s; currentPrices := currentPrices s;
     useMCXData := useMCXData s; timeouts := timeouts s;
     emitted := emitted s; draws := draws s; drawn := drawn s;
     clock := v |}.

(** [Math.random()], [new Date()], [io.emit('priceUpdate', currentPrices)]
    and [setTimeout(_, ms)]. *)
Definition Math_random : Eff (Server N) N :=
  fun s => Done (draws s (drawn s)) (set_drawn (S (drawn s)) s).

(** The clock is read, not advanced: the calls of [new Date()] within one
    handler all return the time the handler began at.  In the program two
    calls of one handler can differ by the time the handler has been
    running. *)
Definition Date_now : Eff (Server N) Z := gets clock.

Definition io_emit_priceUpdate : Eff (Server N) unit :=
  modify (fun s => set_emitted (emitted s ++ [currentPrices s]) s).

Definition setTimeout (ms : Z) : Eff (Server N) unit :=
  modify (fun s => set_timeouts (timeouts s ++ [(clock s + ms)%Z]) s).

(** [x || d] for a table entry [x]: the default replaces a missing entry
    and a falsy one. *)
Definition or_default (x : option Q) (d : Q) : N :=
  match x with
  | Some v => if truthy (lit v) then lit v else lit d
  | None => lit d
  end.

(** *** [server.js] *)

Definition cityVariations : list (string * Q) := [
  ("mumbai", 1.02); ("delhi", 1.01); ("bangalore", 1.015);
  ("kolkata", 1.025); ("chennai", 1.01); ("hyderabad", 1.005);
  ("pune", 1.018); ("ahmedabad", 0.995); ("jaipur", 0.98);
  ("surat", 0.99)
]%Q.

Definition generateCityPrice (basePrice : N) (cityId : string)
  : Eff (Server N) N :=
  (let variation := or_default (table_get cityVariations cityId) 1.0 in
   r <- Math_random ;;
   let randomVariation := (lit 0.995 + r * lit 0.01)%js in
   ret (Math_round (basePrice * variation * randomVariation)%js))%eff.

Definition getRandomTrend : Eff (Server N) (option Direction) :=
  (let trends := [up; down; stable] in
   r <- Math_random ;;
   ret (match to_index (Math_floor (r * lit 3)%js) with
        | Some i => nth_error trends i
        | None => None
        end))%eff.

Definition initializePrices : Eff (Server N) unit :=
  forEach METRO_CITIES (fun city =>
    (base <- gets BASE_PRICES ;;
     g24 <- generateCityPrice (k24 (base_gold base)) (cid city) ;;
     g22 <- generateCityPrice (k22 (base_gold base)) (cid city) ;;
     g18 <- generateCityPrice (k18 (base_gold base)) (cid city) ;;
     s999 <- generateCityPrice (s999 (base_silver base)) (cid city) ;;
     s925 <- generateCityPrice (s925 (base_silver base)) (cid city) ;;
     now <- Date_now ;;
     tg <- getRandomTrend ;;
     ts <- getRandomTrend ;;
     modify (fun s =>
       set_currentPrices
         (<[cid city :=
              {| cityInfo := city;
                 gold := {| k24 := g24; k22 := g22; k18 := g18 |};
                 silver := {| s999 := s999; s925 := s925 |};
                 lastUpdated := now;
                 trend := {| tgold := tg; tsilver := ts |};
                 mcxData := None |}]> (currentPrices s)) s))%eff).

(** One step of the random walk: [Math.round(p * (1 + (r - 0.5) * w))]. *)
Definition fluctuate (currentPrice : N) (w : Q) : Eff (Server N) N :=
  (r <- Math_random ;;
   let changePercent := ((r - lit 0.5) * lit w)%js in
   ret (Math_round (currentPrice * (lit 1 + changePercent))%js))%eff.

(** The callback of the [forEach] of [updatePricesSimulated].
    [Object.keys] enumerates ['24k'; '22k'; '18k'] in insertion order, and
    the integer-like keys of the silver object in ascending numeric order,
    ['925'] before ['999'].  The bundle is mutated in place; nothing can
    throw between the reads and the writes, so it is written back once. *)
Definition walk_city (city : City) : Eff (Server N) unit :=
  (prices <- gets currentPrices ;;
   match prices !! cid city with
   | None => throw "TypeError: Cannot read properties of undefined"
   | Some cityPrices =>
       g24 <- fluctuate (k24 (gold cityPrices)) 0.004 ;;
       g22 <- fluctuate (k22 (gold cityPrices)) 0.004 ;;
       g18 <- fluctuate (k18 (gold cityPrices)) 0.004 ;;
       s925 <- fluctuate (s925 (silver cityPrices)) 0.006 ;;
       s999 <- fluctuate (s999 (silver cityPrices)) 0.006 ;;
       tg <- getRandomTrend ;;
       ts <- getRandomTrend ;;
       now <- Date_now ;;
       modify (fun s =>
         set_currentPrices
           (<[cid city :=
                {| cityInfo := cityInfo cityPrices;
                   gold := {| k24 := g24; k22 := g22; k18 := g18 |};
                   silver := {| s999 := s999; s925 := s925 |};
                   lastUpdated := now;
                   trend := {| tgold := tg; tsilver := ts |};
                   mcxData := mcxData cityPrices |}]> (currentPrices s)) s)
   end)%eff.

Definition updatePricesSimulated : Eff (Server N) unit :=
  (forEach METRO_CITIES walk_city ;;
   io_emit_priceUpdate)%eff.

(** The callback of [cron.schedule('*/5 * * * *', _)]. *)
Definition majorMarketUpdate : Eff (Server N) unit :=
  (r <- Math_random ;;
   let marketChange := ((r - lit 0.5) * lit 0.02)%js in
   let shock p := Math_round (p * (lit 1 + marketChange))%js in
   modify (fun s =>
     let b := BASE_PRICES s in
     set_BASE_PRICES
       {| base_gold := {| k24 := shock (k24 (base_gold b));
                          k22 := shock (k22 (base_gold b));
                          k18 := shock (k18 (base_gold b)) |};
          base_silver := {| s999 := shock (s999 (base_silver b));
                            s925 := shock (s925 (base_silver b)) |} |} s) ;;
   initializePrices)%eff.

(** *** [mcx-api.js] *)

Definition cityMultipliers : list (string * Q) := [
  ("mumbai", 1.025); ("delhi", 1.015); ("bangalore", 1.020);
  ("kolkata", 1.030); ("chennai", 1.015); ("hyderabad", 1.010);
  ("pune", 1.022); ("ahmedabad", 0.995); ("jaipur", 0.985);
  ("surat", 0.990); ("lucknow", 1.005); ("kanpur", 1.000);
  ("nagpur", 1.002); ("indore", 0.998); ("thane", 1.020);
  ("bhopal", 1.005); ("visakhapatnam", 1.012); ("pimpri", 1.018);
  ("patna", 1.008); ("vadodara", 0.995)
]%Q.

Definition getCityMultiplier (cityId : string) : N :=
  or_default (table_get cityMultipliers cityId) 1.000.

Definition getTrend (changePercent : N) : Direction :=
  if (changePercent >? lit 0.1)%js then up
  else if (changePercent <? lit (-0.1))%js then down
  else stable.

Definition getFallbackGoldPrices (cityId : string) : GoldPrices N :=
  let basePrice := lit 105200 in
  let cityMultiplier := getCityMultiplier cityId in
  {| k24 := Math_round (basePrice * cityMultiplier)%js;
     k22 := Math_round (basePrice * lit 0.917 * cityMultiplier)%js;
     k18 := Math_round (basePrice * lit 0.750 * cityMultiplier)%js |}.

Definition getFallbackSilverPrices (cityId : string) : SilverPrices N :=
  let basePrice := lit 123800 in
  let cityMultiplier := getCityMultiplier cityId in
  {| s999 := Math_round (basePrice * cityMultiplier)%js;
     s925 := Math_round (basePrice * lit 0.925 * cityMultiplier)%js |}.

Definition calculateGoldPrices (goldMCXData : option (Quote N))
    (cityId : string) : GoldPrices N :=
  match goldMCXData with
  | None => getFallbackGoldPrices cityId
  | Some q =>
      if negb (truthy (ltp q)) then getFallbackGoldPrices cityId
      else
        let mcxPrice := ltp q in
        let cityMultiplier := getCityMultiplier cityId in
        {| k24 := Math_round
                    (mcxPrice * (lit 24 / lit 23.88) * cityMultiplier)%js;
           k22 := Math_round
                    (mcxPrice * (lit 22 / lit 23.88) * cityMultiplier)%js;
           k18 := Math_round
                    (mcxPrice * (lit 18 / lit 23.88) * cityMultiplier)%js |}
  end.

Definition calculateSilverPrices (silverMCXData : option (Quote N))
    (cityId : string) : SilverPrices N :=
  match silverMCXData with
  | None => getFallbackSilverPrices cityId
  | Some q =>
      if negb (truthy (ltp q)) then getFallbackSilverPrices cityId
      else
        let mcxPrice := ltp q in
        let cityMultiplier := getCityMultiplier cityId in
        {| s999 := Math_round (mcxPrice * cityMultiplier)%js;
           s925 := Math_round (mcxPrice * lit 0.925 * cityMultiplier)%js |}
  end.

(** [q?.changePercent || 0] *)
Definition changePercent_or_0 (q : option (Quote N)) : N :=
  match q with
  | Some q => if truthy (changePercent q) then changePercent q else lit 0
  | None => lit 0
  end.

Definition convertToLocationPrices (mcxData : McxData N)
    (cities : list City) : Eff (Server N) (gmap string (Bundle N)) :=
  (now <- Date_now ;;
   ret (fold_left
          (fun locationPrices city =>
             <[cid city :=
                 {| cityInfo := city;
                    gold := calculateGoldPrices (mcx_gold mcxData) (cid city);
                    silver :=
                      calculateSilverPrices (mcx_silver mcxData) (cid city);
                    lastUpdated := now;
                    trend :=
                      {| tgold :=
                           Some (getTrend
                                   (changePercent_or_0 (mcx_gold mcxData)));
                         tsilver :=
                           Some (getTrend
                                   (changePercent_or_0 (mcx_silver mcxData)))
                      |};
                    mcxData := Some mcxData |}]> locationPrices)
          cities ∅))%eff.

(** [parseFloat(x) || 0] *)
Definition or_0 (x : option N) : N :=
  match x with
  | Some v => if truthy v then v else lit 0
  | None => lit 0
  end.

Definition quote_of_item (item : Item N) (now : Z) : Quote N :=
  {| symbol := Symbol item;
     ltp := or_0 (LTP item); change := or_0 (Change item);
     changePercent := or_0 (ChangePercent item);
     high := or_0 (High item); low := or_0 (Low item);
     open := or_0 (Open item); close := or_0 (Close item);
     volume := or_0 (Volume item);
     timestamp := now |}.

(** The [forEach] of [parseMCXData]: a later item overwrites the quote of an
    earlier one. *)
Definition parse_items (l : list (Item N)) (now : Z) : McxData N :=
  fold_left
    (fun commodityData item =>
       if nonempty (Symbol item) then
         let symbol := toUpperCase (Symbol item) in
         let d1 :=
           if includes symbol "GOLD"
           then {| mcx_gold := Some (quote_of_item item now);
                   mcx_silver := mcx_silver commodityData |}
           else commodityData in
         if includes symbol "SILVER"
         then {| mcx_gold := mcx_gold d1;
                 mcx_silver := Some (quote_of_item item now) |}
         else d1
       else commodityData)
    l {| mcx_gold := None; mcx_silver := None |}.

Definition getFallbackData : Eff (Server N) (McxData N) :=
  (r1 <- Math_random ;;
   r2 <- Math_random ;;
   r3 <- Math_random ;;
   now1 <- Date_now ;;
   r4 <- Math_random ;;
   r5 <- Math_random ;;
   r6 <- Math_random ;;
   now2 <- Date_now ;;
   ret {| mcx_gold :=
            Some {| symbol := "GOLD";
                    ltp := (lit 105200 + (r1 - lit 0.5) * lit 1000)%js;
                    change := ((r2 - lit 0.5) * lit 500)%js;
                    changePercent := ((r3 - lit 0.5) * lit 2)%js;
                    high := lit 105800; low := lit 104600;
                    open := lit 105000; close := lit 105100;
                    volume := lit 12500; timestamp := now1 |};
          mcx_silver :=
            Some {| symbol := "SILVER";
                    ltp := (lit 123800 + (r4 - lit 0.5) * lit 2000)%js;
                    change := ((r5 - lit 0.5) * lit 1000)%js;
                    changePercent := ((r6 - lit 0.5) * lit 3)%js;
                    high := lit 124500; low := lit 123100;
                    open := lit 123500; close := lit 123700;
                    volume := lit 8500; timestamp := now2 |} |})%eff.

(** The [catch] answers an exception of the loop; on the items of a
    [Payload] the loop raises none. *)
Definition parseMCXData (data : Payload N) : Eff (Server N) (McxData N) :=
  try_catch
    (now <- Date_now ;;
     ret (match data with
          | NotArray => {| mcx_gold := None; mcx_silver := None |}
          | Items l => parse_items l now
          end))%eff
    (fun _ => getFallbackData).

(** The [catch] of [fetchLiveData] absorbs every failure of the request and
    of the decoding, and answers with [getFallbackData]. *)
Definition fetchLiveData (axios : AxiosResult N)
  : Eff (Server N) (McxData N) :=
  try_catch
    (match axios with
     | Rejected e => throw e
     | Resolved None => throw "Invalid MCX API response format"
     | Resolved (Some None) => throw "SyntaxError"
     | Resolved (Some (Some data)) => parseMCXData data
     end)
    (fun _ => getFallbackData).

(** *** [server.js], the update loop *)

(** [mcxData && (mcxData.gold || mcxData.silver)] *)
Definition has_quote (mcxData : McxData N) : bool :=
  match mcx_gold mcxData, mcx_silver mcxData with
  | None, None => false
  | _, _ => true
  end.

Definition updatePricesFromMCX (axios : AxiosResult N)
  : Eff (Server N) unit :=
  try_catch
    (mcxData <- fetchLiveData axios ;;
     if has_quote mcxData then
       prices <- convertToLocationPrices mcxData METRO_CITIES ;;
       modify (set_currentPrices prices) ;;
       io_emit_priceUpdate
     else throw "No valid MCX data received")%eff
    (fun _ =>
       modify (set_useMCXData false) ;;
       updatePricesSimulated ;;
       setTimeout (5 * 60 * 1000))%eff.

(** [axios] is what the request of this tick settles to, should one be
    made. *)
Definition updatePrices (axios : AxiosResult N) : Eff (Server N) unit :=
  try_catch
    (use <- gets useMCXData ;;
     if use then updatePricesFromMCX axios else updatePricesSimulated)%eff
    (fun _ => updatePricesSimulated).

Definition initializeApp (axios : AxiosResult N) : Eff (Server N) unit :=
  try_catch
    (mcxData <- fetchLiveData axios ;;
     if has_quote mcxData then
       prices <- convertToLocationPrices mcxData METRO_CITIES ;;
       modify (set_currentPrices prices)
     else throw "No MCX data available")%eff
    (fun _ =>
       modify (set_useMCXData false) ;;
       initializePrices)%eff.

(** [o[k]] on a plain object [o]: an own property, else a member of
    [Object.prototype], else [undefined]. *)
Definition js_get (o : gmap string (Bundle N)) (k : string)
  : option (JsValue N) :=
  match o !! k with
  | Some b => Some (Own b)
  | None =>
      if existsb (String.eqb k) Object_prototype then Some (Inherited k)
      else None
  end.

(** [app.get('/api/prices/:cityId', _)]; every value [js_get] can return is
    truthy. *)
Definition get_api_prices_cityId (cityId : string)
  : Eff (Server N) (Response N) :=
  (prices <- gets currentPrices ;;
   match js_get prices cityId with
   | Some v => ret (Json v)
   | None => ret (NotFound "City not found")
   end)%eff.

(** The state at start-up: the literals of [server.js]. *)
Definition boot (rnd : nat → N) (t0 : Z) : Server N :=
  {| BASE_PRICES :=
       {| base_gold := {| k24 := lit 105500; k22 := lit 96700;
                          k18 := lit 79100 |};
          base_silver := {| s999 := lit 124000; s925 := lit 114600 |} |};
     currentPrices := ∅;
     useMCXData := true;
     timeouts := [];
     emitted := [];
     draws := rnd; drawn := 0;
     clock := t0 |}.

(** The events the server reacts to after start-up.  A trace is a sequence
    of events that begin once [initializeApp] has completed, each handled to
    its end before the next begins.  A tick still awaiting its reply while
    another handler runs (one that began during start-up, or one whose
    request outlasts the ten seconds to the next tick) is not an event of a
    trace: it read [useMCXData] when it began, and what it does when it
    resumes is [updatePricesFromMCX] on the state it resumes in. *)
Inductive Event : Type :=
| FastTick (axios : AxiosResult N)      (* cron, every 10 seconds *)
| MajorTick                             (* cron, every 5 minutes *)
| GetPrice (cityId : string).           (* GET /api/prices/:cityId *)

(** Run the expired [setTimeout] callbacks: each sets [useMCXData = true]. *)
Definition run_timeouts (s : Server N) : Server N :=
  let due := List.filter (fun t => (t <=? clock s)%Z) (timeouts s) in
  let rest := List.filter (fun t => negb (t <=? clock s)%Z) (timeouts s) in
  match due with
  | [] => s
  | _ :: _ => set_useMCXData true (set_timeouts rest s)
  end.

Definition handle (ev : Event) : Eff (Server N) unit :=
  match ev with
  | FastTick axios => updatePrices axios
  | MajorTick => majorMarketUpdate
  | GetPrice cityId => (_ <- get_api_prices_cityId cityId ;; ret tt)%eff
  end.

(** Event [ev] arrives at time [t]: the clock advances, expired timers
    fire, the handler runs.  An exception escaping a handler leaves the
    state it had reached. *)
Definition deliver (t : Z) (ev : Event) (s : Server N) : Server N :=
  final (handle ev (run_timeouts (set_clock (Z.max (clock s) t) s))).

Fixpoint run (tr : list (Z * Event)) (s : Server N) : Server N :=
  match tr with
  | [] => s
  | (t, ev) :: tr' => run tr' (deliver t ev s)
  end.
End Server.

(** ** The browser: class [PreciousMetalsApp] *)

(** [chartData.gold] and [chartData.silver]: two parallel arrays and a cap. *)
Record ChartSeries (N : Type) : Type :=
  { timestamps : list string; prices : list N; maxPoints : nat }.
Arguments Build_ChartSeries {N}.
Arguments timestamps {N}. Arguments prices {N}. Arguments maxPoints {N}.

Record Toast : Type := { toast_message : string; toast_type : string }.

(** One [.price-row]: purity, price and the change against the previous
    snapshot. *)
Record PriceRow (N : Type) : Type :=
  { row_purity : string; row_price : N; row_change : N }.
Arguments Build_PriceRow {N}.
Arguments row_purity {N}. Arguments row_price {N}. Arguments row_change {N}.

(** One [.city-card]; a metal section the filter hides is [None]. *)
Record Card (N : Type) : Type := {
  card_city : City;
  card_time : Z;
  card_gold : option (list (PriceRow N));
  card_silver : option (list (PriceRow N))
}.
Arguments Build_Card {N}.
Arguments card_city {N}. Arguments card_time {N}.
Arguments card_gold {N}. Arguments card_silver {N}.

(** The content of [#priceGrid]. *)
Inductive Grid (N : Type) : Type :=
| GridMessage (html : string)
| GridCards (cards : list (Card N)).
Arguments GridMessage {N} html.
Arguments GridCards {N} cards.

(** The fields of the application object, and the part of its environment
    the model keeps: the grid element, the toasts shown (oldest first), the
    delays of the pending reconnection timers and the number of sockets
    [initializeSocket] has opened. *)
Record App (N : Type) : Type := {
  allPrices : gmap string (Bundle N);
  cities : list City;
  filteredData : gmap string (Bundle N);
  previousPrices : gmap string (Bundle N);
  retryCount : nat;
  maxRetries : nat;
  chart_gold : ChartSeries N;
  chart_silver : ChartSeries N;
  priceGrid : Grid N;
  toasts : list Toast;
  pending : list Z;
  sockets : nat
}.
Arguments Build_App {N}.
Arguments allPrices {N}. Arguments cities {N}. Arguments filteredData {N}.
Arguments previousPrices {N}. Arguments retryCount {N}.
Arguments maxRetries {N}. Arguments chart_gold {N}.
Arguments chart_silver {N}. Arguments priceGrid {N}. Arguments toasts {N}.
Arguments pending {N}. Arguments sockets {N}.

Section Client.
Context {N : Type} `{JsNumber N}.

(** [a.localeCompare(b)]: the collation of the browser, not fixed here. *)
Variable localeCompare : string → string → Z.

Definition set_allPrices (v : gmap string (Bundle N)) (a : App N) : App N :=
  {| allPrices := v; cities := cities a; filteredData := filteredData a;
     previousPrices := previousPrices a; retryCount := retryCount a;
     maxRetries := maxRetries a; chart_gold := chart_gold a;
     chart_silver := chart_silver a; priceGrid := priceGrid a;
     toasts := toasts a; pending := pending a; sockets := sockets a |}.

Definition set_cities (v : list City) (a : App N) : App N :=
  {| allPrices := allPrices a; cities := v; filteredData := filteredData a;
     previousPrices := previousPrices a; retryCount := retryCount a;
     maxRetries := maxRetries a; chart_gold := chart_gold a;
     chart_silver := chart_silver a; priceGrid := priceGrid a;
     toasts := toasts a; pending := pending a; sockets := sockets a |}.

Definition set_filteredData (v : gmap string (Bundle N)) (a : App N)
  : App N :=
  {| allPrices := allPrices a; cities := cities a; filteredData := v;
     previousPrices := previousPrices a; retryCount := retryCount a;
     maxRetries := maxRetries a; chart_gold := chart_gold a;
     chart_silver := chart_silver a; priceGrid := priceGrid a;
     toasts := toasts a; pending := pending a; sockets := sockets a |}.

Definition set_previousPrices (v : gmap string (Bundle N)) (a : App N)
  : App N :=
  {| allPrices := allPrices a; cities := cities a;
     filteredData := filteredData a;
     previousPrices := v; retryCount := retryCount a;
     maxRetries := maxRetries a; chart_gold := chart_gold a;
     chart_silver := chart_silver a; priceGrid := priceGrid a;
     toasts := toasts a; pending := pending a; sockets := sockets a |}.

Definition set_retryCount (v : nat) (a : App N) : App N :=
  {| allPrices := allPrices a; cities := cities a;
     filteredData := filteredData a;
     previousPrices := previousPrices a; retryCount := v;
     maxRetries := maxRetries a; chart_gold := chart_gold a;
     chart_silver := chart_silver a; priceGrid := priceGrid a;
     toasts := toasts a; pending := pending a; sockets := sockets a |}.

Definition set_charts (g s : ChartSeries N) (a : App N) : App N :=
  {| allPrices := allPrices a; cities := cities a;
     filteredData := filteredData a;
     previousPrices := previousPrices a; retryCount := retryCount a;
     maxRetries := maxRetries a; chart_gold := g;
     chart_silver := s; priceGrid := priceGrid a;
     toasts := toasts a; pending := pending a; sockets := sockets a |}.

Definition set_priceGrid (v : Grid N) (a : App N) : App N :=
  {| allPrices := allPrices a; cities := cities a;
     filteredData := filteredData a;
     previousPrices := previousPrices a; retryCount := retryCount a;
     maxRetries := maxRetries a; chart_gold := chart_gold a;
     chart_silver := chart_silver a; priceGrid := v;
     toasts := toasts a; pending := pending a; sockets := sockets a |}.

Definition set_toasts (v : list Toast) (a : App N) : App N :=
  {| allPrices := allPrices a; cities := cities a;
     filteredData := filteredData a;
     previousPrices := previousPrices a; retryCount := retryCount a;
     maxRetries := maxRetries a; chart_gold := chart_gold a;
     chart_silver := chart_silver a; priceGrid := priceGrid a;
     toasts := v; pending := pending a; sockets := sockets a |}.

Definition set_pending (v : list Z) (a : App N) : App N :=
  {| allPrices := allPrices a; cities := cities a;
     filteredData := filteredData a;
     previousPrices := previousPrices a; retryCount := retryCount a;
     maxRetries := maxRetries a; chart_gold := chart_gold a;
     chart_silver := chart_silver a; priceGrid := priceGrid a;
     toasts := toasts a; pending := v; sockets := sockets a |}.

Definition set_sockets (v : nat) (a : App N) : App N :=
  {| allPrices := allPrices a; cities := cities a;
     filteredData := filteredData a;
     previousPrices := previousPrices a; retryCount := retryCount a;
     maxRetries := maxRetries a; chart_gold := chart_gold a;
     chart_silver := chart_silver a; priceGrid := priceGrid a;
     toasts := toasts a; pending := pending a; sockets := v |}.

(** The object the constructor builds. *)
Definition new_App : App N :=
  {| allPrices := ∅; cities := []; filteredData := ∅; previousPrices := ∅;
     retryCount := 0; maxRetries := 5;
     chart_gold :=
       {| timestamps := []; prices := []; maxPoints := 60 |};
     chart_silver :=
       {| timestamps := []; prices := []; maxPoints := 60 |};
     priceGrid := GridCards [];
     toasts := []; pending := []; sockets := 0 |}.

Definition showToast (message type : string) (a : App N) : App N :=
  set_toasts
    (toasts a ++ [{| toast_message := message; toast_type := type |}]) a.

(** [JSON.parse(JSON.stringify(x))]: on immutable values a copy is the
    value itself. *)
Definition deep_copy (x : gmap string (Bundle N)) : gmap string (Bundle N) :=
  x.

(** *** Significant changes *)

Definition significantChangeThreshold : Q := 0.005.

(** [Math.abs(current - previous) / previous > threshold] *)
Definition significant (current previous : N) : bool :=
  let change := (Math_abs (current - previous) / previous)%js in
  (change >? lit significantChangeThreshold)%js.

Definition direction (current previous : N) : string :=
  if (current >? previous)%js then "increased" else "decreased".

(** The body of the [forEach] of [checkSignificantChanges], for a city
    present in both snapshots. *)
Definition cityToasts (current previous : Bundle N) : list Toast :=
  (if significant (k24 (gold current)) (k24 (gold previous))
   then [{| toast_message :=
              "Gold price " ++
              direction (k24 (gold current)) (k24 (gold previous)) ++
              " significantly in " ++ cname (cityInfo current);
            toast_type := "info" |}]
   else []) ++
  (if significant (s999 (silver current)) (s999 (silver previous))
   then [{| toast_message :=
              "Silver price " ++
              direction (s999 (silver current)) (s999 (silver previous)) ++
              " significantly in " ++ cname (cityInfo current);
            toast_type := "info" |}]
   else []).

Definition checkSignificantChanges (a : App N) : App N :=
  set_toasts
    (toasts a ++
     flat_map
       (fun kv : string * Bundle N =>
          match previousPrices a !! kv.1 with
          | None => []
          | Some previous => cityToasts kv.2 previous
          end)
       (map_to_list (allPrices a)))
    a.

(** *** Charts *)

(** [timestamps.push(t); prices.push(p)], then one [shift()] of both
    arrays if the length exceeds [maxPoints]. *)
Definition append_point (timeLabel : string) (p : N) (c : ChartSeries N)
  : ChartSeries N :=
  let ts := (timestamps c ++ [timeLabel])%list in
  let ps := (prices c ++ [p])%list in
  if (maxPoints c <? length ts)%nat
  then {| timestamps := tail ts; prices := tail ps;
          maxPoints := maxPoints c |}
  else {| timestamps := ts; prices := ps; maxPoints := maxPoints c |}.

Definition average (f : Bundle N → N) (l : list (Bundle N)) : N :=
  Math_round
    (fold_left (fun sum city => (sum + f city)%js) l (lit 0) /
     lit (inject_Z (Z.of_nat (length l))))%js.

Definition updateChartData (timeLabel : string) (a : App N) : App N :=
  if (size (allPrices a) =? 0)%nat then a
  else
    let allCityData := (map_to_list (allPrices a)).*2 in
    let avgGoldPrice := average (fun city => k24 (gold city)) allCityData in
    let avgSilverPrice :=
      average (fun city => s999 (silver city)) allCityData in
    set_charts (append_point timeLabel avgGoldPrice (chart_gold a))
               (append_point timeLabel avgSilverPrice (chart_silver a)) a.

(** *** Filters and the grid *)

(** [list.sort(cmp)], a stable sort. *)
Fixpoint insert_by {A} (cmp : A → A → Z) (x : A) (l : list A) : list A :=
  match l with
  | [] => [x]
  | y :: l' =>
      if (cmp x y <=? 0)%Z then x :: y :: l' else y :: insert_by cmp x l'
  end.

Definition sort_by {A} (cmp : A → A → Z) (l : list A) : list A :=
  foldr (insert_by cmp) [] l.

(** [previousPrices[purity] || price], then the difference. *)
Definition price_row (purity : string) (price : N) (previous : option N)
  : PriceRow N :=
  let previousPrice :=
    match previous with
    | Some p => if truthy p then p else price
    | None => price
    end in
  {| row_purity := purity; row_price := price;
     row_change := (price - previousPrice)%js |}.

(** [renderMetalSection], rows in the order of [Object.entries]. *)
Definition renderGoldSection (currentPrices : GoldPrices N)
    (previousPrices : option (GoldPrices N)) (metalFilter : string)
  : option (list (PriceRow N)) :=
  if nonempty metalFilter && negb (String.eqb metalFilter "gold") then None
  else Some [price_row "24k" (k24 currentPrices) (k24 <$> previousPrices);
             price_row "22k" (k22 currentPrices) (k22 <$> previousPrices);
             price_row "18k" (k18 currentPrices) (k18 <$> previousPrices)].

Definition renderSilverSection (currentPrices : SilverPrices N)
    (previousPrices : option (SilverPrices N)) (metalFilter : string)
  : option (list (PriceRow N)) :=
  if nonempty metalFilter && negb (String.eqb metalFilter "silver")
  then None
  else Some [price_row "925" (s925 currentPrices) (s925 <$> previousPrices);
             price_row "999" (s999 currentPrices) (s999 <$> previousPrices)].

Definition createCityCard (a : App N) (metalFilter : string)
    (cityData : Bundle N) : Card N :=
  let previousCityData := previousPrices a !! cid (cityInfo cityData) in
  {| card_city := cityInfo cityData;
     card_time := lastUpdated cityData;
     card_gold :=
       renderGoldSection (gold cityData) (gold <$> previousCityData)
         metalFilter;
     card_silver :=
       renderSilverSection (silver cityData) (silver <$> previousCityData)
         metalFilter |}.

Definition renderPriceGrid (metalFilter : string) (a : App N) : App N :=
  let dataToRender :=
    if (0 <? size (filteredData a))%nat then filteredData a
    else allPrices a in
  if (size dataToRender =? 0)%nat then
    set_priceGrid
      (GridMessage "No cities found matching your criteria.") a
  else
    set_priceGrid
      (GridCards
         (map (createCityCard a metalFilter)
            (sort_by
               (fun x y : Bundle N =>
                  localeCompare (cname (cityInfo x)) (cname (cityInfo y)))
               (map_to_list dataToRender).*2)))
      a.

(** The two tests of the [forEach] of [applyFilters]: an entry is kept
    unless one of them returns early. *)
Definition passes (cityFilter searchTerm cityId : string)
    (cityData : Bundle N) : bool :=
  negb (nonempty cityFilter && negb (String.eqb cityId cityFilter)) &&
  negb (nonempty searchTerm &&
        negb (includes (toLowerCase (cname (cityInfo cityData))) searchTerm) &&
        negb (includes (toLowerCase (cstate (cityInfo cityData))) searchTerm)).

(** The arguments are the values of the three form controls. *)
Definition applyFilters (cityFilter metalFilter searchInput : string)
    (a : App N) : App N :=
  let searchTerm := toLowerCase searchInput in
  renderPriceGrid metalFilter
    (set_filteredData
       (filter
          (fun kv : string * Bundle N =>
             passes cityFilter searchTerm kv.1 kv.2 = true)
          (allPrices a))
       a).

(** *** Snapshots *)

(** [updateMarketOverview] and [updateLastUpdateTime] only write text
    nodes outside the grid and are left out. *)
Definition handlePriceUpdate (newPrices : gmap string (Bundle N))
    (timeLabel : string) (a : App N) : App N :=
  let a := set_previousPrices (deep_copy (allPrices a)) a in
  let a := set_allPrices newPrices a in
  let a := updateChartData timeLabel a in
  let a := renderPriceGrid "" a in
  checkSignificantChanges a.

(** The handler of ['initialData']. *)
Definition on_initialData (data_cities : list City)
    (data_prices : gmap string (Bundle N)) (a : App N) : App N :=
  let a := set_cities data_cities a in
  let a := set_allPrices data_prices a in
  let a := set_previousPrices (deep_copy data_prices) a in
  (* [populateCityFilter] sorts [this.cities] in place *)
  let a := set_cities
             (sort_by (fun x y => localeCompare (cname x) (cname y))
                (cities a)) a in
  renderPriceGrid "" a.

(** *** Reconnection *)

(** [initializeSocket]: a new socket with the five handlers below. *)
Definition initializeSocket (a : App N) : App N :=
  set_sockets (S (sockets a)) a.

(** [setTimeout(_, Math.pow(2, retryCount) * 1000)] or the final toast. *)
Definition handleReconnection (a : App N) : App N :=
  if (retryCount a <? maxRetries a)%nat then
    set_pending (pending a ++ [(2 ^ Z.of_nat (retryCount a) * 1000)%Z]) a
  else
    showToast "Unable to reconnect. Please refresh the page." "error" a.

(** The callback of that timer. *)
Definition reconnection_attempt (a : App N) : App N :=
  initializeSocket (set_retryCount (S (retryCount a)) a).

Definition on_connect (a : App N) : App N :=
  showToast "Connected to live data feed" "success" (set_retryCount 0 a).

Definition on_disconnect (a : App N) : App N :=
  handleReconnection (showToast "Disconnected from server" "error" a).

Definition on_connect_error (a : App N) : App N :=
  showToast "Connection error. Retrying..." "error" a.

(** What the browser delivers to the application. *)
Inductive ClientEvent : Type :=
| Connect
| Disconnect
| ConnectError
| InitialData (cities : list City) (prices : gmap string (Bundle N))
| PriceUpdate (prices : gmap string (Bundle N)) (timeLabel : string)
| TimerFires (k : nat)               (* the [k]-th pending timer expires *)
| FilterChange (cityFilter metalFilter searchInput : string).

Definition client_step (ev : ClientEvent) (a : App N) : App N :=
  match ev with
  | Connect => on_connect a
  | Disconnect => on_disconnect a
  | ConnectError => on_connect_error a
  | InitialData cs ps => on_initialData cs ps a
  | PriceUpdate ps t => handlePriceUpdate ps t a
  | TimerFires k =>
      match pending a !! k with
      | Some _ => reconnection_attempt (set_pending (delete k (pending a)) a)
      | None => a
      end
  | FilterChange c m q => applyFilters c m q a
  end.

Definition client_run (tr : list ClientEvent) (a : App N) : App N :=
  fold_left (fun a ev => client_step ev a) tr a.
End Client.

(** ** Vocabulary of the statements *)

Definition mumbai : City :=
  {| cid := "mumbai"; cname := "Mumbai"; cstate := "Maharashtra" |}.

(** A quote whose last traded price is [p]. *)
Definition quote_at {N} `{JsNumber N} (sym : string) (p : N) : Quote N :=
  {| symbol := sym; ltp := p; change := lit 0; changePercent := lit 0;
     high := p; low := p; open := p; close := p; volume := lit 0;
     timestamp := 0 |}.

(** A bundle of [city] whose reference purities, gold 24k and silver 999,
    are priced [g] and [sv]. *)
Definition bundle_at {N} `{JsNumber N} (city : City) (g sv : N) : Bundle N :=
  {| cityInfo := city;
     gold := {| k24 := g; k22 := g; k18 := g |};
     silver := {| s999 := sv; s925 := sv |};
     lastUpdated := 0;
     trend := {| tgold := Some stable; tsilver := Some stable |};
     mcxData := None |}.

(** The ten cities [cityVariations] has no entry for. *)
Definition unlisted_cities : list string := [
  "lucknow"; "kanpur"; "nagpur"; "indore"; "thane"; "bhopal";
  "visakhapatnam"; "pimpri"; "patna"; "vadodara"
].

(** The series the constructor creates, and a run of appends to a series. *)
Definition empty_series {N} : ChartSeries N :=
  {| timestamps := []; prices := []; maxPoints := 60 |}.

Definition appends {N} `{JsNumber N} (pts : list (string * N))
    (c : ChartSeries N) : ChartSeries N :=
  fold_left (fun c pt => append_point pt.1 pt.2 c) pts c.

(** The point a client event appends to the series of the metal whose
    reference price is [f]: a snapshot that is not empty appends the average
    of [f] over its cities, labelled with the time of the update; nothing
    else appends. *)
Definition chart_point {N} `{JsNumber N} (f : Bundle N → N)
    (ev : @ClientEvent N) : list (string * N) :=
  match ev with
  | PriceUpdate prices timeLabel =>
      if (size prices =? 0)%nat then []
      else [(timeLabel, average f (map_to_list prices).*2)]
  | _ => []
  end.

Definition chart_points {N} `{JsNumber N} (f : Bundle N → N)
    (tr : list (@ClientEvent N)) : list (string * N) :=
  flat_map (chart_point f) tr.

(** Both arrays of a series have the same length, within the cap. *)
Definition series_ok {N} (c : ChartSeries N) : Prop :=
  length (timestamps c) = length (prices c) ∧
  (length (timestamps c) ≤ maxPoints c)%nat.

(** The charts of the application, within their caps of 60 points. *)
Definition charts_ok {N} (a : App N) : Prop :=
  series_ok (chart_gold a) ∧ series_ok (chart_silver a) ∧
  maxPoints (chart_gold a) = 60%nat ∧ maxPoints (chart_silver a) = 60%nat.

(** The two toasts [checkSignificantChanges] can show for a city. *)
Definition gold_toast {N} `{JsNumber N} (current previous : Bundle N)
  : Toast :=
  {| toast_message :=
       "Gold price " ++
       direction (k24 (gold current)) (k24 (gold previous)) ++
       " significantly in " ++ cname (cityInfo current);
     toast_type := "info" |}.

Definition silver_toast {N} `{JsNumber N} (current previous : Bundle N)
  : Toast :=
  {| toast_message :=
       "Silver price " ++
       direction (s999 (silver current)) (s999 (silver previous)) ++
       " significantly in " ++ cname (cityInfo current);
     toast_type := "info" |}.

(** Snapshot A, then snapshot B, of the scenario of the specification. *)
Definition scenario_AB {N} `{JsNumber N} : App N :=
  client_run (fun _ _ => 0%Z)
    [InitialData [mumbai]
       {[ "mumbai" := bundle_at mumbai (lit 107610) (lit 126480) ]};
     PriceUpdate
       {[ "mumbai" := bundle_at mumbai (lit 108500) (lit 126480) ]}
       "10:00:10"]
    new_App.

(** The part of the application state reconnection reads and writes. *)
Definition reconnection {N} (a : App N) : nat * nat * list Z * nat :=
  (retryCount a, maxRetries a, pending a, sockets a).

(** The application once its first socket is connected. *)
Definition connected_App {N} `{JsNumber N} : App N :=
  on_connect (initializeSocket new_App).

(** [n] rounds of: the transport is lost, the timer expires and a new socket
    is opened, with no connection established in between. *)
Definition lossy_rounds {N} (n : nat) : list (@ClientEvent N) :=
  concat (replicate n [Disconnect; TimerFires 0]).

(** [wp m s Q E]: from [s], [m] returns [a] in a state [s'] with [Q a s'],
    or throws [e] in a state [s'] with [E e s']. *)
Definition wp {S A} (m : Eff S A) (s : S) (Q : A → S → Prop)
    (E : string → S → Prop) : Prop :=
  match m s with
  | Done a s' => Q a s'
  | Thrown e s' => E e s'
  end.

(** *** Positive prices (exact arithmetic)

    A price is a rounded amount: at least one currency unit. *)
Definition price_ok (p : Q) : Prop := (1 <= p)%Q.

Definition gold_ok (g : GoldPrices Q) : Prop :=
  price_ok (k24 g) ∧ price_ok (k22 g) ∧ price_ok (k18 g).

Definition silver_ok (sv : SilverPrices Q) : Prop :=
  price_ok (s999 sv) ∧ price_ok (s925 sv).

Definition bundle_ok (b : Bundle Q) : Prop :=
  gold_ok (gold b) ∧ silver_ok (silver b).

Definition base_ok (b : BasePrices Q) : Prop :=
  gold_ok (base_gold b) ∧ silver_ok (base_silver b).

Definition entries_ok (m : gmap string (Bundle Q)) : Prop :=
  ∀ cityId b, m !! cityId = Some b → bundle_ok b.

(** The table has an entry for each city of [l]. *)
Definition populated {N} (m : gmap string (Bundle N)) (l : list City) : Prop :=
  ∀ c, c ∈ l → is_Some (m !! cid c).

(** [Math.random()] returns a number in [0, 1). *)
Definition draws_ok (rnd : nat → Q) : Prop :=
  ∀ i, (0 <= rnd i)%Q ∧ (rnd i < 1)%Q.

Definition server_ok (s : Server Q) : Prop :=
  draws_ok (draws s) ∧ base_ok (BASE_PRICES s) ∧
  entries_ok (currentPrices s) ∧ populated (currentPrices s) METRO_CITIES.

(** A last traded price the conversion is sound for: absent or zero, which
    selects the fallback constants, or at least one currency unit. *)
Definition ltp_ok (p : Q) : Prop := (p == 0)%Q ∨ (1 <= p)%Q.

Definition quote_ok (q : option (Quote Q)) : Prop :=
  match q with Some q => ltp_ok (ltp q) | None => True end.

Definition item_ok (item : Item Q) : Prop :=
  match LTP item with Some p => ltp_ok p | None => True end.

Definition axios_ok (axios : AxiosResult Q) : Prop :=
  match axios with
  | Resolved (Some (Some (Items l))) => Forall item_ok l
  | _ => True
  end.

Definition event_ok (ev : @Event Q) : Prop :=
  match ev with FastTick axios => axios_ok axios | _ => True end.

(** The bundle [convertToLocationPrices] builds for a city. *)
Definition live_bundle {N} `{JsNumber N} (mcxData : McxData N) (now : Z)
    (city : City) : Bundle N :=
  {| cityInfo := city;
     gold := calculateGoldPrices (mcx_gold mcxData) (cid city);
     silver := calculateSilverPrices (mcx_silver mcxData) (cid city);
     lastUpdated := now;
     trend :=
       {| tgold := Some (getTrend (changePercent_or_0 (mcx_gold mcxData)));
          tsilver :=
            Some (getTrend (changePercent_or_0 (mcx_silver mcxData))) |};
     mcxData := Some mcxData |}.

(** The table that maps the identifier of each city of [cities] to [f]. *)
Definition table_of {N} (f : City → Bundle N) (cities : list City)
    (acc : gmap string (Bundle N)) : gmap string (Bundle N) :=
  fold_left (fun m city => <[cid city := f city]> m) cities acc.

(** What [getFallbackData] returns when the next draw is the [i]-th. *)
Definition fallback_quotes {N} `{JsNumber N} (rnd : nat → N) (i : nat)
    (now : Z) : McxData N :=
  {| mcx_gold :=
       Some {| symbol := "GOLD";
               ltp := (lit 105200 + (rnd i - lit 0.5) * lit 1000)%js;
               change := ((rnd (S i) - lit 0.5) * lit 500)%js;
               changePercent := ((rnd (S (S i)) - lit 0.5) * lit 2)%js;
               high := lit 105800; low := lit 104600;
               open := lit 105000; close := lit 105100;
               volume := lit 12500; timestamp := now |};
     mcx_silver :=
       Some {| symbol := "SILVER";
               ltp := (lit 123800 + (rnd (3 + i)%nat - lit 0.5) * lit 2000)%js;
               change := ((rnd (4 + i)%nat - lit 0.5) * lit 1000)%js;
               changePercent := ((rnd (5 + i)%nat - lit 0.5) * lit 3)%js;
               high := lit 124500; low := lit 123100;
               open := lit 123500; close := lit 123700;
               volume := lit 8500; timestamp := now |} |}.

(** The request failed or its body could not be decoded. *)
Definition fetch_failed {N} (axios : AxiosResult N) : Prop :=
  match axios with
  | Rejected _ | Resolved None | Resolved (Some None) => True
  | Resolved (Some (Some _)) => False
  end.

(** The table the live path builds from the quotes [d] at time [now]. *)
Definition live_table {N} `{JsNumber N} (d : McxData N) (now : Z)
  : gmap string (Bundle N) :=
  table_of (live_bundle d now) METRO_CITIES ∅.

(** An item of the exchange's reply that carries a last traded price only. *)
Definition item_at {N} (sym : string) (p : N) : Item N :=
  {| Symbol := sym; LTP := Some p; Change := None; ChangePercent := None;
     High := None; Low := None; Open := None; Close := None;
     Volume := None |}.

(** The server started while the exchange is unreachable, every draw being
    one half; then a tick whose reply quotes silver at half a currency unit. *)
Definition started {N} `{JsNumber N} : Server N :=
  final (initializeApp (Rejected "timeout of 10000ms exceeded")
           (boot (fun _ => lit 0.5) 0)).

Definition after_cheap_silver {N} `{JsNumber N} : Server N :=
  deliver 10000
    (FastTick (Resolved (Some (Some (Items [item_at "SILVER" (lit 0.5)])))))
    started.

(** *** The random walk, city by city *)

Definition walk_price {N} `{JsNumber N} (w : Q) (p r : N) : N :=
  Math_round (p * (lit 1 + (r - lit 0.5) * lit w))%js.

Definition trend_of_draw {N} `{JsNumber N} (r : N) : option Direction :=
  match to_index (Math_floor (r * lit 3)%js) with
  | Some i => nth_error [up; down; stable] i
  | None => None
  end.

(** The bundle [walk_city] writes over [b] when the next draw is the
    [i]-th. *)
Definition walk_bundle {N} `{JsNumber N} (rnd : nat → N) (i : nat) (now : Z)
    (b : Bundle N) : Bundle N :=
  {| cityInfo := cityInfo b;
     gold := {| k24 := walk_price 0.004 (k24 (gold b)) (rnd i);
                k22 := walk_price 0.004 (k22 (gold b)) (rnd (1 + i)%nat);
                k18 := walk_price 0.004 (k18 (gold b)) (rnd (2 + i)%nat) |};
     silver := {| s999 := walk_price 0.006 (s999 (silver b)) (rnd (4 + i)%nat);
                  s925 := walk_price 0.006 (s925 (silver b)) (rnd (3 + i)%nat)
               |};
     lastUpdated := now;
     trend := {| tgold := trend_of_draw (rnd (5 + i)%nat);
                 tsilver := trend_of_draw (rnd (6 + i)%nat) |};
     mcxData := mcxData b |}.

(** The table of [s'] is the table of [s0] after one random-walk step of
    every city, in the order of [cities], seven draws per city. *)
Definition walked {N} `{JsNumber N} (cities : list City) (s0 s' : Server N)
  : Prop :=
  ∀ j c,
    cities !! j = Some c →
    ∃ b, currentPrices s0 !! cid c = Some b ∧
         currentPrices s' !! cid c =
         Some (walk_bundle (draws s0) (7 * j + drawn s0) (clock s0) b).

(** The prices one step of the walk derives from those of a bundle when
    the next draw is the [i]-th. *)
Definition walk_gold {N} `{JsNumber N} (rnd : nat → N) (i : nat)
    (g : GoldPrices N) : GoldPrices N :=
  {| k24 := walk_price 0.004 (k24 g) (rnd i);
     k22 := walk_price 0.004 (k22 g) (rnd (1 + i)%nat);
     k18 := walk_price 0.004 (k18 g) (rnd (2 + i)%nat) |}.

Definition walk_silver {N} `{JsNumber N} (rnd : nat → N) (i : nat)
    (sv : SilverPrices N) : SilverPrices N :=
  {| s999 := walk_price 0.006 (s999 sv) (rnd (4 + i)%nat);
     s925 := walk_price 0.006 (s925 sv) (rnd (3 + i)%nat) |}.

(** The prices of every city of [cities] in [s'] are those of [s0] after one
    step of the walk, in the order of [cities], seven draws per city; the
    time stamps are left aside. *)
Definition walked_prices {N} `{JsNumber N} (cities : list City)
    (s0 s' : Server N) : Prop :=
  ∀ j c,
    cities !! j = Some c →
    ∃ b b', currentPrices s0 !! cid c = Some b ∧
            currentPrices s' !! cid c = Some b' ∧
            gold b' = walk_gold (draws s0) (7 * j + drawn s0) (gold b) ∧
            silver b' = walk_silver (draws s0) (7 * j + drawn s0) (silver b).

(** The prices of every city in [table] are those the conversion derives
    from [quotes], whatever the table held before, and every bundle carries
    quotes; the time stamps are left aside. *)
Definition converted_from {N} `{JsNumber N} (quotes : McxData N)
    (table : gmap string (Bundle N)) : Prop :=
  ∀ c, c ∈ METRO_CITIES →
    ∃ b, table !! cid c = Some b ∧ cityInfo b = c ∧
         gold b = calculateGoldPrices (mcx_gold quotes) (cid c) ∧
         silver b = calculateSilverPrices (mcx_silver quotes) (cid c) ∧
         is_Some (mcxData b).

(** What no handler touches while the live source is disabled. *)
Definition live_switch {N} (s : Server N) : bool * list Z * Z :=
  (useMCXData s, timeouts s, clock s).

(** The quotes [parseMCXData] extracts from a decoded reply. *)
Definition payload_quotes {N} `{JsNumber N} (data : Payload N) (now : Z)
  : McxData N :=
  match data with
  | NotArray => {| mcx_gold := None; mcx_silver := None |}
  | Items l => parse_items l now
  end.

(** The server started while the exchange is unreachable, the first six
    draws being 0.5 and the later ones 0.9; then a tick whose request times
    out; then, ten seconds later, a tick whose reply quotes gold at 100000. *)
Definition uneven_draws {N} `{JsNumber N} (i : nat) : N :=
  if (i <? 6)%nat then lit 0.5 else lit 0.9.

Definition started_uneven {N} `{JsNumber N} : Server N :=
  final (initializeApp (Rejected "timeout of 10000ms exceeded")
           (boot uneven_draws 0)).

Definition after_timeout {N} `{JsNumber N} : Server N :=
  deliver 10000 (FastTick (Rejected "timeout of 10000ms exceeded"))
    started_uneven.

Definition after_retry {N} `{JsNumber N} : Server N :=
  deliver 20000
    (FastTick (Resolved (Some (Some (Items [item_at "GOLD" (lit 100000)])))))
    after_timeout.

(** The price each path derives for [cityId] from the same base price: the
    synthetic path when the draw is one half (the jitter is then 1.0), and
    the live path for silver 999, which is the quoted price times the
    multiplier of the city. *)
Definition synthetic_price {N} `{JsNumber N} (basePrice : N)
    (cityId : string) : option N :=
  match generateCityPrice basePrice cityId (boot (fun _ => lit 0.5) 0) with
  | Done p _ => Some p
  | Thrown _ _ => None
  end.

Definition live_price {N} `{JsNumber N} (basePrice : N) (cityId : string)
  : N :=
  s999 (calculateSilverPrices (Some (quote_at "SILVER" basePrice)) cityId).

(** ** The server: the other routes and methods *)

(** What [axios.get] settles to. *)
Inductive AxiosGet : Type :=
| GetRejected (e : string)
| GetResolved (html : string).

(** The value [healthCheck] resolves to: the quote that
    [data.gold || data.silver] selects, [undefined] when there is none, or
    the [false] of its [catch]. *)
Inductive Health (N : Type) : Type :=
| HealthQuote (q : Quote N)
| HealthUndefined
| HealthFalse.
Arguments HealthQuote {N} q.
Arguments HealthUndefined {N}.
Arguments HealthFalse {N}.

(** The body of the reply of [/api/status]. *)
Record Status : Type := {
  dataSource : string;
  mcxEnabled : bool;
  lastUpdate : Z;
  citiesCount : nat;
  apiStatus : string
}.

(** The reply of [/api/mcx-raw]: the body sent with status 200, or the one
    sent with status 500. *)
Inductive RawResponse (N : Type) : Type :=
| RawJson (source : string) (stamp : Z) (quotes : McxData N)
| RawError (error message : string).
Arguments RawJson {N} source stamp quotes.
Arguments RawError {N} error message.

Section Routes.
Context {N : Type} `{JsNumber N}.

(** *** [mcx-api.js] *)

Definition parseHTMLData (htmlData : string) : Eff (Server N) (McxData N) :=
  getFallbackData.

Definition fetchMCXDataAlternative (axios : AxiosGet)
  : Eff (Server N) (McxData N) :=
  try_catch
    (match axios with
     | GetRejected e => throw e
     | GetResolved html => parseHTMLData html
     end)
    (fun _ => getFallbackData).

Definition healthCheck (axios : AxiosResult N) : Eff (Server N) (Health N) :=
  try_catch
    (quotes <- fetchLiveData axios ;;
     ret (match mcx_gold quotes with
          | Some q => HealthQuote q
          | None =>
              match mcx_silver quotes with
              | Some q => HealthQuote q
              | None => HealthUndefined
              end
          end))%eff
    (fun _ => ret HealthFalse).

(** *** [server.js], the routes and the socket *)

Definition get_api_cities : Eff (Server N) (list City) := ret METRO_CITIES.

Definition get_api_prices : Eff (Server N) (gmap string (Bundle N)) :=
  gets currentPrices.

Definition get_api_status : Eff (Server N) Status :=
  (use <- gets useMCXData ;;
   now <- Date_now ;;
   ret {| dataSource :=
            if use then "MCX (Multi Commodity Exchange)"
            else "Simulated Data";
          mcxEnabled := use;
          lastUpdate := now;
          citiesCount := length METRO_CITIES;
          apiStatus := "operational" |})%eff.

Definition get_api_mcx_raw (axios : AxiosResult N)
  : Eff (Server N) (RawResponse N) :=
  try_catch
    (quotes <- fetchLiveData axios ;;
     now <- Date_now ;;
     ret (RawJson "MCX India" now quotes))%eff
    (fun e => ret (RawError "Failed to fetch MCX data" e)).

End Routes.

(** ** The browser: the overview and the chart views *)

(** What [updateTrendDisplay] writes: the class of the element, the class of
    its icon and the text of its label. *)
Record TrendDisplay : Type :=
  { trend_class : string; trend_icon : string; trend_text : string }.

(** What [updateMarketOverview] writes: the two averages and the two trend
    displays. *)
Record Overview (N : Type) : Type := {
  avgGoldPrice : N;
  avgSilverPrice : N;
  goldTrend : TrendDisplay;
  silverTrend : TrendDisplay
}.
Arguments Build_Overview {N}.
Arguments avgGoldPrice {N}. Arguments avgSilverPrice {N}.
Arguments goldTrend {N}. Arguments silverTrend {N}.

(** What a Chart.js instance displays: [data.labels] and
    [data.datasets[0].data]. *)
Record ChartView (N : Type) : Type :=
  { view_labels : list string; view_data : list N }.
Arguments Build_ChartView {N}.
Arguments view_labels {N}. Arguments view_data {N}.

(** [this.charts]: an instance is [null] while its canvas is missing. *)
Record Charts (N : Type) : Type :=
  { charts_gold : option (ChartView N); charts_silver : option (ChartView N) }.
Arguments Build_Charts {N}.
Arguments charts_gold {N}. Arguments charts_silver {N}.

Section Views.
Context {N : Type} `{JsNumber N}.

(** The class of a [.price-change] element. *)
Definition changeClass (delta : N) : string :=
  if (delta >? lit 0)%js then "positive"
  else if (delta <? lit 0)%js then "negative"
  else "neutral".

(** [city.trend[metalType]] *)
Definition trend_of (t : Trend) (metalType : string) : option Direction :=
  if String.eqb metalType "gold" then tgold t
  else if String.eqb metalType "silver" then tsilver t
  else None.

(** The body of the [forEach] of [calculateOverallTrend], on the pair
    [(upCount, downCount)]. *)
Definition count_trend (metalType : string) (counts : nat * nat)
    (city : Bundle N) : nat * nat :=
  match trend_of (trend city) metalType with
  | Some up => (S counts.1, counts.2)
  | Some down => (counts.1, S counts.2)
  | Some stable | None => counts
  end.

Definition calculateOverallTrend (metalType : string) (a : App N)
  : Direction :=
  let allCityData := (map_to_list (allPrices a)).*2 in
  let counts := fold_left (count_trend metalType) allCityData (0, 0)%nat in
  if (counts.2 <? counts.1)%nat then up
  else if (counts.1 <? counts.2)%nat then down
  else stable.

Definition direction_name (t : Direction) : string :=
  match t with up => "up" | down => "down" | stable => "stable" end.

Definition updateTrendDisplay (t : Direction) : TrendDisplay :=
  {| trend_class := "trend " ++ direction_name t;
     trend_icon :=
       match t with
       | up => "fas fa-arrow-up"
       | down => "fas fa-arrow-down"
       | stable => "fas fa-minus"
       end;
     trend_text :=
       match t with
       | up => "Rising"
       | down => "Falling"
       | stable => "Stable"
       end |}.

(** [None]: the table is empty and nothing is written. *)
Definition updateMarketOverview (a : App N) : option (Overview N) :=
  let allCityData := (map_to_list (allPrices a)).*2 in
  if (length allCityData =? 0)%nat then None
  else
    Some {| avgGoldPrice := average (fun city => k24 (gold city)) allCityData;
            avgSilverPrice :=
              average (fun city => s999 (silver city)) allCityData;
            goldTrend := updateTrendDisplay (calculateOverallTrend "gold" a);
            silverTrend :=
              updateTrendDisplay (calculateOverallTrend "silver" a) |}.

(** [this.chartData[metalType]] and [this.charts[metalType]]. *)
Definition chartData_of (a : App N) (metalType : string)
  : option (ChartSeries N) :=
  if String.eqb metalType "gold" then Some (chart_gold a)
  else if String.eqb metalType "silver" then Some (chart_silver a)
  else None.

Definition charts_of (ch : Charts N) (metalType : string)
  : option (ChartView N) :=
  if String.eqb metalType "gold" then charts_gold ch
  else if String.eqb metalType "silver" then charts_silver ch
  else None.

(** The two assignments to [chart.data] of an instance that exists. *)
Definition set_view (metalType : string) (v : ChartView N) (ch : Charts N)
  : Charts N :=
  if String.eqb metalType "gold"
  then {| charts_gold := Some v; charts_silver := charts_silver ch |}
  else if String.eqb metalType "silver"
  then {| charts_gold := charts_gold ch; charts_silver := Some v |}
  else ch.

Definition updateChart (metalType : string) (a : App N) (ch : Charts N)
  : Charts N :=
  match charts_of ch metalType, chartData_of a metalType with
  | Some _, Some series =>
      set_view metalType
        {| view_labels := timestamps series; view_data := prices series |} ch
  | _, _ => ch
  end.

(** The two calls of [updateChart] that end [updateChartData], reached
    unless the table is empty; [a] is the application as [updateChartData]
    leaves it. *)
Definition updateCharts (a : App N) (ch : Charts N) : Charts N :=
  if (size (allPrices a) =? 0)%nat then ch
  else updateChart "silver" a (updateChart "gold" a ch).

(** The [switch] of [updateChartTimeframe]. *)
Definition timeframe_points (timeframe : string) : nat :=
  if String.eqb timeframe "1h" then 60
  else if String.eqb timeframe "6h" then 36
  else if String.eqb timeframe "24h" then 24
  else 60.

(** [canvasId] is the [id] of the canvas of the card the button is in. *)
Definition updateChartTimeframe (canvasId timeframe : string) (a : App N)
    (ch : Charts N) : Charts N :=
  let metalType := if includes canvasId "gold" then "gold" else "silver" in
  match charts_of ch metalType, chartData_of a metalType with
  | Some _, Some series =>
      let startIndex :=
        (length (timestamps series) - timeframe_points timeframe)%nat in
      set_view metalType
        {| view_labels := drop startIndex (timestamps series);
           view_data := drop startIndex (prices series) |} ch
  | _, _ => ch
  end.
End Views.

(** ** Vocabulary of the further properties *)

(** *** The shape of the table *)

(** Every entry of the table is keyed by the identifier of its own city,
    which is one of [METRO_CITIES]. *)
Definition entries_keyed {N} (m : gmap string (Bundle N)) : Prop :=
  ∀ k b, m !! k = Some b → cityInfo b ∈ METRO_CITIES ∧ cid (cityInfo b) = k.

Definition table_shape {N} (m : gmap string (Bundle N)) : Prop :=
  entries_keyed m ∧ populated m METRO_CITIES.

Definition is_FastTick {N} (ev : @Event N) : bool :=
  match ev with FastTick _ => true | MajorTick | GetPrice _ => false end.

(** *** Bounds (exact arithmetic) *)

(** [new] is within the fraction [w] of [old], up to the rounding to a
    whole unit. *)
Definition moved_within (w new old : Q) : Prop :=
  (Qabs (new - old) <= w * old + (1 # 2))%Q.

(** One step of the walk of a bundle: the city and the quotes it was last
    converted from are kept, each gold price moves by at most 0.2% and each
    silver price by at most 0.3%. *)
Definition small_step (b b' : Bundle Q) : Prop :=
  cityInfo b' = cityInfo b ∧ mcxData b' = mcxData b ∧
  moved_within 0.002 (k24 (gold b')) (k24 (gold b)) ∧
  moved_within 0.002 (k22 (gold b')) (k22 (gold b)) ∧
  moved_within 0.002 (k18 (gold b')) (k18 (gold b)) ∧
  moved_within 0.003 (s999 (silver b')) (s999 (silver b)) ∧
  moved_within 0.003 (s925 (silver b')) (s925 (silver b)).

(** The reference prices of every entry, gold 24k and silver 999, are at
    least [p]. *)
Definition reference_prices_from (p : Q) (m : gmap string (Bundle Q)) : Prop :=
  ∀ k b, m !! k = Some b → (p <= k24 (gold b))%Q ∧ (p <= s999 (silver b))%Q.

(** *** The synthetic table, city by city *)

(** The price [generateCityPrice] returns when its draw is [r]. *)
Definition jitter_price {N} `{JsNumber N} (basePrice : N) (cityId : string)
    (r : N) : N :=
  Math_round
    (basePrice * or_default (table_get cityVariations cityId) 1.0 *
     (lit 0.995 + r * lit 0.01))%js.

(** The bundle [initializePrices] writes for [city] when the next draw is
    the [i]-th. *)
Definition init_bundle {N} `{JsNumber N} (base : BasePrices N)
    (rnd : nat → N) (i : nat) (now : Z) (city : City) : Bundle N :=
  {| cityInfo := city;
     gold :=
       {| k24 := jitter_price (k24 (base_gold base)) (cid city) (rnd i);
          k22 := jitter_price (k22 (base_gold base)) (cid city)
                   (rnd (1 + i)%nat);
          k18 := jitter_price (k18 (base_gold base)) (cid city)
                   (rnd (2 + i)%nat) |};
     silver :=
       {| s999 := jitter_price (s999 (base_silver base)) (cid city)
                    (rnd (3 + i)%nat);
          s925 := jitter_price (s925 (base_silver base)) (cid city)
                    (rnd (4 + i)%nat) |};
     lastUpdated := now;
     trend := {| tgold := trend_of_draw (rnd (5 + i)%nat);
                 tsilver := trend_of_draw (rnd (6 + i)%nat) |};
     mcxData := None |}.

(** The table of [s'] holds, for each city of [cities], the bundle
    [initializePrices] builds from the base prices [base], in the order of
    [cities], seven draws per city starting at the [i]-th. *)
Definition initialized {N} `{JsNumber N} (cities : list City)
    (base : BasePrices N) (rnd : nat → N) (i : nat) (now : Z)
    (s' : Server N) : Prop :=
  ∀ j c,
    cities !! j = Some c →
    currentPrices s' !! cid c
    = Some (init_bundle base rnd (7 * j + i) now c).

(** The base price the five-minute update derives from [p] when its draw is
    [r]. *)
Definition shock_price {N} `{JsNumber N} (r p : N) : N :=
  Math_round (p * (lit 1 + (r - lit 0.5) * lit 0.02))%js.

Definition shock_base {N} `{JsNumber N} (r : N) (b : BasePrices N)
  : BasePrices N :=
  {| base_gold := {| k24 := shock_price r (k24 (base_gold b));
                     k22 := shock_price r (k22 (base_gold b));
                     k18 := shock_price r (k18 (base_gold b)) |};
     base_silver := {| s999 := shock_price r (s999 (base_silver b));
                       s925 := shock_price r (s925 (base_silver b)) |} |}.

(** *** Quotes *)

(** The last traded price of a quote, when there is one, is not negative. *)
Definition quote_nonneg (q : option (Quote Q)) : Prop :=
  match q with Some q => (0 <= ltp q)%Q | None => True end.

(** Each purity costs at least as much as the one below it. *)
Definition purity_ordered (g : GoldPrices Q) (sv : SilverPrices Q) : Prop :=
  (k18 g <= k22 g)%Q ∧ (k22 g <= k24 g)%Q ∧ (s925 sv <= s999 sv)%Q.


(** The largest double below 1, the largest value [Math.random()] can
    return, and the largest double below one third. *)
Definition largest_draw : float := 0x1.fffffffffffffp-1%float.
Definition below_one_third : float := 0x1.5555555555555p-2%float.


(** *** Trends *)

(** The number of bundles of [l] whose trend for [metalType] is [t]. *)
Definition votes {N} (metalType : string) (t : Direction)
    (l : list (Bundle N)) : nat :=
  length (List.filter
            (fun b => match trend_of (trend b) metalType, t with
                      | Some up, up | Some down, down
                      | Some stable, stable => true
                      | _, _ => false
                      end) l).

(** *** The grid *)

(** No element of [l] comes after its successor in the order [cmp]. *)
Fixpoint ordered_by {A} (cmp : A → A → Z) (l : list A) : Prop :=
  match l with
  | [] => True
  | x :: l' =>
      (∀ y, head l' = Some y → (cmp x y <= 0)%Z) ∧ ordered_by cmp l'
  end.

(** Of any two strings one is not after the other. *)
Definition total_order (cmp : string → string → Z) : Prop :=
  ∀ x y, (cmp x y <= 0)%Z ∨ (cmp y x <= 0)%Z.

Definition by_name (localeCompare : string → string → Z) (x y : City) : Z :=
  localeCompare (cname x) (cname y).

(** The table [renderPriceGrid] renders. *)
Definition dataToRender {N} (a : App N) : gmap string (Bundle N) :=
  if decide (filteredData a = ∅) then allPrices a else filteredData a.

(** The cards in the grid, and the rows of a card. *)
Definition grid_cards {N} (g : Grid N) : list (Card N) :=
  match g with GridCards cards => cards | GridMessage _ => [] end.

Definition card_rows {N} (card : Card N) : list (PriceRow N) :=
  default [] (card_gold card) ++ default [] (card_silver card).

(** A collation that orders strings by length. *)
Definition by_length (x y : string) : Z :=
  (Z.of_nat (String.length x) - Z.of_nat (String.length y))%Z.

(** *** Chart views *)

(** The metal a time-frame button acts on, and the other one. *)
Definition metal_of_canvas (canvasId : string) : string :=
  if includes canvasId "gold" then "gold" else "silver".

Definition other_metal (canvasId : string) : string :=
  if includes canvasId "gold" then "silver" else "gold".

(** The message of the [TypeError] a missing city raises. *)
Definition missing_city_error : string :=
  "TypeError: Cannot read properties of undefined".

(** What a chart displays once [updateChart] has run on its series. *)
Definition whole_series {N} (c : ChartSeries N) : ChartView N :=
  {| view_labels := timestamps c; view_data := prices c |}.

(** * Properties *)

(** ** The two readings of a number agree on the literals and on rounding *)

Example F_lit_is_the_parsed_literal :
  F_lit 1.02 = 1.02%float ∧ F_lit 0.995 = 0.995%float ∧
  F_lit 0.01 = 0.01%float ∧ F_lit 23.88 = 23.88%float ∧
  F_lit 1.025 = 1.025%float ∧ F_lit 105500 = 105500%float.
Proof. repeat split; vm_compute; reflexivity. Qed.

Example F_round_ties_up :
  F_round 2.5%float = 3%float ∧ F_round (-2.5)%float = (-2)%float ∧
  F_round 0.4625%float = 0%float ∧
  F_round 108137.49999999999%float = 108137%float.
Proof. repeat split; vm_compute; reflexivity. Qed.

(** ** Synthetic derivation *)

Lemma generateCityPrice_eq {N} `{JsNumber N} (basePrice : N) cityId s :
  generateCityPrice basePrice cityId s =
  Done (Math_round
          (basePrice * or_default (table_get cityVariations cityId) 1.0 *
           (lit 0.995 + draws s (drawn s) * lit 0.01))%js)
       (set_drawn (S (drawn s)) s).
Proof. reflexivity. Qed.

(** C2. [generateCityPrice] returns
    [round(basePrice * cityMultiplier * jitter)], where the jitter is
    [0.995 + r * 0.01] for the draw [r] it takes and nothing else of the state
    is read; the multiplier of "mumbai" is 1.02; and from the base price
    105500, for "mumbai", a draw that makes the jitter 1.0 gives 107610, both
    in exact arithmetic and in binary64 (draw 0.5). *)
Theorem C2_synthetic_derivation :
  (∀ (s : Server Q) (basePrice : Q) (cityId : string),
     ∃ multiplier : Q,
       multiplier = or_default (table_get cityVariations cityId) 1.0 ∧
       generateCityPrice basePrice cityId s =
       Done (Math_round
               (basePrice * multiplier *
                (0.995 + draws s (drawn s) * 0.01))%Q)
            (set_drawn (S (drawn s)) s)) ∧
  or_default (N := Q) (table_get cityVariations "mumbai") 1.0 = 1.02%Q ∧
  (∀ s : Server Q,
     (0.995 + draws s (drawn s) * 0.01 == 1.0)%Q →
     ∃ s', generateCityPrice 105500%Q "mumbai" s = Done 107610%Q s') ∧
  (∀ s : Server float,
     draws s (drawn s) = 0.5%float →
     (lit 0.995 + draws s (drawn s) * lit 0.01)%js = 1%float ∧
     ∃ s', generateCityPrice (lit 105500) "mumbai" s = Done 107610%float s').
Proof.
  split; [|split; [|split]].
  - intros s basePrice cityId. eexists. split; reflexivity.
  - reflexivity.
  - intros s Hj. eexists. rewrite generateCityPrice_eq. f_equal.
    cbn [Math_round Q_number nmul nadd lit]. unfold Q_round. f_equal.
    assert (E : (105500 * or_default (table_get cityVariations "mumbai") 1.0 *
                 (0.995 + draws s (drawn s) * 0.01) + (1 # 2) ==
                 107610 + (1 # 2))%Q).
    { rewrite Hj. reflexivity. }
    rewrite (Qfloor_comp _ _ E). reflexivity.
  - intros s Hr. split.
    + rewrite Hr. vm_compute. reflexivity.
    + eexists. rewrite generateCityPrice_eq. rewrite Hr. f_equal.
Qed.

Lemma C2_synthetic_derivation_witness :
  ∃ s : Server Q,
    (0.995 + draws s (drawn s) * 0.01 == 1.0)%Q ∧
    ∃ s', generateCityPrice 105500%Q "mumbai" s = Done 107610%Q s'.
Proof.
  exists (boot (fun _ => 0.5%Q) 0).
  split; [reflexivity|].
  apply (proj1 (proj2 (proj2 C2_synthetic_derivation))).
  reflexivity.
Defined.

(** ** The two multiplier tables *)

(** C10. [cityVariations] lists the first ten of the twenty cities and the
    other ten fall back to 1.0; [cityMultipliers] has an entry for each of the
    twenty; the entries of "mumbai" are 1.02 and 1.025; and from the same
    base price 124000, with the jitter at 1.0, the synthetic path prices
    "mumbai" at 126480 and "lucknow" at 124000 where the live path prices
    them at 127100 and 124620, in exact arithmetic and in binary64 alike. *)
Theorem C10_two_multiplier_tables :
  length METRO_CITIES = 20%nat ∧
  cityVariations.*1 = cid <$> take 10 METRO_CITIES ∧
  unlisted_cities = cid <$> drop 10 METRO_CITIES ∧
  Forall (fun c => table_get cityVariations c = None ∧
                   or_default (N := Q) (table_get cityVariations c) 1.0
                   = 1.0%Q) unlisted_cities ∧
  cityMultipliers.*1 = cid <$> METRO_CITIES ∧
  table_get cityVariations "mumbai" = Some 1.02%Q ∧
  table_get cityMultipliers "mumbai" = Some 1.025%Q ∧
  (synthetic_price 124000%Q "mumbai" = Some 126480%Q ∧
   live_price 124000%Q "mumbai" = 127100%Q ∧
   synthetic_price 124000%Q "lucknow" = Some 124000%Q ∧
   live_price 124000%Q "lucknow" = 124620%Q) ∧
  (synthetic_price (lit 124000 : float) "mumbai" = Some 126480%float ∧
   live_price (lit 124000 : float) "mumbai" = 127100%float ∧
   synthetic_price (lit 124000 : float) "lucknow" = Some 124000%float ∧
   live_price (lit 124000 : float) "lucknow" = 124620%float) ∧
  ∃ c, c ∈ METRO_CITIES ∧
       synthetic_price 124000%Q (cid c) ≠ Some (live_price 124000%Q (cid c)).
Proof.
  repeat match goal with |- _ ∧ _ => split end;
    try (vm_compute; reflexivity).
  - repeat constructor.
  - exists mumbai. split; [by left|]. vm_compute. discriminate.
Qed.

(** ** The chart series: a sliding window *)

Section Charts.
Context {N : Type} `{JsNumber N}.

Lemma append_point_ok t (p : N) c :
  series_ok c → series_ok (append_point t p c).
Proof.
  intros [Hlen Hcap]. unfold series_ok, append_point.
  destruct (Nat.ltb_spec (maxPoints c) (length (timestamps c ++ [t])));
    cbn [timestamps prices maxPoints];
    rewrite ?length_tl, ?length_app in *; cbn [length] in *; lia.
Qed.

Lemma append_point_maxPoints t (p : N) c :
  maxPoints (append_point t p c) = maxPoints c.
Proof. unfold append_point. by destruct (_ <? _)%nat. Qed.

Lemma append_point_full t (p : N) c :
  length (timestamps c) = maxPoints c → length (prices c) = maxPoints c →
  (0 < maxPoints c)%nat →
  append_point t p c =
  {| timestamps := tail (timestamps c) ++ [t];
     prices := tail (prices c) ++ [p];
     maxPoints := maxPoints c |}.
Proof.
  intros Ht Hp Hpos. unfold append_point.
  destruct (Nat.ltb_spec (maxPoints c) (length (timestamps c ++ [t])))
    as [_|Hle].
  - destruct (timestamps c) as [|t0 ts]; [cbn in Ht; lia|].
    destruct (prices c) as [|p0 ps]; [cbn in Hp; lia|]. reflexivity.
  - rewrite length_app in Hle. cbn in Hle. lia.
Qed.

Lemma append_point_room t (p : N) c :
  (length (timestamps c) < maxPoints c)%nat →
  append_point t p c =
  {| timestamps := timestamps c ++ [t]; prices := prices c ++ [p];
     maxPoints := maxPoints c |}.
Proof.
  intros Hlt. unfold append_point.
  destruct (Nat.ltb_spec (maxPoints c) (length (timestamps c ++ [t])))
    as [Hgt|_]; [|reflexivity].
  rewrite length_app in Hgt. cbn in Hgt. lia.
Qed.

Lemma tail_drop {A} (l : list A) n : tail (drop n l) = drop (S n) l.
Proof.
  revert n. induction l as [|x l IH]; intros [|n]; cbn;
    rewrite ?drop_0; auto.
Qed.

Lemma window_step {A} (l : list A) (x : A) (n : nat) :
  (if (n <? length (drop (length l - n) l ++ [x]))%nat
   then tail (drop (length l - n) l ++ [x])
   else drop (length l - n) l ++ [x])
  = drop (length (l ++ [x]) - n) (l ++ [x]).
Proof.
  rewrite !length_app, length_drop. cbn [length].
  destruct (Nat.ltb_spec n (length l - (length l - n) + 1)) as [Hlt|Hge].
  - destruct (decide (n = 0)) as [->|Hn].
    + rewrite !Nat.sub_0_r. rewrite drop_ge by lia. cbn.
      rewrite drop_ge; [done|]. rewrite length_app. cbn. lia.
    + rewrite drop_app_le by lia.
      rewrite <- (drop_app_le l [x]) by lia.
      rewrite tail_drop. rewrite drop_app_le by lia.
      f_equal. f_equal. lia.
  - replace (length l - n)%nat with 0%nat by lia.
    replace (length l + 1 - n)%nat with 0%nat by lia.
    by rewrite !drop_0.
Qed.

Lemma append_point_timestamps t (p : N) c :
  timestamps (append_point t p c) =
  if (maxPoints c <? length (timestamps c ++ [t]))%nat
  then tail (timestamps c ++ [t]) else timestamps c ++ [t].
Proof. unfold append_point. by destruct (_ <? _)%nat. Qed.

Lemma append_point_prices t (p : N) c :
  length (timestamps c) = length (prices c) →
  prices (append_point t p c) =
  if (maxPoints c <? length (prices c ++ [p]))%nat
  then tail (prices c ++ [p]) else prices c ++ [p].
Proof.
  intros Hlen. unfold append_point. rewrite !length_app, Hlen. cbn [length].
  by destruct (_ <? _)%nat.
Qed.

Lemma appends_snoc pts (pt : string * N) c :
  appends (pts ++ [pt]) c = append_point pt.1 pt.2 (appends pts c).
Proof. unfold appends. by rewrite fold_left_app. Qed.

(** The series holds the last [maxPoints] points appended, in order. *)
Lemma appends_window (pts : list (string * N)) n :
  let c := appends pts {| timestamps := []; prices := []; maxPoints := n |} in
  timestamps c = drop (length pts - n) pts.*1 ∧
  prices c = drop (length pts - n) pts.*2 ∧
  maxPoints c = n.
Proof.
  induction pts as [|pt pts IH] using rev_ind; [done|].
  cbn zeta in *. rewrite appends_snoc.
  destruct IH as (Hts & Hps & Hn).
  set (c := appends pts _) in *.
  rewrite append_point_maxPoints. split_and!; [| |done].
  - rewrite append_point_timestamps, Hn, Hts, fmap_app.
    rewrite <- (length_fmap fst pts), <- (length_fmap fst (pts ++ [pt])).
    rewrite fmap_app. apply window_step.
  - rewrite append_point_prices
      by (rewrite Hts, Hps, !length_drop, !length_fmap; done).
    rewrite Hn, Hps, fmap_app.
    rewrite <- (length_fmap snd pts), <- (length_fmap snd (pts ++ [pt])).
    rewrite fmap_app. apply window_step.
Qed.

Lemma appends_ok (pts : list (string * N)) c :
  series_ok c → series_ok (appends pts c).
Proof.
  revert c. induction pts as [|pt pts IH]; intros c Hc; [done|].
  cbn. apply IH. by apply append_point_ok.
Qed.
End Charts.

Section ChartInvariant.
Context {N : Type} `{JsNumber N}.
Variable localeCompare : string → string → Z.

Lemma updateChartData_charts t (a : App N) :
  updateChartData t a = a ∨
  ∃ g sv,
    chart_gold (updateChartData t a) = append_point t g (chart_gold a) ∧
    chart_silver (updateChartData t a) = append_point t sv (chart_silver a).
Proof.
  unfold updateChartData. destruct (size (allPrices a) =? 0)%nat; [by left|].
  right. by eexists _, _.
Qed.

Lemma updateChartData_ok t (a : App N) :
  charts_ok a → charts_ok (updateChartData t a).
Proof.
  intros (Hg & Hs & Hmg & Hms). unfold charts_ok.
  destruct (updateChartData_charts t a) as [->|(g & sv & -> & ->)]; [done|].
  rewrite !append_point_maxPoints. split_and!; auto using append_point_ok.
Qed.

Lemma renderPriceGrid_charts m (a : App N) :
  chart_gold (renderPriceGrid localeCompare m a) = chart_gold a ∧
  chart_silver (renderPriceGrid localeCompare m a) = chart_silver a.
Proof. unfold renderPriceGrid. by repeat case_match. Qed.

Lemma client_step_ok ev (a : App N) :
  charts_ok a → charts_ok (client_step localeCompare ev a).
Proof.
  intros Ha. destruct ev; cbn [client_step]; try done.
  - unfold on_disconnect, handleReconnection. by case_match.
  - unfold on_initialData, charts_ok in *.
    match goal with
    | |- context [renderPriceGrid localeCompare ?m ?x] =>
        destruct (renderPriceGrid_charts m x) as [-> ->]
    end. done.
  - unfold handlePriceUpdate.
    pose proof (updateChartData_ok timeLabel
      (set_allPrices prices0 (set_previousPrices (deep_copy (allPrices a)) a)))
      as Hu.
    unfold charts_ok in *. cbn [checkSignificantChanges set_toasts
      chart_gold chart_silver].
    match goal with
    | |- context [renderPriceGrid localeCompare ?m ?x] =>
        destruct (renderPriceGrid_charts m x) as [-> ->]
    end.
    by apply Hu.
  - by case_match.
  - unfold applyFilters, charts_ok in *.
    match goal with
    | |- context [renderPriceGrid localeCompare ?m ?x] =>
        destruct (renderPriceGrid_charts m x) as [-> ->]
    end. done.
Qed.

Lemma client_run_ok tr (a : App N) :
  charts_ok a → charts_ok (client_run localeCompare tr a).
Proof.
  revert a. induction tr as [|ev tr IH]; intros a Ha; [done|].
  cbn. apply IH. by apply client_step_ok.
Qed.

(** What a snapshot does to the two series. *)
Lemma handlePriceUpdate_series newPrices t (a : App N) :
  let a' := handlePriceUpdate localeCompare newPrices t a in
  chart_gold a' =
    (if (size newPrices =? 0)%nat then chart_gold a
     else append_point t
            (average (fun city => k24 (gold city)) (map_to_list newPrices).*2)
            (chart_gold a)) ∧
  chart_silver a' =
    (if (size newPrices =? 0)%nat then chart_silver a
     else append_point t
            (average (fun city => s999 (silver city))
               (map_to_list newPrices).*2)
            (chart_silver a)).
Proof.
  cbn zeta. unfold handlePriceUpdate.
  cbn [checkSignificantChanges set_toasts chart_gold chart_silver].
  match goal with
  | |- context [renderPriceGrid localeCompare "" ?x] =>
      destruct (renderPriceGrid_charts "" x) as [-> ->]
  end.
  unfold updateChartData. cbn [allPrices set_allPrices set_previousPrices].
  by destruct (size newPrices =? 0)%nat.
Qed.

Lemma appends_app (l1 l2 : list (string * N)) c :
  appends (l1 ++ l2) c = appends l2 (appends l1 c).
Proof. unfold appends. by rewrite fold_left_app. Qed.

(** Only a snapshot touches the series. *)
Lemma client_step_series ev (a : App N) :
  chart_gold (client_step localeCompare ev a) =
    appends (chart_point (fun city => k24 (gold city)) ev) (chart_gold a) ∧
  chart_silver (client_step localeCompare ev a) =
    appends (chart_point (fun city => s999 (silver city)) ev) (chart_silver a).
Proof.
  destruct ev; cbn [client_step chart_point appends fold_left]; try done.
  - unfold on_disconnect, handleReconnection. by case_match.
  - unfold on_initialData. by rewrite !(proj1 (renderPriceGrid_charts _ _)),
      !(proj2 (renderPriceGrid_charts _ _)).
  - destruct (handlePriceUpdate_series prices0 timeLabel a) as [-> ->].
    by destruct (size prices0 =? 0)%nat.
  - by case_match.
  - unfold applyFilters. by rewrite !(proj1 (renderPriceGrid_charts _ _)),
      !(proj2 (renderPriceGrid_charts _ _)).
Qed.

Lemma client_run_series tr (a : App N) :
  chart_gold (client_run localeCompare tr a) =
    appends (chart_points (fun city => k24 (gold city)) tr) (chart_gold a) ∧
  chart_silver (client_run localeCompare tr a) =
    appends (chart_points (fun city => s999 (silver city)) tr)
      (chart_silver a).
Proof.
  revert a. induction tr as [|ev tr IH]; intros a; [done|].
  change (client_run localeCompare (ev :: tr) a)
    with (client_run localeCompare tr (client_step localeCompare ev a)).
  destruct (IH (client_step localeCompare ev a)) as [-> ->].
  destruct (client_step_series ev a) as [-> ->].
  unfold chart_points. cbn [flat_map]. by rewrite !appends_app.
Qed.
End ChartInvariant.

(** C6. However many snapshots the application handles, neither chart
    series holds more than its cap of 60 points; a snapshot that is not
    empty appends one point to each series, the average of its cities
    labelled with the time of the update, and an empty snapshot appends
    none; appending to a series at its cap drops exactly its oldest point
    and keeps the others in order; so after any run of appends the series is
    the last 60 points appended, in the order they were appended; and after
    any sequence of events each series of the application holds the points
    of the last 60 snapshots that were not empty, oldest first. *)
Theorem C6_chart_series_sliding_window :
  ∀ (N : Type) (JN : JsNumber N) (localeCompare : string → string → Z),
    (∀ tr : list (@ClientEvent N),
       let a := client_run localeCompare tr new_App in
       (length (timestamps (chart_gold a)) ≤ 60)%nat ∧
       (length (prices (chart_gold a)) ≤ 60)%nat ∧
       (length (timestamps (chart_silver a)) ≤ 60)%nat ∧
       (length (prices (chart_silver a)) ≤ 60)%nat) ∧
    (∀ (a : App N) newPrices t,
       let a' := handlePriceUpdate localeCompare newPrices t a in
       (newPrices ≠ ∅ →
        chart_gold a' =
          append_point t
            (average (fun city => k24 (gold city)) (map_to_list newPrices).*2)
            (chart_gold a) ∧
        chart_silver a' =
          append_point t
            (average (fun city => s999 (silver city))
               (map_to_list newPrices).*2)
            (chart_silver a)) ∧
       (newPrices = ∅ →
        chart_gold a' = chart_gold a ∧ chart_silver a' = chart_silver a)) ∧
    (∀ (c : ChartSeries N) t p,
       maxPoints c = 60%nat →
       length (timestamps c) = 60%nat → length (prices c) = 60%nat →
       append_point t p c =
       {| timestamps := tail (timestamps c) ++ [t];
          prices := tail (prices c) ++ [p];
          maxPoints := 60 |}) ∧
    (∀ pts : list (string * N),
       let c := appends pts empty_series in
       timestamps c = drop (length pts - 60) pts.*1 ∧
       prices c = drop (length pts - 60) pts.*2) ∧
    (∀ tr : list (@ClientEvent N),
       let a := client_run localeCompare tr new_App in
       let g := chart_points (fun city => k24 (gold city)) tr in
       let sv := chart_points (fun city => s999 (silver city)) tr in
       timestamps (chart_gold a) = drop (length g - 60) g.*1 ∧
       prices (chart_gold a) = drop (length g - 60) g.*2 ∧
       timestamps (chart_silver a) = drop (length sv - 60) sv.*1 ∧
       prices (chart_silver a) = drop (length sv - 60) sv.*2).
Proof.
  intros N JN lc. split_and!.
  - intros tr a.
    assert (Hok : charts_ok a).
    { apply client_run_ok. unfold charts_ok, series_ok. cbn. lia. }
    destruct Hok as ((Hg1 & Hg2) & (Hs1 & Hs2) & Hmg & Hms).
    rewrite <- Hg1, <- Hs1, Hmg in *. rewrite Hms in *. done.
  - intros a newPrices t a'. subst a'.
    destruct (handlePriceUpdate_series lc newPrices t a) as [-> ->].
    split.
    + intros Hne. apply map_size_non_empty_iff in Hne as Hsz.
      by destruct (Nat.eqb_spec (size newPrices) 0).
    + by intros ->.
  - intros c t p Hm Ht Hp. rewrite append_point_full; rewrite ?Hm; auto; lia.
  - intros pts c.
    destruct (appends_window pts 60) as (Hts & Hps & _). done.
  - intros tr a g sv. subst a.
    destruct (client_run_series lc tr new_App) as [-> ->].
    destruct (appends_window g 60) as (Hg1 & Hg2 & _).
    destruct (appends_window sv 60) as (Hs1 & Hs2 & _).
    done.
Qed.

Lemma C6_chart_series_sliding_window_witness :
  let c : ChartSeries Q :=
    {| timestamps := replicate 60 "10:00:00"; prices := replicate 60 1%Q;
       maxPoints := 60 |} in
  append_point "10:00:10" 2%Q c =
  {| timestamps := tail (timestamps c) ++ ["10:00:10"];
     prices := tail (prices c) ++ [2%Q];
     maxPoints := 60 |}.
Proof.
  intros c.
  apply (proj1 (proj2 (proj2
           (C6_chart_series_sliding_window Q _ (fun _ _ => 0%Z)))));
    reflexivity.
Defined.

(** ** Snapshots and significant changes *)

Section Snapshots.
Context {N : Type} `{JsNumber N}.
Variable localeCompare : string → string → Z.

Lemma renderPriceGrid_frame m (a : App N) :
  allPrices (renderPriceGrid localeCompare m a) = allPrices a ∧
  previousPrices (renderPriceGrid localeCompare m a) = previousPrices a ∧
  filteredData (renderPriceGrid localeCompare m a) = filteredData a ∧
  toasts (renderPriceGrid localeCompare m a) = toasts a.
Proof. unfold renderPriceGrid. by repeat case_match. Qed.

Lemma updateChartData_frame t (a : App N) :
  allPrices (updateChartData t a) = allPrices a ∧
  previousPrices (updateChartData t a) = previousPrices a ∧
  filteredData (updateChartData t a) = filteredData a ∧
  toasts (updateChartData t a) = toasts a.
Proof. unfold updateChartData. by case_match. Qed.

Lemma handlePriceUpdate_snapshots newPrices t (a : App N) :
  let a' := handlePriceUpdate localeCompare newPrices t a in
  previousPrices a' = allPrices a ∧ allPrices a' = newPrices.
Proof.
  unfold handlePriceUpdate.
  cbn [checkSignificantChanges set_toasts previousPrices allPrices].
  match goal with
  | |- context [renderPriceGrid localeCompare ?m ?x] =>
      destruct (renderPriceGrid_frame m x) as (-> & -> & _ & _)
  end.
  match goal with
  | |- context [updateChartData t ?x] =>
      destruct (updateChartData_frame t x) as (-> & -> & _ & _)
  end.
  done.
Qed.

Lemma handlePriceUpdate_toasts newPrices t (a : App N) :
  toasts (handlePriceUpdate localeCompare newPrices t a) =
  toasts a ++
  flat_map
    (fun kv : string * Bundle N =>
       match allPrices a !! kv.1 with
       | None => []
       | Some previous => cityToasts kv.2 previous
       end)
    (map_to_list newPrices).
Proof.
  unfold handlePriceUpdate.
  cbn [checkSignificantChanges set_toasts toasts].
  match goal with
  | |- context [renderPriceGrid localeCompare ?m ?x] =>
      destruct (renderPriceGrid_frame m x) as (-> & -> & _ & ->)
  end.
  match goal with
  | |- context [updateChartData t ?x] =>
      destruct (updateChartData_frame t x) as (-> & -> & _ & ->)
  end.
  done.
Qed.

Lemma cityToasts_eq (current previous : Bundle N) :
  cityToasts current previous =
  (if significant (k24 (gold current)) (k24 (gold previous))
   then [gold_toast current previous] else []) ++
  (if significant (s999 (silver current)) (s999 (silver previous))
   then [silver_toast current previous] else []).
Proof. reflexivity. Qed.

Lemma gold_toast_iff (current previous : Bundle N) :
  gold_toast current previous ∈ cityToasts current previous ↔
  significant (k24 (gold current)) (k24 (gold previous)) = true.
Proof.
  rewrite cityToasts_eq, elem_of_app.
  destruct (significant (k24 _) _), (significant (s999 _) _);
    rewrite ?elem_of_nil, ?list_elem_of_singleton; split; try tauto;
    try discriminate; intros [|]; try done.
  all: by exfalso.
Qed.

Lemma silver_toast_iff (current previous : Bundle N) :
  silver_toast current previous ∈ cityToasts current previous ↔
  significant (s999 (silver current)) (s999 (silver previous)) = true.
Proof.
  rewrite cityToasts_eq, elem_of_app.
  destruct (significant (k24 _) _), (significant (s999 _) _);
    rewrite ?elem_of_nil, ?list_elem_of_singleton; split; try tauto;
    try discriminate; intros [|]; try done.
  all: by exfalso.
Qed.

Lemma handlePriceUpdate_fires newPrices t (a : App N) cityId cur prev toast :
  newPrices !! cityId = Some cur → allPrices a !! cityId = Some prev →
  toast ∈ cityToasts cur prev →
  toast ∈ toasts (handlePriceUpdate localeCompare newPrices t a).
Proof.
  intros Hcur Hprev Hin. rewrite handlePriceUpdate_toasts, elem_of_app.
  right. apply list_elem_of_In, in_flat_map. exists (cityId, cur). split.
  - apply list_elem_of_In. by apply elem_of_map_to_list.
  - cbn. rewrite Hprev. by apply list_elem_of_In.
Qed.

Lemma handlePriceUpdate_only_fires newPrices t (a : App N) toast :
  toast ∈ toasts (handlePriceUpdate localeCompare newPrices t a) →
  toast ∈ toasts a ∨
  ∃ cityId cur prev,
    newPrices !! cityId = Some cur ∧ allPrices a !! cityId = Some prev ∧
    toast ∈ cityToasts cur prev.
Proof.
  rewrite handlePriceUpdate_toasts, elem_of_app. intros [?|Hin]; [by left|].
  right. apply list_elem_of_In, in_flat_map in Hin.
  destruct Hin as ([cityId cur] & Hkv & Hin). cbn in Hin.
  destruct (allPrices a !! cityId) as [prev|] eqn:Hprev; [|done].
  exists cityId, cur, prev. split_and!; [|done|by apply list_elem_of_In].
  by apply elem_of_map_to_list, list_elem_of_In.
Qed.
End Snapshots.

(** In exact arithmetic, and for a positive previous price, the test of
    [checkSignificantChanges] is the comparison of the relative change with
    one half of a percent. *)
Lemma significant_iff (current previous : Q) :
  (0 < previous)%Q →
  significant current previous = true ↔
  (5 # 1000 < Qabs (current - previous) / previous)%Q.
Proof.
  intros Hpos. unfold significant, significantChangeThreshold.
  cbn [nlt ndiv nsub Math_abs lit Q_number]. unfold Q_lt.
  rewrite negb_true_iff, <- not_true_iff_false, Qle_bool_iff.
  split; intros Hc.
  - by apply Qnot_le_lt.
  - by apply Qlt_not_le.
Qed.

(** C5. Handling a snapshot leaves the table held before it in
    [previousPrices] and the incoming one in [allPrices]; the toasts it adds
    are those of the cities present in both tables, a gold (silver) toast for
    such a city exactly when the test on its 24k (999) prices succeeds, which
    for a positive previous price is: the relative change exceeds 0.5%; and
    snapshot A (mumbai 24k 107610) followed by snapshot B (108500) shows the
    gold toast for Mumbai and no other, in exact arithmetic and in binary64. *)
Theorem C5_previous_then_current_and_significant_change :
  (∀ (N : Type) (JN : JsNumber N) (localeCompare : string → string → Z)
     (a : App N) (newPrices : gmap string (Bundle N)) (t : string),
     let a' := handlePriceUpdate localeCompare newPrices t a in
     previousPrices a' = allPrices a ∧ allPrices a' = newPrices ∧
     (∀ toast,
        toast ∈ toasts a' ↔
        toast ∈ toasts a ∨
        ∃ cityId cur prev,
          newPrices !! cityId = Some cur ∧ allPrices a !! cityId = Some prev ∧
          toast ∈ cityToasts cur prev) ∧
     (∀ cur prev : Bundle N,
        (gold_toast cur prev ∈ cityToasts cur prev ↔
         significant (k24 (gold cur)) (k24 (gold prev)) = true) ∧
        (silver_toast cur prev ∈ cityToasts cur prev ↔
         significant (s999 (silver cur)) (s999 (silver prev)) = true))) ∧
  (∀ current previous : Q,
     (0 < previous)%Q →
     significant current previous = true ↔
     (5 # 1000 < Qabs (current - previous) / previous)%Q) ∧
  toasts (scenario_AB (N := Q)) =
    [{| toast_message := "Gold price increased significantly in Mumbai";
        toast_type := "info" |}] ∧
  toasts (scenario_AB (N := float)) =
    [{| toast_message := "Gold price increased significantly in Mumbai";
        toast_type := "info" |}].
Proof.
  split_and!.
  - intros N JN lc a newPrices t a'. subst a'.
    destruct (handlePriceUpdate_snapshots lc newPrices t a) as [Hp Ha].
    split_and!; [done|done| |].
    + intros toast. split.
      * apply handlePriceUpdate_only_fires.
      * intros [Hold|(cityId & cur & prev & Hc & Hp' & Hin)].
        -- rewrite handlePriceUpdate_toasts, elem_of_app. by left.
        -- by eapply handlePriceUpdate_fires.
    + intros cur prev. split; [apply gold_toast_iff|apply silver_toast_iff].
  - apply significant_iff.
  - vm_compute. reflexivity.
  - vm_compute. reflexivity.
Qed.

Lemma C5_previous_then_current_and_significant_change_witness :
  (0 < 107610)%Q ∧
  (significant 108500%Q 107610%Q = true ↔
   (5 # 1000 < Qabs (108500 - 107610) / 107610)%Q).
Proof.
  split; [reflexivity|].
  apply (proj1 (proj2 C5_previous_then_current_and_significant_change)).
  reflexivity.
Defined.

(** ** Filters and the grid *)

Section Filters.
Context {N : Type} `{JsNumber N}.
Variable localeCompare : string → string → Z.

Lemma length_insert_by {A} (cmp : A → A → Z) x l :
  length (insert_by cmp x l) = S (length l).
Proof.
  induction l as [|y l IH]; [done|]. cbn. case_match; cbn; by rewrite ?IH.
Qed.

Lemma length_sort_by {A} (cmp : A → A → Z) (l : list A) :
  length (sort_by cmp l) = length l.
Proof.
  induction l as [|x l IH]; [done|].
  cbn. fold (sort_by cmp l). by rewrite length_insert_by, IH.
Qed.

(** What [renderPriceGrid] puts in the grid: the cards of the filtered view
    if it is not empty, else those of the whole table, else the message. *)
Lemma renderPriceGrid_grid m (a : App N) :
  let dataToRender :=
    if decide (filteredData a = ∅) then allPrices a else filteredData a in
  priceGrid (renderPriceGrid localeCompare m a) =
  if decide (dataToRender = ∅)
  then GridMessage "No cities found matching your criteria."
  else GridCards
         (map (createCityCard a m)
            (sort_by
               (fun x y : Bundle N =>
                  localeCompare (cname (cityInfo x)) (cname (cityInfo y)))
               (map_to_list dataToRender).*2)).
Proof.
  cbn zeta. unfold renderPriceGrid.
  destruct (decide (filteredData a = ∅)) as [Hf|Hf].
  - rewrite Hf, map_size_empty. cbn [Nat.ltb Nat.leb].
    destruct (decide (allPrices a = ∅)) as [Ha|Ha].
    + by rewrite Ha, map_size_empty.
    + apply map_size_non_empty_iff in Ha.
      destruct (Nat.eqb_spec (size (allPrices a)) 0); done.
  - pose proof (proj2 (map_size_non_empty_iff _) Hf) as Hs.
    destruct (Nat.ltb_spec 0 (size (filteredData a))); [|lia].
    destruct (Nat.eqb_spec (size (filteredData a)) 0); [lia|].
    by destruct (decide (filteredData a = ∅)).
Qed.

Lemma applyFilters_filteredData c m q (a : App N) :
  filteredData (applyFilters localeCompare c m q a) =
  filter (fun kv : string * Bundle N =>
            passes c (toLowerCase q) kv.1 kv.2 = true) (allPrices a).
Proof.
  unfold applyFilters.
  match goal with
  | |- context [renderPriceGrid localeCompare ?m ?x] =>
      by destruct (renderPriceGrid_frame localeCompare m x) as (_ & _ & -> & _)
  end.
Qed.

Lemma applyFilters_lookup c m q (a : App N) cityId b :
  filteredData (applyFilters localeCompare c m q a) !! cityId = Some b ↔
  allPrices a !! cityId = Some b ∧ passes c (toLowerCase q) cityId b = true.
Proof. rewrite applyFilters_filteredData. apply map_lookup_filter_Some. Qed.

Lemma applyFilters_grid c m q (a : App N) :
  let a' := applyFilters localeCompare c m q a in
  let dataToRender :=
    if decide (filteredData a' = ∅) then allPrices a else filteredData a' in
  priceGrid a' =
  if decide (dataToRender = ∅)
  then GridMessage "No cities found matching your criteria."
  else GridCards
         (map (createCityCard a m)
            (sort_by
               (fun x y : Bundle N =>
                  localeCompare (cname (cityInfo x)) (cname (cityInfo y)))
               (map_to_list dataToRender).*2)).
Proof.
  cbn zeta. rewrite applyFilters_filteredData. unfold applyFilters.
  rewrite renderPriceGrid_grid. cbn [filteredData allPrices set_filteredData].
  repeat case_decide; done.
Qed.

Lemma applyFilters_cards c m q (a : App N) :
  let a' := applyFilters localeCompare c m q a in
  (filteredData a' ≠ ∅ →
   ∃ cards, priceGrid a' = GridCards cards ∧
            length cards = size (filteredData a')) ∧
  (filteredData a' = ∅ → allPrices a ≠ ∅ →
   ∃ cards, priceGrid a' = GridCards cards ∧
            length cards = size (allPrices a)) ∧
  (filteredData a' = ∅ → allPrices a = ∅ →
   priceGrid a' = GridMessage "No cities found matching your criteria.").
Proof.
  cbn zeta. pose proof (applyFilters_grid c m q a) as Hg. cbn zeta in Hg.
  set (F := filteredData (applyFilters localeCompare c m q a)) in *.
  rewrite Hg. clear Hg.
  destruct (decide (F = ∅)) as [HF|HF];
    (destruct (decide (allPrices a = ∅)) as [Ha|Ha]);
    split_and!; intros; try done;
    try (rewrite decide_False by done); try (rewrite decide_True by done);
    try done.
  all: eexists; split; [done|].
  all: by rewrite length_map, length_sort_by, length_fmap, length_map_to_list.
Qed.
(** A later snapshot does not recompute the filtered view: it still holds
    the bundles of the snapshot the filter was applied to. *)
Lemma handlePriceUpdate_filteredData newPrices t (a : App N) :
  filteredData (handlePriceUpdate localeCompare newPrices t a) = filteredData a.
Proof.
  unfold handlePriceUpdate.
  cbn [checkSignificantChanges set_toasts filteredData].
  match goal with
  | |- context [renderPriceGrid localeCompare ?m ?x] =>
      destruct (renderPriceGrid_frame localeCompare m x) as (_ & _ & -> & _)
  end.
  match goal with
  | |- context [updateChartData t ?x] =>
      by destruct (updateChartData_frame t x) as (_ & _ & -> & _)
  end.
Qed.
End Filters.

(** C9. [applyFilters] stores in [filteredData] exactly the entries of the
    table that pass the city and the search tests (the metal filter removes no
    entry: it selects the sections of a card), and renders one card per entry
    of that view when it is not empty.  When the filter matches no city of a
    non-empty table, the grid does not show zero cards: it shows one card per
    city of the whole table, and the message for an empty result is shown
    only if the table itself is empty. *)
Theorem C9_filter_matching_nothing_renders_whole_table :
  ∀ (N : Type) (JN : JsNumber N) (localeCompare : string → string → Z)
    (a : App N) (cityFilter metalFilter searchInput : string),
    let a' := applyFilters localeCompare cityFilter metalFilter searchInput a in
    (∀ cityId b,
       filteredData a' !! cityId = Some b ↔
       allPrices a !! cityId = Some b ∧
       passes cityFilter (toLowerCase searchInput) cityId b = true) ∧
    (filteredData a' ≠ ∅ →
     ∃ cards, priceGrid a' = GridCards cards ∧
              length cards = size (filteredData a')) ∧
    (filteredData a' = ∅ → allPrices a ≠ ∅ →
     ∃ cards, priceGrid a' = GridCards cards ∧
              length cards = size (allPrices a) ∧ (0 < length cards)%nat) ∧
    (filteredData a' = ∅ → allPrices a = ∅ →
     priceGrid a' = GridMessage "No cities found matching your criteria.").
Proof.
  intros N JN lc a c m q a'. subst a'.
  destruct (applyFilters_cards lc c m q a) as (H1 & H2 & H3).
  split_and!; [apply applyFilters_lookup|done| |done].
  intros He Hne. destruct (H2 He Hne) as (cards & Hg & Hl).
  exists cards. split_and!; [done|done|].
  rewrite Hl. apply map_size_non_empty_iff in Hne. lia.
Qed.

(** The search text "zzz" matches no city, and Mumbai's card is rendered. *)
Lemma C9_filter_matching_nothing_renders_whole_table_witness :
  let a : App Q :=
    set_allPrices {[ "mumbai" := bundle_at mumbai 107610%Q 126480%Q ]}
      new_App in
  let a' := applyFilters (fun _ _ => 0%Z) "" "" "zzz" a in
  filteredData a' = ∅ ∧ allPrices a ≠ ∅ ∧
  ∃ cards, priceGrid a' = GridCards cards ∧
           length cards = size (allPrices a) ∧ (0 < length cards)%nat.
Proof.
  intros a a'.
  assert (He : filteredData a' = ∅).
  { subst a' a. rewrite applyFilters_filteredData.
    cbn [allPrices set_allPrices]. apply map_filter_singleton_False.
    cbn. discriminate. }
  assert (Hne : allPrices a ≠ ∅).
  { subst a. cbn. apply insert_non_empty. }
  split_and!; [done|done|].
  exact (proj1 (proj2 (proj2
    (C9_filter_matching_nothing_renders_whole_table
       Q _ (fun _ _ => 0%Z) a "" "" "zzz"))) He Hne).
Defined.

(** ** The route [/api/prices/:cityId] *)

Section Route.
Context {N : Type} `{JsNumber N}.

Lemma get_known (s : Server N) cityId b :
  currentPrices s !! cityId = Some b →
  get_api_prices_cityId cityId s = Done (Json (Own b)) s.
Proof.
  intros Hb. unfold get_api_prices_cityId, bind, gets, js_get.
  by rewrite Hb.
Qed.

Lemma get_unknown (s : Server N) cityId :
  currentPrices s !! cityId = None → cityId ∉ Object_prototype →
  get_api_prices_cityId cityId s = Done (NotFound "City not found") s.
Proof.
  intros Hb Hp. unfold get_api_prices_cityId, bind, gets, js_get.
  rewrite Hb.
  destruct (existsb (String.eqb cityId) Object_prototype) eqn:He; [|done].
  apply existsb_exists in He as (k & Hk & Heq).
  apply String.eqb_eq in Heq as <-. by apply list_elem_of_In in Hk.
Qed.

Lemma get_inherited (s : Server N) cityId :
  currentPrices s !! cityId = None → cityId ∈ Object_prototype →
  get_api_prices_cityId cityId s = Done (Json (Inherited cityId)) s.
Proof.
  intros Hb Hp. unfold get_api_prices_cityId, bind, gets, js_get.
  rewrite Hb.
  destruct (existsb (String.eqb cityId) Object_prototype) eqn:He; [done|].
  exfalso. apply not_true_iff_false in He. apply He, existsb_exists.
  exists cityId. split; [by apply list_elem_of_In|apply String.eqb_refl].
Qed.

(** No city identifier is a member of [Object.prototype]: on the
    identifiers the server itself uses, [o[k]] is the own-property lookup. *)
Lemma city_ids_are_own : Forall (fun c => cid c ∉ Object_prototype) METRO_CITIES.
Proof.
  assert (Hb : Forall (fun c => existsb (String.eqb (cid c)) Object_prototype
                               = false) METRO_CITIES)
    by (repeat constructor).
  eapply Forall_impl; [exact Hb|]. intros c Hc Hin. cbv beta in Hc.
  apply not_true_iff_false in Hc. apply Hc, existsb_exists.
  exists (cid c). split; [by apply list_elem_of_In|apply String.eqb_refl].
Qed.
End Route.

(** C8. The handler never changes the state, answers a known city with its
    bundle, and answers 404 for an identifier that is neither a key of the
    table nor a member of [Object.prototype].  For the twelve member names of
    [Object.prototype], none of which is a city, it does not answer 404: the
    test [if (currentPrices[cityId])] finds the inherited member and the
    handler sends it with status 200. *)
Theorem C8_unknown_city_inherited_member_is_not_404 :
  ∀ (N : Type) (JN : JsNumber N) (s : Server N) (cityId : string),
    final (get_api_prices_cityId cityId s) = s ∧
    (∀ b, currentPrices s !! cityId = Some b →
          get_api_prices_cityId cityId s = Done (Json (Own b)) s) ∧
    (currentPrices s !! cityId = None → cityId ∉ Object_prototype →
     get_api_prices_cityId cityId s = Done (NotFound "City not found") s) ∧
    (currentPrices s !! cityId = None → cityId ∈ Object_prototype →
     (cityId ∉ cid <$> METRO_CITIES) ∧
     get_api_prices_cityId cityId s = Done (Json (Inherited cityId)) s).
Proof.
  intros N JN s cityId. split_and!.
  - unfold get_api_prices_cityId, bind, gets. by case_match.
  - apply get_known.
  - apply get_unknown.
  - intros Hb Hp. split; [|by apply get_inherited].
    intros Hin. apply list_elem_of_fmap in Hin as (c & -> & Hc).
    pose proof city_ids_are_own as Hown.
    rewrite Forall_forall in Hown. by apply (Hown c).
Qed.

(** [GET /api/prices/constructor] on the table of the twenty cities. *)
Lemma C8_unknown_city_inherited_member_is_not_404_witness :
  let s : Server Q :=
    final (initializeApp (Rejected "timeout of 10000ms exceeded")
             (boot (fun _ => 0.5%Q) 0)) in
  size (currentPrices s) = 20%nat ∧
  ("constructor" ∉ cid <$> METRO_CITIES) ∧
  get_api_prices_cityId "constructor" s
  = Done (Json (Inherited "constructor")) s.
Proof.
  intros s. split; [vm_compute; reflexivity|].
  apply (proj2 (proj2 (proj2
    (C8_unknown_city_inherited_member_is_not_404 Q _ s "constructor")))).
  - vm_compute. reflexivity.
  - apply list_elem_of_In. cbn. auto.
Defined.

(** ** Reconnection *)

Section Reconnection.
Context {N : Type} `{JsNumber N}.
Variable localeCompare : string → string → Z.

Lemma handleReconnection_below (a : App N) :
  (retryCount a < maxRetries a)%nat →
  handleReconnection a =
  set_pending (pending a ++ [(2 ^ Z.of_nat (retryCount a) * 1000)%Z]) a.
Proof.
  intros Hlt. unfold handleReconnection.
  by destruct (Nat.ltb_spec (retryCount a) (maxRetries a)); [|lia].
Qed.

Lemma handleReconnection_exhausted (a : App N) :
  (maxRetries a ≤ retryCount a)%nat →
  handleReconnection a =
  showToast "Unable to reconnect. Please refresh the page." "error" a.
Proof.
  intros Hge. unfold handleReconnection.
  by destruct (Nat.ltb_spec (retryCount a) (maxRetries a)); [lia|].
Qed.

Lemma renderPriceGrid_reconnection m (a : App N) :
  reconnection (renderPriceGrid localeCompare m a) = reconnection a.
Proof. unfold renderPriceGrid. by repeat case_match. Qed.

Lemma updateChartData_reconnection t (a : App N) :
  reconnection (updateChartData t a) = reconnection a.
Proof. unfold updateChartData. by case_match. Qed.

(** Once the retries are used up and no timer is pending, only a
    successful connection changes anything reconnection depends on. *)
Lemma client_step_exhausted ev (a : App N) :
  ev ≠ Connect → (maxRetries a ≤ retryCount a)%nat → pending a = [] →
  reconnection (client_step localeCompare ev a) = reconnection a.
Proof.
  intros Hev Hge Hp. destruct ev; cbn [client_step]; try done.
  - unfold on_disconnect. rewrite handleReconnection_exhausted; done.
  - unfold on_initialData. by rewrite renderPriceGrid_reconnection.
  - unfold handlePriceUpdate, checkSignificantChanges.
    change (reconnection (set_toasts ?t ?x)) with (reconnection x).
    by rewrite renderPriceGrid_reconnection, updateChartData_reconnection.
  - by rewrite Hp.
  - unfold applyFilters. by rewrite renderPriceGrid_reconnection.
Qed.

Lemma client_run_exhausted tr (a : App N) :
  Connect ∉ tr → (maxRetries a ≤ retryCount a)%nat → pending a = [] →
  reconnection (client_run localeCompare tr a) = reconnection a.
Proof.
  revert a. induction tr as [|ev tr IH]; intros a Hc Hge Hp; [done|].
  apply not_elem_of_cons in Hc as [Hev Hc].
  pose proof (client_step_exhausted ev a (not_eq_sym Hev) Hge Hp) as Hs.
  change (client_run localeCompare (ev :: tr) a)
    with (client_run localeCompare tr (client_step localeCompare ev a)).
  unfold reconnection in Hs. injection Hs as Hs1 Hs2 Hs3 Hs4.
  rewrite IH; [|done|lia|congruence].
  unfold reconnection. congruence.
Qed.
End Reconnection.

(** C7. A transport loss (the ['disconnect'] event) below the retry limit
    schedules one reconnection attempt after [2^retryCount] seconds; the
    attempt, when its timer expires, counts one retry and opens a socket.
    So in consecutive rounds of loss and attempt with no connection
    established in between, the delays are 1, 2, 4, 8 and 16 seconds; after
    these five attempts the counter is at [maxRetries] = 5, and from then
    on, with no timer pending, no sequence of events other than a successful
    connection makes the application open another socket or schedule
    another attempt.  A ['connect_error'] by itself schedules nothing.

    The limit and the doubling are missed when losses overlap, because the
    counter is tested when a loss arrives and moves only when a timer
    expires: six losses that arrive before the first timer expires are all
    scheduled after one second; once five of the six timers have expired the
    counter is at [maxRetries] with one timer still pending, and that timer
    opens a seventh socket: a sixth attempt after five failed ones. *)
Theorem C7_retry_limit_misses_overlapping_losses :
  ∀ (N : Type) (JN : JsNumber N) (localeCompare : string → string → Z),
    (∀ a : App N,
       (retryCount a < maxRetries a)%nat →
       pending (client_step localeCompare Disconnect a) =
       pending a ++ [(1000 * 2 ^ Z.of_nat (retryCount a))%Z] ∧
       sockets (client_step localeCompare Disconnect a) = sockets a ∧
       retryCount (client_step localeCompare Disconnect a) = retryCount a) ∧
    (∀ (a : App N) k d,
       pending a !! k = Some d →
       let a' := client_step localeCompare (TimerFires k) a in
       retryCount a' = S (retryCount a) ∧ sockets a' = S (sockets a) ∧
       pending a' = delete k (pending a)) ∧
    (∀ i : nat,
       (i < 5)%nat →
       pending (client_run localeCompare
                  (lossy_rounds i ++ [Disconnect]) (connected_App (N := N)))
       = [(1000 * 2 ^ Z.of_nat i)%Z]) ∧
    reconnection (client_run localeCompare (lossy_rounds 5)
                    (connected_App (N := N)))
    = (5%nat, 5%nat, [], 6%nat) ∧
    (∀ a : App N,
       reconnection (client_step localeCompare ConnectError a)
       = reconnection a) ∧
    (∀ (a : App N) (tr : list ClientEvent),
       (maxRetries a ≤ retryCount a)%nat → pending a = [] → Connect ∉ tr →
       sockets (client_run localeCompare tr a) = sockets a ∧
       pending (client_run localeCompare tr a) = [] ∧
       retryCount (client_run localeCompare tr a) = retryCount a) ∧
    (let a6 :=
       client_run localeCompare (replicate 6 Disconnect)
         (connected_App (N := N)) in
     reconnection a6 = (0%nat, 5%nat, replicate 6 1000%Z, 1%nat) ∧
     reconnection (client_run localeCompare (replicate 5 (TimerFires 0)) a6)
     = (5%nat, 5%nat, [1000%Z], 6%nat) ∧
     reconnection (client_run localeCompare (replicate 6 (TimerFires 0)) a6)
     = (6%nat, 5%nat, [], 7%nat)).
Proof.
  intros N JN lc. split_and!.
  - intros a Hlt. cbn [client_step]. unfold on_disconnect.
    rewrite handleReconnection_below by done.
    cbn. split_and!; [|done|done]. do 2 f_equal. lia.
  - intros a k d Hk a'. subst a'. cbn [client_step]. by rewrite Hk.
  - intros i Hi.
    destruct i as [|[|[|[|[|i]]]]]; [reflexivity..|lia].
  - reflexivity.
  - reflexivity.
  - intros a tr Hge Hp Hc.
    pose proof (client_run_exhausted lc tr a Hc Hge Hp) as Hr.
    unfold reconnection in Hr. injection Hr as -> _ -> ->. by rewrite Hp.
  - cbn zeta. split_and!; reflexivity.
Qed.

(** After the five failed rounds further losses, expired timers and
    connection errors open no socket. *)
Lemma C7_retry_limit_misses_overlapping_losses_witness :
  let a : App Q := client_run (fun _ _ => 0%Z) (lossy_rounds 5) connected_App in
  let tr : list (@ClientEvent Q) :=
    [Disconnect; TimerFires 0; ConnectError; Disconnect] in
  ((maxRetries a ≤ retryCount a)%nat ∧ pending a = [] ∧ Connect ∉ tr) ∧
  sockets (client_run (fun _ _ => 0%Z) tr a) = sockets a ∧
  pending (client_run (fun _ _ => 0%Z) tr a) = [] ∧
  retryCount (client_run (fun _ _ => 0%Z) tr a) = retryCount a.
Proof.
  intros a tr.
  assert (Hge : (maxRetries a ≤ retryCount a)%nat) by (vm_compute; lia).
  assert (Hp : pending a = []) by reflexivity.
  assert (Hc : Connect ∉ tr).
  { subst tr. rewrite !not_elem_of_cons. split_and!; try discriminate.
    apply not_elem_of_nil. }
  split; [done|].
  exact (proj1 (proj2 (proj2 (proj2 (proj2 (proj2
    (C7_retry_limit_misses_overlapping_losses Q _ (fun _ _ => 0%Z)))))))
    a tr Hge Hp Hc).
Defined.

(** ** Reasoning about [Eff]: weakest preconditions *)

Section Wp.
Context {S : Type}.

Lemma wp_ret {A} (a : A) (s : S) Q E : Q a s → wp (ret a) s Q E.
Proof. done. Qed.

Lemma wp_bind {A B} (m : Eff S A) (k : A → Eff S B) s Q E :
  wp m s (fun a s' => wp (k a) s' Q E) E → wp (bind m k) s Q E.
Proof. unfold wp, bind. by destruct (m s). Qed.

Lemma wp_throw {A} e (s : S) (Q : A → S → Prop) E :
  E e s → wp (throw e) s Q E.
Proof. done. Qed.

Lemma wp_gets {A} (f : S → A) s Q E : Q (f s) s → wp (gets f) s Q E.
Proof. done. Qed.

Lemma wp_modify (f : S → S) s Q E : Q tt (f s) → wp (modify f) s Q E.
Proof. done. Qed.

Lemma wp_try_catch {A} (m : Eff S A) h s Q E :
  wp m s Q (fun e s' => wp (h e) s' Q E) → wp (try_catch m h) s Q E.
Proof. unfold wp, try_catch. by destruct (m s). Qed.

Lemma wp_mono {A} (m : Eff S A) s (Q Q' : A → S → Prop) (E E' : string → S → Prop) :
  wp m s Q E → (∀ a s', Q a s' → Q' a s') → (∀ e s', E e s' → E' e s') →
  wp m s Q' E'.
Proof. unfold wp. destruct (m s); auto. Qed.

(** [forEach] over [l], with an invariant over the elements already
    visited. *)
Lemma wp_forEach_from {A} (f : A → Eff S unit) (I : list A → S → Prop) E l :
  (∀ visited x rest s,
     l = visited ++ x :: rest → I visited s →
     wp (f x) s (fun _ s' => I (visited ++ [x]) s') E) →
  ∀ visited rest s,
    l = visited ++ rest → I visited s →
    wp (forEach rest f) s (fun _ s' => I l s') E.
Proof.
  intros Hf visited rest. revert visited.
  induction rest as [|x rest IH]; intros visited s Hl HI; cbn [forEach].
  - rewrite app_nil_r in Hl. subst l. by apply wp_ret.
  - apply wp_bind. eapply wp_mono; [by eapply Hf| |done].
    intros u s' HI'. cbv beta. apply (IH (visited ++ [x])); [|done].
    by rewrite <- app_assoc.
Qed.

Lemma wp_forEach {A} (f : A → Eff S unit) (I : list A → S → Prop) E l s :
  I [] s →
  (∀ visited x rest s',
     l = visited ++ x :: rest → I visited s' →
     wp (f x) s' (fun _ s'' => I (visited ++ [x]) s'') E) →
  wp (forEach l f) s (fun _ s' => I l s') E.
Proof. intros HI Hf. by apply (wp_forEach_from f I E l Hf [] l). Qed.

Lemma wp_rewrite {A} (m m' : Eff S A) s s' Q E :
  m s = m' s' → wp m' s' Q E → wp m s Q E.
Proof. unfold wp. by intros ->. Qed.

Lemma wp_Done {A} (m : Eff S A) s a s' (Q : A → S → Prop) E :
  m s = Done a s' → Q a s' → wp m s Q E.
Proof. unfold wp. by intros ->. Qed.

(** A property both outcomes establish holds of the final state. *)
Lemma wp_final {A} (m : Eff S A) s (P : S → Prop) :
  wp m s (fun _ s' => P s') (fun _ s' => P s') → P (final (m s)).
Proof. unfold wp, final. by destruct (m s). Qed.

Lemma wp_done {A} (m : Eff S A) s (Q : A → S → Prop) :
  wp m s Q (fun _ _ => False) → ∃ a s', m s = Done a s' ∧ Q a s'.
Proof. unfold wp. destruct (m s); [eauto|done]. Qed.
End Wp.

(** ** Positive prices *)

Section Positive.
Local Open Scope Q_scope.

Lemma Q_round_ge_1 (x : Q) : 1 # 2 <= x → 1 <= Q_round x.
Proof.
  intros Hx. unfold Q_round.
  assert (Hz : (Qfloor (inject_Z 1) <= Qfloor (x + (1 # 2)))%Z).
  { apply Qfloor_resp_le. change (inject_Z 1) with 1. lra. }
  rewrite Qfloor_Z in Hz. change 1 with (inject_Z 1).
  rewrite <- Zle_Qle. exact Hz.
Qed.

Lemma Qmult_lower (a b a0 b0 : Q) :
  0 <= a0 → 0 <= b0 → a0 <= a → b0 <= b → a0 * b0 <= a * b.
Proof. intros. nra. Qed.

Lemma table_get_In t k v : table_get t k = Some v → In (k, v) t.
Proof.
  induction t as [|[k' v'] t IH]; cbn; [done|].
  destruct (String.eqb_spec k k') as [->|_]; [|by right; apply IH].
  intros [= ->]. by left.
Qed.

Lemma or_default_lower t d lo k :
  Forall (fun kv : string * Q => lo <= kv.2) t → lo <= d →
  lo <= or_default (N := Q) (table_get t k) d.
Proof.
  intros Ht Hd. unfold or_default.
  destruct (table_get t k) as [v|] eqn:Hk; [|done].
  destruct (truthy (lit v)); [|done].
  apply table_get_In in Hk. rewrite Forall_forall in Ht.
  by apply (Ht (k, v)), list_elem_of_In.
Qed.

Lemma variation_lower cityId :
  0.98 <= or_default (N := Q) (table_get cityVariations cityId) 1.0.
Proof.
  apply or_default_lower; [|done].
  repeat constructor; cbn; unfold Qle; cbn; lia.
Qed.

Lemma getCityMultiplier_lower cityId :
  0.985 <= getCityMultiplier (N := Q) cityId.
Proof.
  apply or_default_lower; [|done].
  repeat constructor; cbn; unfold Qle; cbn; lia.
Qed.

Lemma generateCityPrice_ok basePrice cityId (s : Server Q) :
  draws_ok (draws s) → price_ok basePrice →
  ∃ p, generateCityPrice basePrice cityId s
       = Done p (set_drawn (S (drawn s)) s) ∧ price_ok p.
Proof.
  intros Hd Hb. eexists. split; [apply generateCityPrice_eq|].
  destruct (Hd (drawn s)) as [Hr0 Hr1].
  pose proof (variation_lower cityId) as Hv.
  cbn [Math_round nmul nadd lit Q_number].
  apply Q_round_ge_1.
  set (v := or_default _ _) in *. set (r := draws s (drawn s)) in *.
  unfold price_ok in Hb.
  assert (H1 : 1 * 0.98 <= basePrice * v) by (apply Qmult_lower; lra).
  assert (H2 : (1 * 0.98) * 0.995 <= basePrice * v * (0.995 + r * 0.01))
    by (apply Qmult_lower; lra).
  lra.
Qed.

Lemma fluctuate_ok currentPrice w (s : Server Q) :
  draws_ok (draws s) → price_ok currentPrice → 0 <= w → w <= 1 →
  ∃ p, fluctuate currentPrice w s = Done p (set_drawn (S (drawn s)) s) ∧
       price_ok p.
Proof.
  intros Hd Hp Hw0 Hw1. eexists. split; [reflexivity|].
  destruct (Hd (drawn s)) as [Hr0 Hr1].
  cbn [Math_round nmul nadd nsub lit Q_number].
  apply Q_round_ge_1. set (r := draws s (drawn s)) in *.
  unfold price_ok in Hp.
  assert (H1 : 1 * (1 # 2) <= currentPrice * (1 + (r - 0.5) * w)).
  { apply Qmult_lower; try lra. nra. }
  lra.
Qed.
End Positive.

(** ** The tables the server builds *)

Section Tables.
Context {N : Type} `{JsNumber N}.

Lemma METRO_CITIES_NoDup : NoDup (cid <$> METRO_CITIES).
Proof. apply (bool_decide_unpack _). vm_compute. exact I. Qed.

Lemma table_of_other (f : City → Bundle N) cities acc k :
  k ∉ cid <$> cities → table_of f cities acc !! k = acc !! k.
Proof.
  revert acc. induction cities as [|x l IH]; intros acc Hk; [done|].
  cbn in Hk. apply not_elem_of_cons in Hk as [Hx Hl].
  cbn. fold (table_of f l (<[cid x := f x]> acc)).
  rewrite IH by done. by rewrite lookup_insert_ne.
Qed.

Lemma table_of_lookup (f : City → Bundle N) cities acc c :
  NoDup (cid <$> cities) → c ∈ cities →
  table_of f cities acc !! cid c = Some (f c).
Proof.
  revert acc. induction cities as [|x l IH]; intros acc Hnd Hc.
  - by apply elem_of_nil in Hc.
  - cbn in Hnd. apply NoDup_cons in Hnd as [Hx Hnd].
    cbn. fold (table_of f l (<[cid x := f x]> acc)).
    apply elem_of_cons in Hc as [->|Hc].
    + rewrite table_of_other by done. apply lookup_insert_eq.
    + by apply IH.
Qed.

Lemma table_of_inv (f : City → Bundle N) cities acc k b :
  table_of f cities acc !! k = Some b →
  (∃ c, c ∈ cities ∧ k = cid c ∧ b = f c) ∨ acc !! k = Some b.
Proof.
  revert acc. induction cities as [|x l IH]; intros acc Hk; [by right|].
  cbn in Hk. fold (table_of f l (<[cid x := f x]> acc)) in Hk.
  apply IH in Hk as [(c & Hc & -> & ->)|Hk].
  - left. exists c. split_and!; [by right|done|done].
  - apply lookup_insert_Some in Hk as [[<- <-]|[_ Hk]]; [|by right].
    left. exists x. split_and!; [by left|done|done].
Qed.

Lemma convertToLocationPrices_eq (mcxData : McxData N) cities (s : Server N) :
  convertToLocationPrices mcxData cities s =
  Done (table_of (live_bundle mcxData (clock s)) cities ∅) s.
Proof. reflexivity. Qed.

Lemma wp_Math_random (s : Server N) Q E :
  Q (draws s (drawn s)) (set_drawn (S (drawn s)) s) → wp Math_random s Q E.
Proof. done. Qed.

Lemma wp_getRandomTrend (s : Server N) Q E :
  (∀ t, Q t (set_drawn (S (drawn s)) s)) → wp getRandomTrend s Q E.
Proof. intros HQ. apply HQ. Qed.
End Tables.

(** ** The invariant of the server: every stored price is positive *)

Section Invariant.
Local Open Scope Q_scope.

Lemma server_ok_frame (s s' : Server Q) :
  draws s' = draws s → BASE_PRICES s' = BASE_PRICES s →
  currentPrices s' = currentPrices s → server_ok s → server_ok s'.
Proof. unfold server_ok. by intros -> -> ->. Qed.

Lemma entries_ok_insert m k b :
  entries_ok m → bundle_ok b → entries_ok (<[k := b]> m).
Proof.
  intros Hm Hb k' b' Hk.
  apply lookup_insert_Some in Hk as [[_ <-]|[_ Hk]]; [done|by eapply Hm].
Qed.

Lemma populated_insert (m : gmap string (Bundle Q)) l c b :
  populated m l → populated (<[cid c := b]> m) (l ++ [c]).
Proof.
  intros Hm c' Hc. apply elem_of_app in Hc as [Hc|Hc].
  - apply lookup_insert_is_Some'. right. by apply Hm.
  - apply list_elem_of_singleton in Hc as ->.
    apply lookup_insert_is_Some'. by left.
Qed.

Lemma populated_insert_same (m : gmap string (Bundle Q)) l k b :
  populated m l → populated (<[k := b]> m) l.
Proof.
  intros Hm c' Hc. apply lookup_insert_is_Some'. right. by apply Hm.
Qed.

Lemma wp_generateCityPrice basePrice cityId (s : Server Q) Q E :
  draws_ok (draws s) → price_ok basePrice →
  (∀ p, price_ok p → Q p (set_drawn (S (drawn s)) s)) →
  wp (generateCityPrice basePrice cityId) s Q E.
Proof.
  intros Hd Hb HQ.
  destruct (generateCityPrice_ok basePrice cityId s Hd Hb) as (p & Hp & Hok).
  unfold wp. rewrite Hp. by apply HQ.
Qed.

Lemma wp_fluctuate currentPrice w (s : Server Q) Q E :
  draws_ok (draws s) → price_ok currentPrice → 0 <= w → w <= 1 →
  (∀ p, price_ok p → Q p (set_drawn (S (drawn s)) s)) →
  wp (fluctuate currentPrice w) s Q E.
Proof.
  intros Hd Hb Hw0 Hw1 HQ.
  destruct (fluctuate_ok currentPrice w s Hd Hb Hw0 Hw1) as (p & Hp & Hok).
  unfold wp. rewrite Hp. by apply HQ.
Qed.

(** [initializePrices] fills the table, whatever it held, with positive
    prices for every city. *)
Lemma wp_initializePrices (s : Server Q) :
  draws_ok (draws s) → base_ok (BASE_PRICES s) →
  entries_ok (currentPrices s) →
  wp initializePrices s (fun _ s' => server_ok s') (fun _ _ => False).
Proof.
  intros Hd Hb He. unfold initializePrices.
  eapply wp_mono;
    [apply (wp_forEach _
       (fun visited s' =>
          draws_ok (draws s') ∧ base_ok (BASE_PRICES s') ∧
          entries_ok (currentPrices s') ∧
          populated (currentPrices s') visited)
       (fun _ _ => False))| |done].
  - split_and!; try done. intros c Hc. by apply elem_of_nil in Hc.
  - clear s Hd Hb He. intros visited city rest s _ (Hd & Hb & He & Hp).
    destruct Hb as ((H24 & H22 & H18) & (H999 & H925)).
    apply wp_bind, wp_gets.
    apply wp_bind, wp_generateCityPrice; [done|done|]. intros g24 Hg24.
    apply wp_bind, wp_generateCityPrice; [done|done|]. intros g22 Hg22.
    apply wp_bind, wp_generateCityPrice; [done|done|]. intros g18 Hg18.
    apply wp_bind, wp_generateCityPrice; [done|done|]. intros p999 Hp999.
    apply wp_bind, wp_generateCityPrice; [done|done|]. intros p925 Hp925.
    apply wp_bind, wp_gets.
    apply wp_bind, wp_getRandomTrend. intros tg.
    apply wp_bind, wp_getRandomTrend. intros ts.
    apply wp_modify. cbn. split_and!; try done.
    + apply entries_ok_insert; [done|]. by repeat split.
    + by apply populated_insert.
  - intros u s' (Hd' & Hb' & He' & Hp'). by unfold server_ok.
Qed.

(** The random walk keeps every price positive. *)
Lemma wp_updatePricesSimulated (s : Server Q) :
  server_ok s →
  wp updatePricesSimulated s (fun _ s' => server_ok s') (fun _ _ => False).
Proof.
  intros Hs. unfold updatePricesSimulated. apply wp_bind.
  eapply wp_mono;
    [apply (wp_forEach _ (fun _ s' => server_ok s') (fun _ _ => False));
     [done|]| |done].
  - clear s Hs. intros visited city rest s Hl (Hd & Hb & He & Hp).
    assert (Hcity : city ∈ METRO_CITIES).
    { rewrite Hl. apply elem_of_app. right. by left. }
    unfold walk_city. apply wp_bind, wp_gets.
    destruct (Hp city Hcity) as [b Hlk]. rewrite Hlk.
    destruct (He _ _ Hlk) as ((H24 & H22 & H18) & (H999 & H925)).
    apply wp_bind, wp_fluctuate; [done|done|lra|lra|]. intros g24 Hg24.
    apply wp_bind, wp_fluctuate; [done|done|lra|lra|]. intros g22 Hg22.
    apply wp_bind, wp_fluctuate; [done|done|lra|lra|]. intros g18 Hg18.
    apply wp_bind, wp_fluctuate; [done|done|lra|lra|]. intros p925 Hp925.
    apply wp_bind, wp_fluctuate; [done|done|lra|lra|]. intros p999 Hp999.
    apply wp_bind, wp_getRandomTrend. intros tg.
    apply wp_bind, wp_getRandomTrend. intros ts.
    apply wp_bind, wp_gets.
    apply wp_modify. cbn. split_and!; try done.
    + apply entries_ok_insert; [done|]. by repeat split.
    + by apply populated_insert_same.
  - intros u s' Hs'. cbv beta. apply wp_modify.
    by apply (server_ok_frame s').
Qed.
Lemma wp_majorMarketUpdate (s : Server Q) :
  server_ok s →
  wp majorMarketUpdate s (fun _ s' => server_ok s') (fun _ _ => False).
Proof.
  intros (Hd & ((H24 & H22 & H18) & (H999 & H925)) & He & Hp).
  unfold majorMarketUpdate.
  apply wp_bind, wp_Math_random. apply wp_bind, wp_modify.
  apply wp_initializePrices; cbn; [done| |done].
  destruct (Hd (drawn s)) as [Hr0 Hr1].
  assert (Hshock : ∀ p, price_ok p →
            price_ok (Q_round (p * (1 + (draws s (drawn s) - 0.5) * 0.02)))).
  { intros p Hpp. apply Q_round_ge_1. unfold price_ok in Hpp.
    set (r := draws s (drawn s)) in *.
    assert (1 * (1 # 2) <= p * (1 + (r - 0.5) * 0.02))
      by (apply Qmult_lower; lra).
    lra. }
  repeat split; by apply Hshock.
Qed.

Lemma getFallbackGoldPrices_ok cityId :
  gold_ok (getFallbackGoldPrices cityId).
Proof.
  pose proof (getCityMultiplier_lower cityId) as Hm.
  unfold getFallbackGoldPrices, gold_ok, price_ok.
  cbn [k24 k22 k18 Math_round nmul lit Q_number].
  set (m := getCityMultiplier cityId) in *.
  split_and!; apply Q_round_ge_1.
  - assert (1 * (1 # 2) <= 105200 * m) by (apply Qmult_lower; lra). lra.
  - assert (1 * (1 # 2) <= 105200 * 0.917 * m) by (apply Qmult_lower; lra).
    lra.
  - assert (1 * (1 # 2) <= 105200 * 0.750 * m) by (apply Qmult_lower; lra).
    lra.
Qed.

Lemma getFallbackSilverPrices_ok cityId :
  silver_ok (getFallbackSilverPrices cityId).
Proof.
  pose proof (getCityMultiplier_lower cityId) as Hm.
  unfold getFallbackSilverPrices, silver_ok, price_ok.
  cbn [s999 s925 Math_round nmul lit Q_number].
  set (m := getCityMultiplier cityId) in *.
  split_and!; apply Q_round_ge_1.
  - assert (1 * (1 # 2) <= 123800 * m) by (apply Qmult_lower; lra). lra.
  - assert (1 * (1 # 2) <= 123800 * 0.925 * m) by (apply Qmult_lower; lra).
    lra.
Qed.

(** A truthy last traded price that is [ltp_ok] is at least 1. *)
Lemma truthy_ltp_ok (p : Q) : ltp_ok p → truthy p = true → 1 <= p.
Proof.
  intros [H0|H1] Ht; [|done].
  cbn in Ht. unfold Q_truthy in Ht.
  apply negb_true_iff, not_true_iff_false in Ht.
  exfalso. apply Ht. by apply Qeq_bool_iff.
Qed.

Lemma calculateGoldPrices_ok q cityId :
  quote_ok q → gold_ok (calculateGoldPrices q cityId).
Proof.
  intros Hq. unfold calculateGoldPrices.
  destruct q as [q|]; [|apply getFallbackGoldPrices_ok].
  destruct (truthy (ltp q)) eqn:Ht; cbn [negb];
    [|apply getFallbackGoldPrices_ok].
  pose proof (truthy_ltp_ok _ Hq Ht) as Hl.
  pose proof (getCityMultiplier_lower cityId) as Hm.
  unfold gold_ok, price_ok.
  cbn [k24 k22 k18 Math_round nmul ndiv lit Q_number].
  set (m := getCityMultiplier cityId) in *. set (p := ltp q) in *.
  assert (E24 : 24 / 23.88 == 2400 # 2388) by reflexivity.
  assert (E22 : 22 / 23.88 == 2200 # 2388) by reflexivity.
  assert (E18 : 18 / 23.88 == 1800 # 2388) by reflexivity.
  split_and!; apply Q_round_ge_1.
  - assert (1 * (2400 # 2388) <= p * (24 / 23.88))
      by (rewrite E24; apply Qmult_lower; lra).
    assert (1 * (2400 # 2388) * (1 # 2) <= p * (24 / 23.88) * m)
      by (apply Qmult_lower; lra).
    lra.
  - assert (1 * (2200 # 2388) <= p * (22 / 23.88))
      by (rewrite E22; apply Qmult_lower; lra).
    assert (1 * (2200 # 2388) * (6 # 10) <= p * (22 / 23.88) * m)
      by (apply Qmult_lower; lra).
    lra.
  - assert (1 * (1800 # 2388) <= p * (18 / 23.88))
      by (rewrite E18; apply Qmult_lower; lra).
    assert (1 * (1800 # 2388) * (9 # 10) <= p * (18 / 23.88) * m)
      by (apply Qmult_lower; lra).
    lra.
Qed.

Lemma calculateSilverPrices_ok q cityId :
  quote_ok q → silver_ok (calculateSilverPrices q cityId).
Proof.
  intros Hq. unfold calculateSilverPrices.
  destruct q as [q|]; [|apply getFallbackSilverPrices_ok].
  destruct (truthy (ltp q)) eqn:Ht; cbn [negb];
    [|apply getFallbackSilverPrices_ok].
  pose proof (truthy_ltp_ok _ Hq Ht) as Hl.
  pose proof (getCityMultiplier_lower cityId) as Hm.
  unfold silver_ok, price_ok.
  cbn [s999 s925 Math_round nmul lit Q_number].
  set (m := getCityMultiplier cityId) in *. set (p := ltp q) in *.
  split_and!; apply Q_round_ge_1.
  - assert (1 * (1 # 2) <= p * m) by (apply Qmult_lower; lra). lra.
  - assert (1 * 0.925 <= p * 0.925) by (apply Qmult_lower; lra).
    assert (1 * 0.925 * (6 # 10) <= p * 0.925 * m)
      by (apply Qmult_lower; lra).
    lra.
Qed.

Lemma live_table_ok (mcxData : McxData Q) now :
  quote_ok (mcx_gold mcxData) → quote_ok (mcx_silver mcxData) →
  entries_ok (table_of (live_bundle mcxData now) METRO_CITIES ∅) ∧
  populated (table_of (live_bundle mcxData now) METRO_CITIES ∅) METRO_CITIES.
Proof.
  intros Hg Hs. split.
  - intros k b Hk. apply table_of_inv in Hk as [(c & _ & _ & ->)|Hk];
      [|by rewrite lookup_empty in Hk].
    split; [by apply calculateGoldPrices_ok|by apply calculateSilverPrices_ok].
  - intros c Hc. rewrite table_of_lookup; [done| |done].
    apply METRO_CITIES_NoDup.
Qed.
End Invariant.

(** ** One tick of the update loop *)

Section Tick.
Context {N : Type} `{JsNumber N}.

Lemma getFallbackData_eq (s : Server N) :
  getFallbackData s =
  Done (fallback_quotes (draws s) (drawn s) (clock s))
       (set_drawn (6 + drawn s) s).
Proof. reflexivity. Qed.

(** A failed request is answered with the fallback quotes, not with an
    exception. *)
Lemma fetchLiveData_failed axios (s : Server N) :
  fetch_failed axios →
  fetchLiveData axios s =
  Done (fallback_quotes (draws s) (drawn s) (clock s))
       (set_drawn (6 + drawn s) s).
Proof. by destruct axios as [e|[[d|]|]]. Qed.

Lemma fetchLiveData_parsed data (s : Server N) :
  fetchLiveData (Resolved (Some (Some data))) s =
  Done (match data with
        | NotArray => {| mcx_gold := None; mcx_silver := None |}
        | Items l => parse_items l (clock s)
        end) s.
Proof. reflexivity. Qed.

Lemma fallback_quotes_has_quote (rnd : nat → N) i now :
  has_quote (fallback_quotes rnd i now) = true.
Proof. reflexivity. Qed.

Lemma updatePricesFromMCX_live axios (s s1 : Server N) d :
  fetchLiveData axios s = Done d s1 → has_quote d = true →
  updatePricesFromMCX axios s =
  Done tt (set_emitted (emitted s1 ++ [live_table d (clock s1)])
             (set_currentPrices (live_table d (clock s1)) s1)).
Proof.
  intros Hf Hq. unfold updatePricesFromMCX, try_catch, bind.
  by rewrite Hf, Hq.
Qed.

Lemma updatePricesFromMCX_no_quote axios (s s1 : Server N) d :
  fetchLiveData axios s = Done d s1 → has_quote d = false →
  updatePricesFromMCX axios s =
  (modify (set_useMCXData false) ;;
   updatePricesSimulated ;;
   setTimeout (5 * 60 * 1000))%eff s1.
Proof.
  intros Hf Hq. unfold updatePricesFromMCX, try_catch at 1, bind at 1.
  by rewrite Hf, Hq.
Qed.

Lemma updatePrices_eq axios (s : Server N) :
  updatePrices axios s =
  try_catch
    (if useMCXData s then updatePricesFromMCX axios else updatePricesSimulated)
    (fun _ => updatePricesSimulated) s.
Proof. unfold updatePrices, try_catch, bind, gets. by destruct (useMCXData s). Qed.

Lemma initializeApp_live axios (s s1 : Server N) d :
  fetchLiveData axios s = Done d s1 → has_quote d = true →
  initializeApp axios s =
  Done tt (set_currentPrices (live_table d (clock s1)) s1).
Proof.
  intros Hf Hq. unfold initializeApp, try_catch, bind. by rewrite Hf, Hq.
Qed.

Lemma initializeApp_no_quote axios (s s1 : Server N) d :
  fetchLiveData axios s = Done d s1 → has_quote d = false →
  initializeApp axios s =
  (modify (set_useMCXData false) ;; initializePrices)%eff s1.
Proof.
  intros Hf Hq. unfold initializeApp, try_catch at 1, bind at 1.
  by rewrite Hf, Hq.
Qed.

(** [fetchLiveData] never throws, and changes the state by the draws it
    takes only. *)
Lemma fetchLiveData_returns axios (s : Server N) :
  ∃ d n, fetchLiveData axios s = Done d (set_drawn n s) ∧
         (fetch_failed axios →
          d = fallback_quotes (draws s) (drawn s) (clock s)).
Proof.
  destruct axios as [e|[[data|]|]].
  - eexists _, _. split; [apply fetchLiveData_failed|]; done.
  - exists (match data with
            | NotArray => {| mcx_gold := None; mcx_silver := None |}
            | Items l => parse_items l (clock s)
            end), (drawn s).
    split; [|done]. rewrite fetchLiveData_parsed. by destruct s.
  - eexists _, _. split; [apply fetchLiveData_failed|]; done.
  - eexists _, _. split; [apply fetchLiveData_failed|]; done.
Qed.
End Tick.

Section InvariantTick.
Local Open Scope Q_scope.

Lemma fallback_quotes_ok rnd i now :
  draws_ok rnd →
  quote_ok (mcx_gold (fallback_quotes rnd i now)) ∧
  quote_ok (mcx_silver (fallback_quotes rnd i now)).
Proof.
  intros Hd. destruct (Hd i) as [Hi0 Hi1].
  destruct (Hd (3 + i)%nat) as [Hj0 Hj1].
  split; right; cbn [ltp nadd nsub nmul lit Q_number]; lra.
Qed.

Lemma or_0_ok (x : option Q) :
  match x with Some p => ltp_ok p | None => True end → ltp_ok (or_0 x).
Proof.
  destruct x as [p|]; cbn; [|by left]. intros Hp.
  destruct (Q_truthy p); [done|by left].
Qed.

Lemma parse_items_ok l now :
  Forall item_ok l →
  quote_ok (mcx_gold (parse_items l now)) ∧
  quote_ok (mcx_silver (parse_items l now)).
Proof.
  unfold parse_items. intros Hl.
  assert (Hd : quote_ok (mcx_gold (Build_McxData (N := Q) None None)) ∧
               quote_ok (mcx_silver (Build_McxData (N := Q) None None)))
    by done.
  revert Hd. generalize (Build_McxData (N := Q) None None).
  induction Hl as [|item l Hitem Hl IH]; intros d Hd; [done|].
  cbn [fold_left]. apply IH. destruct Hd as [Hg Hs].
  assert (Hq : ltp_ok (ltp (quote_of_item item now))) by by apply or_0_ok.
  by repeat case_match.
Qed.

Lemma fetchLiveData_ok axios (s : Server Q) :
  draws_ok (draws s) → axios_ok axios →
  ∃ d n, fetchLiveData axios s = Done d (set_drawn n s) ∧
         quote_ok (mcx_gold d) ∧ quote_ok (mcx_silver d).
Proof.
  intros Hd Ha.
  destruct (fetchLiveData_returns axios s) as (d & n & Hf & Hfb).
  exists d, n. split; [done|].
  destruct axios as [e|[[[|l]|]|]];
    try (rewrite Hfb by done; by apply fallback_quotes_ok).
  - rewrite fetchLiveData_parsed in Hf. by injection Hf as <- _.
  - rewrite fetchLiveData_parsed in Hf. injection Hf as <- _.
    by apply parse_items_ok.
Qed.

Lemma wp_updatePricesFromMCX axios (s : Server Q) :
  server_ok s → axios_ok axios →
  wp (updatePricesFromMCX axios) s
     (fun _ s' => server_ok s') (fun _ _ => False).
Proof.
  intros Hs Ha. pose proof Hs as (Hd & Hb & He & Hp).
  destruct (fetchLiveData_ok axios s Hd Ha) as (d & n & Hf & Hg & Hsv).
  destruct (has_quote d) eqn:Hq.
  - eapply wp_Done; [exact (updatePricesFromMCX_live _ _ _ _ Hf Hq)|].
    destruct (live_table_ok d (clock (set_drawn n s)) Hg Hsv) as [He' Hp'].
    by unfold server_ok.
  - eapply wp_rewrite; [exact (updatePricesFromMCX_no_quote _ _ _ _ Hf Hq)|].
    apply wp_bind, wp_modify. apply wp_bind.
    eapply wp_mono; [apply wp_updatePricesSimulated| |done].
    + by apply (server_ok_frame s).
    + intros u s' Hs'. apply wp_modify. by apply (server_ok_frame s').
Qed.

Lemma wp_updatePrices axios (s : Server Q) :
  server_ok s → axios_ok axios →
  wp (updatePrices axios) s (fun _ s' => server_ok s') (fun _ _ => False).
Proof.
  intros Hs Ha. eapply wp_rewrite; [apply updatePrices_eq|].
  apply wp_try_catch.
  destruct (useMCXData s).
  - eapply wp_mono; [by apply wp_updatePricesFromMCX|done|done].
  - eapply wp_mono; [by apply wp_updatePricesSimulated|done|done].
Qed.

Lemma boot_ok rnd t0 :
  draws_ok rnd →
  draws_ok (draws (boot rnd t0)) ∧ base_ok (BASE_PRICES (boot rnd t0)) ∧
  entries_ok (currentPrices (boot rnd t0)).
Proof.
  intros Hd. split_and!; [done| |].
  - repeat split; cbn; unfold price_ok, Qle; cbn; lia.
  - intros k b Hk. unfold boot in Hk. cbn [currentPrices] in Hk.
    by rewrite lookup_empty in Hk.
Qed.

(** Start-up leaves a table with positive prices for every city. *)
Lemma wp_initializeApp axios (s : Server Q) :
  draws_ok (draws s) → base_ok (BASE_PRICES s) →
  entries_ok (currentPrices s) → axios_ok axios →
  wp (initializeApp axios) s (fun _ s' => server_ok s') (fun _ _ => False).
Proof.
  intros Hd0 Hb0 He0 Ha.
  destruct (fetchLiveData_ok axios s Hd0 Ha) as (d & n & Hf & Hg & Hsv).
  destruct (has_quote d) eqn:Hq.
  - eapply wp_Done; [exact (initializeApp_live _ _ _ _ Hf Hq)|].
    destruct (live_table_ok d (clock (set_drawn n s)) Hg Hsv) as [He' Hp'].
    by unfold server_ok.
  - eapply wp_rewrite; [exact (initializeApp_no_quote _ _ _ _ Hf Hq)|].
    apply wp_bind, wp_modify. by apply wp_initializePrices.
Qed.

Lemma deliver_ok t ev (s : Server Q) :
  server_ok s → event_ok ev → server_ok (deliver t ev s).
Proof.
  intros Hs Hev. unfold deliver.
  set (s1 := run_timeouts _).
  assert (Hs1 : server_ok s1).
  { subst s1. unfold run_timeouts. case_match; by apply (server_ok_frame s). }
  clearbody s1. apply (wp_final _ _ server_ok).
  destruct ev as [axios| |cityId]; cbn [handle].
  - eapply wp_mono; [by apply wp_updatePrices|done|done].
  - eapply wp_mono; [by apply wp_majorMarketUpdate|done|done].
  - apply wp_bind. unfold get_api_prices_cityId.
    apply wp_bind, wp_gets. by case_match.
Qed.

Lemma run_ok tr (s : Server Q) :
  server_ok s → Forall (fun tev => event_ok tev.2) tr → server_ok (run tr s).
Proof.
  revert s. induction tr as [|[t ev] tr IH]; intros s Hs Htr; [done|].
  apply Forall_cons in Htr as [Hev Htr]. cbn [run].
  apply IH; [|done]. by apply deliver_ok.
Qed.
End InvariantTick.

(** A reply that quotes silver at 0.5, a positive price, stores the price 0
    for silver 925 in Kanpur (multiplier 1.000): [Math.round(0.5 * 0.925)]. *)
Lemma C1_live_quote_below_one_unit_stores_zero :
  (0 < 0.5)%Q ∧
  (s925 ∘ silver) <$> currentPrices (after_cheap_silver (N := Q)) !! "kanpur"
  = Some 0%Q ∧
  (s925 ∘ silver) <$>
    currentPrices (after_cheap_silver (N := float)) !! "kanpur"
  = Some 0%float.
Proof. split_and!; [reflexivity|vm_compute; reflexivity..]. Qed.

(** C1 (amended). Let every draw of [Math.random()] lie in [0, 1) and let
    every last traded price a reply of the exchange carries be zero or
    missing (the fallback constants are used) or at least one currency unit.
    Then after start-up and any sequence of fast ticks, major ticks and
    requests, the table has a bundle for each of the twenty cities and every
    price in it is strictly positive.  Path by path: [generateCityPrice],
    the random-walk step and the two conversions of a quote return a price
    of at least 1 from a base, previous or quoted price of at least 1. *)
Theorem C1_stored_prices_positive :
  (∀ (rnd : nat → Q) (t0 : Z) (axios : AxiosResult Q)
     (tr : list (Z * @Event Q)),
     draws_ok rnd → axios_ok axios → Forall (fun tev => event_ok tev.2) tr →
     let s := run tr (final (initializeApp axios (boot rnd t0))) in
     populated (currentPrices s) METRO_CITIES ∧
     ∀ cityId b,
       currentPrices s !! cityId = Some b →
       (0 < k24 (gold b))%Q ∧ (0 < k22 (gold b))%Q ∧ (0 < k18 (gold b))%Q ∧
       (0 < s999 (silver b))%Q ∧ (0 < s925 (silver b))%Q) ∧
  (∀ (s : Server Q) basePrice cityId,
     draws_ok (draws s) → (1 <= basePrice)%Q →
     ∃ p s', generateCityPrice basePrice cityId s = Done p s' ∧ (1 <= p)%Q) ∧
  (∀ (s : Server Q) previous w,
     draws_ok (draws s) → (1 <= previous)%Q → w = 0.004%Q ∨ w = 0.006%Q →
     ∃ p s', fluctuate previous w s = Done p s' ∧ (1 <= p)%Q) ∧
  (∀ (q : Quote Q) cityId,
     (ltp q == 0)%Q ∨ (1 <= ltp q)%Q →
     gold_ok (calculateGoldPrices (Some q) cityId) ∧
     silver_ok (calculateSilverPrices (Some q) cityId)).
Proof.
  split_and!.
  - intros rnd t0 axios tr Hd Ha Htr s.
    assert (Hs : server_ok s).
    { subst s. apply run_ok; [|done].
      destruct (boot_ok rnd t0 Hd) as (Hd0 & Hb0 & He0).
      apply (wp_final _ _ server_ok).
      eapply wp_mono; [by apply wp_initializeApp|done|done]. }
    destruct Hs as (_ & _ & He & Hp). split; [done|].
    intros cityId b Hb.
    destruct (He _ _ Hb) as ((H24 & H22 & H18) & (H999 & H925)).
    unfold price_ok in *. split_and!; lra.
  - intros s basePrice cityId Hd Hb.
    destruct (generateCityPrice_ok basePrice cityId s Hd Hb) as (p & Hp & Hok).
    by exists p, (set_drawn (S (drawn s)) s).
  - intros s previous w Hd Hb Hw.
    destruct (fluctuate_ok previous w s Hd Hb) as (p & Hp & Hok).
    + destruct Hw as [-> | ->]; lra.
    + destruct Hw as [-> | ->]; lra.
    + by exists p, (set_drawn (S (drawn s)) s).
  - intros q cityId Hq. split.
    + by apply calculateGoldPrices_ok.
    + by apply calculateSilverPrices_ok.
Qed.

(** Start-up with the exchange unreachable, a tick that times out, a major
    tick, and a tick whose reply carries no quote. *)
Lemma C1_stored_prices_positive_witness :
  let rnd : nat → Q := fun _ => 0.5%Q in
  let tr : list (Z * @Event Q) :=
    [(10000%Z, FastTick (Rejected "timeout of 10000ms exceeded"));
     (300000%Z, MajorTick);
     (310000%Z, FastTick (Resolved (Some (Some NotArray))))] in
  let s := run tr (final (initializeApp (Rejected "timeout") (boot rnd 0))) in
  (draws_ok rnd ∧ Forall (fun tev => event_ok tev.2) tr) ∧
  populated (currentPrices s) METRO_CITIES ∧
  ∀ cityId b,
    currentPrices s !! cityId = Some b →
    (0 < k24 (gold b))%Q ∧ (0 < k22 (gold b))%Q ∧ (0 < k18 (gold b))%Q ∧
    (0 < s999 (silver b))%Q ∧ (0 < s925 (silver b))%Q.
Proof.
  intros rnd tr s.
  assert (Hd : draws_ok rnd)
    by (intros i; split; [unfold Qle; simpl; lia|reflexivity]).
  assert (Htr : Forall (fun tev => event_ok tev.2) tr)
    by (repeat constructor).
  split; [done|].
  exact (proj1 C1_stored_prices_positive rnd 0%Z (Rejected "timeout") tr
           Hd I Htr).
Defined.

(** ** The random walk, step by step *)

Section Walk.
Context {N : Type} `{JsNumber N}.

Lemma walk_city_eq city (s : Server N) b :
  currentPrices s !! cid city = Some b →
  walk_city city s =
  Done tt
    (set_currentPrices
       (<[cid city := walk_bundle (draws s) (drawn s) (clock s) b]>
          (currentPrices s))
       (set_drawn (7 + drawn s) s)).
Proof.
  intros Hb. unfold walk_city, bind at 1, gets at 1. rewrite Hb. reflexivity.
Qed.

Lemma walk_city_throws city (s : Server N) :
  currentPrices s !! cid city = None →
  ∃ e, walk_city city s = Thrown e s.
Proof.
  intros Hb. unfold walk_city, bind at 1, gets at 1. rewrite Hb.
  by eexists.
Qed.

(** The loop of [updatePricesSimulated] on a table that has every city. *)
Lemma forEach_walk_city cities (s0 : Server N) :
  NoDup (cid <$> cities) → populated (currentPrices s0) cities →
  wp (forEach cities walk_city) s0
     (fun _ s' =>
        walked cities s0 s' ∧
        draws s' = draws s0 ∧ clock s' = clock s0 ∧
        emitted s' = emitted s0 ∧ live_switch s' = live_switch s0 ∧
        BASE_PRICES s' = BASE_PRICES s0)
     (fun _ _ => False).
Proof.
  intros Hnd Hpop.
  eapply wp_mono;
    [apply (wp_forEach _
       (fun visited s' =>
          walked visited s0 s' ∧
          (∀ k, k ∉ cid <$> visited →
                currentPrices s' !! k = currentPrices s0 !! k) ∧
          drawn s' = (7 * length visited + drawn s0)%nat ∧
          draws s' = draws s0 ∧ clock s' = clock s0 ∧
          emitted s' = emitted s0 ∧ live_switch s' = live_switch s0 ∧
          BASE_PRICES s' = BASE_PRICES s0)
       (fun _ _ => False))| |done].
  - split_and!; try done; intros j c Hj; by rewrite lookup_nil in Hj.
  - intros visited x rest s Hl (Hw & Hun & Hn & Hd & Hc & He & Hsw & Hb).
    subst cities. rewrite fmap_app, fmap_cons in Hnd.
    apply NoDup_app in Hnd as (Hnd1 & Hdisj & Hnd2).
    apply NoDup_cons in Hnd2 as [Hx _].
    assert (Hxv : cid x ∉ cid <$> visited).
    { intros Hin. apply (Hdisj _ Hin). by left. }
    destruct (Hpop x) as [b Hb0]; [apply elem_of_app; right; by left|].
    eapply wp_Done.
    { apply walk_city_eq. by rewrite Hun. }
    unfold live_switch in *.
    cbn [currentPrices set_currentPrices set_drawn drawn draws clock emitted
         BASE_PRICES useMCXData timeouts].
    rewrite Hd, Hc, Hn. split_and!; try done.
    + unfold walked. cbn [currentPrices set_currentPrices set_drawn].
      intros j c Hj. apply lookup_app_Some in Hj as [Hj|[Hlen Hj]].
      * destruct (Hw j c Hj) as (b' & Hb' & Hs').
        exists b'. split; [done|]. rewrite lookup_insert_ne; [done|].
        intros Heq. apply Hxv. rewrite Heq.
        apply list_elem_of_fmap. exists c. split; [done|].
        by eapply list_elem_of_lookup_2.
      * apply list_lookup_singleton_Some in Hj as [Hj ->].
        exists b. split; [done|]. rewrite lookup_insert_eq.
        do 2 f_equal. lia.
    + intros k Hk. rewrite fmap_app in Hk.
      apply not_elem_of_app in Hk as [Hk1 Hk2].
      rewrite lookup_insert_ne; [by apply Hun|].
      intros <-. apply Hk2. by left.
    + rewrite length_app. cbn. lia.
    + injection Hsw as -> -> _. done.
  - intros u s' (Hw & _ & _ & Hd & Hc & He & Hsw & Hb). done.
Qed.

(** [updatePricesSimulated] on a table that has every city: one step of the
    walk for each, then the new table is published. *)
Lemma updatePricesSimulated_walks (s0 : Server N) :
  populated (currentPrices s0) METRO_CITIES →
  ∃ s', updatePricesSimulated s0 = Done tt s' ∧
        walked METRO_CITIES s0 s' ∧
        emitted s' = emitted s0 ++ [currentPrices s'] ∧
        live_switch s' = live_switch s0 ∧ clock s' = clock s0 ∧
        draws s' = draws s0 ∧ BASE_PRICES s' = BASE_PRICES s0.
Proof.
  intros Hpop.
  pose proof (forEach_walk_city METRO_CITIES s0 METRO_CITIES_NoDup Hpop)
    as Hloop.
  apply wp_done in Hloop as ([] & s1 & Hrun & Hw & Hd & Hc & He & Hsw & Hb).
  exists (set_emitted (emitted s1 ++ [currentPrices s1]) s1). split_and!.
  - unfold updatePricesSimulated, bind. by rewrite Hrun.
  - done.
  - cbn. by rewrite He.
  - done.
  - done.
  - done.
  - done.
Qed.

(** Whatever the table holds, and whether they return or throw, the
    simulated update, the major update and a request leave the switch of the
    live source alone. *)
Lemma walk_city_switch city (s : Server N) :
  wp (walk_city city) s
     (fun _ s' => live_switch s' = live_switch s)
     (fun _ s' => live_switch s' = live_switch s).
Proof.
  destruct (currentPrices s !! cid city) as [b|] eqn:Hb.
  - eapply wp_Done; [by apply walk_city_eq|done].
  - destruct (walk_city_throws city s Hb) as [e He].
    unfold wp. by rewrite He.
Qed.

Lemma updatePricesSimulated_switch (s : Server N) :
  wp updatePricesSimulated s
     (fun _ s' => live_switch s' = live_switch s)
     (fun _ s' => live_switch s' = live_switch s).
Proof.
  unfold updatePricesSimulated. apply wp_bind.
  eapply wp_mono;
    [apply (wp_forEach _ (fun _ s' => live_switch s' = live_switch s)
              (fun _ s' => live_switch s' = live_switch s)); [done|]| |done].
  - intros visited x rest s' _ Hs'.
    eapply wp_mono; [apply walk_city_switch| |]; cbv beta; congruence.
  - intros u s' Hs'. cbv beta. by apply wp_modify.
Qed.

Lemma initializePrices_switch (s : Server N) :
  wp initializePrices s
     (fun _ s' => live_switch s' = live_switch s)
     (fun _ s' => live_switch s' = live_switch s).
Proof.
  unfold initializePrices.
  eapply wp_mono;
    [apply (wp_forEach _ (fun _ s' => live_switch s' = live_switch s)
              (fun _ s' => live_switch s' = live_switch s)); [done|]| |done].
  - intros visited x rest s' _ Hs'. by eapply wp_Done.
  - done.
Qed.

Lemma majorMarketUpdate_switch (s : Server N) :
  wp majorMarketUpdate s
     (fun _ s' => live_switch s' = live_switch s)
     (fun _ s' => live_switch s' = live_switch s).
Proof.
  unfold majorMarketUpdate.
  apply wp_bind, wp_Math_random. apply wp_bind, wp_modify.
  eapply wp_mono; [apply initializePrices_switch|done|done].
Qed.
End Walk.

(** ** Ticks: what a failed request does, and the cool-down *)

Section Cooldown.
Context {N : Type} `{JsNumber N}.

(** A failed request: the fallback quotes are converted for every city and
    the table is published; the live source stays enabled. *)
Lemma updatePrices_failed axios (s : Server N) :
  useMCXData s = true → fetch_failed axios →
  let table :=
    live_table (fallback_quotes (draws s) (drawn s) (clock s)) (clock s) in
  updatePrices axios s =
  Done tt (set_emitted (emitted s ++ [table])
             (set_currentPrices table (set_drawn (6 + drawn s) s))).
Proof.
  intros Huse Hfail table. rewrite updatePrices_eq, Huse.
  unfold try_catch.
  by rewrite (updatePricesFromMCX_live axios s _ _
                (fetchLiveData_failed axios s Hfail)
                (fallback_quotes_has_quote _ _ _)).
Qed.

(** A reply that carries no quote: the live source is disabled, every city
    takes one step of the random walk, the table is published and the timer
    that re-enables the live source is set to five minutes. *)
Lemma updatePrices_no_quote data (s : Server N) :
  useMCXData s = true → populated (currentPrices s) METRO_CITIES →
  has_quote (payload_quotes data (clock s)) = false →
  ∃ s', updatePrices (Resolved (Some (Some data))) s = Done tt s' ∧
        walked METRO_CITIES s s' ∧
        emitted s' = emitted s ++ [currentPrices s'] ∧
        useMCXData s' = false ∧
        timeouts s' = timeouts s ++ [(clock s + 5 * 60 * 1000)%Z] ∧
        clock s' = clock s.
Proof.
  intros Huse Hpop Hq.
  destruct (updatePricesSimulated_walks (set_useMCXData false s) Hpop)
    as (s3 & Hrun & Hw & He & Hsw & Hc & Hd & Hb).
  unfold live_switch in Hsw. cbn in Hsw, Hc. injection Hsw as Hu Ht _.
  exists (set_timeouts (timeouts s3 ++ [(clock s3 + 5 * 60 * 1000)%Z]) s3).
  split_and!.
  - rewrite updatePrices_eq, Huse. unfold try_catch.
    rewrite (updatePricesFromMCX_no_quote _ s s _
               (fetchLiveData_parsed data s) Hq).
    unfold bind at 1, modify at 1. unfold bind at 1. rewrite Hrun.
    reflexivity.
  - exact Hw.
  - exact He.
  - exact Hu.
  - cbn. by rewrite Ht, Hc.
  - exact Hc.
Qed.

(** The [catch] of [updatePricesFromMCX], which a reply without quotes
    reaches: whatever the switch was when the tick began. *)
Lemma updatePricesFromMCX_cooldown data (s : Server N) :
  populated (currentPrices s) METRO_CITIES →
  has_quote (payload_quotes data (clock s)) = false →
  ∃ s', updatePricesFromMCX (Resolved (Some (Some data))) s = Done tt s' ∧
        walked METRO_CITIES s s' ∧
        emitted s' = emitted s ++ [currentPrices s'] ∧
        useMCXData s' = false ∧
        timeouts s' = timeouts s ++ [(clock s + 5 * 60 * 1000)%Z].
Proof.
  intros Hpop Hq.
  destruct (updatePricesSimulated_walks (set_useMCXData false s) Hpop)
    as (s3 & Hrun & Hw & He & Hsw & Hc & Hd & Hb).
  unfold live_switch in Hsw. cbn in Hsw, Hc. injection Hsw as Hu Ht _.
  exists (set_timeouts (timeouts s3 ++ [(clock s3 + 5 * 60 * 1000)%Z]) s3).
  split_and!.
  - rewrite (updatePricesFromMCX_no_quote _ s s _
               (fetchLiveData_parsed data s) Hq).
    unfold bind at 1, modify at 1. unfold bind at 1. rewrite Hrun.
    reflexivity.
  - exact Hw.
  - exact He.
  - exact Hu.
  - cbn. by rewrite Ht, Hc.
Qed.

Lemma updatePricesFromMCX_failed axios (s : Server N) :
  fetch_failed axios →
  let table :=
    live_table (fallback_quotes (draws s) (drawn s) (clock s)) (clock s) in
  updatePricesFromMCX axios s =
  Done tt (set_emitted (emitted s ++ [table])
             (set_currentPrices table (set_drawn (6 + drawn s) s))).
Proof.
  intros Hfail table.
  by rewrite (updatePricesFromMCX_live axios s _ _
                (fetchLiveData_failed axios s Hfail)
                (fallback_quotes_has_quote _ _ _)).
Qed.

Lemma live_table_converted (d : McxData N) now :
  converted_from d (live_table d now).
Proof.
  intros c Hc. exists (live_bundle d now c). unfold live_table.
  rewrite table_of_lookup; [|apply METRO_CITIES_NoDup|done].
  by split_and!.
Qed.

Lemma walked_walked_prices cities (s0 s' : Server N) :
  walked cities s0 s' → walked_prices cities s0 s'.
Proof.
  intros Hw j c Hj. destruct (Hw j c Hj) as (b & Hb & Hb').
  by eexists _, _.
Qed.

Lemma updatePrices_disabled axios (s : Server N) :
  useMCXData s = false →
  updatePrices axios s =
  try_catch updatePricesSimulated (fun _ => updatePricesSimulated) s.
Proof. intros Huse. by rewrite updatePrices_eq, Huse. Qed.

Lemma handle_switch ev (s : Server N) :
  useMCXData s = false →
  live_switch (final (handle ev s)) = live_switch s.
Proof.
  intros Huse. apply (wp_final _ _ (fun s' => live_switch s' = live_switch s)).
  destruct ev as [axios| |cityId]; cbn [handle].
  - eapply wp_rewrite; [by apply updatePrices_disabled|].
    apply wp_try_catch.
    eapply wp_mono; [apply updatePricesSimulated_switch|done|].
    intros e s' Hs'. cbv beta.
    eapply wp_mono; [apply updatePricesSimulated_switch| |];
      cbv beta; congruence.
  - apply majorMarketUpdate_switch.
  - apply wp_bind. unfold get_api_prices_cityId.
    apply wp_bind, wp_gets. by case_match.
Qed.

Lemma run_timeouts_due (s : Server N) T :
  timeouts s = [T] → (T <= clock s)%Z →
  run_timeouts s = set_useMCXData true (set_timeouts [] s).
Proof.
  intros Ht Hc. unfold run_timeouts. rewrite Ht. cbn.
  by destruct (Z.leb_spec T (clock s)); [|lia].
Qed.
End Cooldown.

Lemma Q_round_le (x : Q) : (Q_round x <= x + (1 # 2))%Q.
Proof. unfold Q_round. apply Qfloor_le. Qed.

(** C3. On a fast tick taken with the live source enabled, a request that
    fails (rejection, missing body, undecodable body) does not reach the
    random walk: [fetchLiveData] answers the failure with the fallback
    quotes, so the tick takes the [try] branch of [updatePricesFromMCX]: it
    converts those quotes for every city, whatever the table held, with the
    six draws of [getFallbackData], and publishes the new table.  The
    random walk that the [catch] of [updatePricesFromMCX] falls back to is
    reached by a reply that decodes to no quote: then, on a table that has
    every city, the prices of every city take one step of the walk and the
    new table is published. *)
Theorem C3_failed_fetch_bypasses_the_random_walk :
  ∀ (N : Type) (JN : JsNumber N) (s : Server N),
    useMCXData s = true →
    (∀ axios,
       fetch_failed axios →
       ∃ s', updatePrices axios s = Done tt s' ∧
             converted_from (fallback_quotes (draws s) (drawn s) (clock s))
               (currentPrices s') ∧
             drawn s' = (6 + drawn s)%nat ∧
             emitted s' = emitted s ++ [currentPrices s']) ∧
    (∀ data,
       has_quote (payload_quotes data (clock s)) = false →
       populated (currentPrices s) METRO_CITIES →
       ∃ s', updatePrices (Resolved (Some (Some data))) s = Done tt s' ∧
             walked_prices METRO_CITIES s s' ∧
             emitted s' = emitted s ++ [currentPrices s']).
Proof.
  intros N JN s Huse. split.
  - intros axios Hfail. eexists. split; [by apply updatePrices_failed|].
    cbn [currentPrices emitted drawn set_emitted set_currentPrices set_drawn].
    split_and!; [apply live_table_converted|done|done].
  - intros data Hq Hpop.
    destruct (updatePrices_no_quote data s Huse Hpop Hq)
      as (s' & Hrun & Hw & He & _).
    exists s'. split_and!; [done|by apply walked_walked_prices|done].
Qed.

(** The request of a tick times out, on the server started with the exchange
    unreachable: every city is converted from the fallback quotes.  Mumbai's
    24k price goes from 108372 to 108784, which no step of the random walk
    (at most 0.2% either way) can do, in exact arithmetic and in binary64
    alike; the tick took the six draws of [getFallbackData], not the seven
    per city of the walk. *)
Lemma C3_failed_fetch_bypasses_the_random_walk_witness :
  let s : Server Q := started_uneven in
  useMCXData s = true ∧
  (∃ s', updatePrices (Rejected "timeout of 10000ms exceeded") s = Done tt s' ∧
         converted_from (fallback_quotes (draws s) (drawn s) (clock s))
           (currentPrices s') ∧
         drawn s' = (6 + drawn s)%nat ∧
         emitted s' = emitted s ++ [currentPrices s']) ∧
  (k24 ∘ gold) <$> currentPrices s !! "mumbai" = Some 108372%Q ∧
  (k24 ∘ gold) <$> currentPrices (after_timeout (N := Q)) !! "mumbai"
  = Some 108784%Q ∧
  (∀ r : Q, (0 <= r)%Q → (r < 1)%Q →
            walk_price 0.004 108372%Q r ≠ 108784%Q) ∧
  drawn (after_timeout (N := Q)) = (6 + drawn s)%nat ∧
  (k24 ∘ gold) <$> currentPrices (started_uneven (N := float)) !! "mumbai"
  = Some 108372%float ∧
  (k24 ∘ gold) <$> currentPrices (after_timeout (N := float)) !! "mumbai"
  = Some 108784%float.
Proof.
  intros s.
  assert (Huse : useMCXData s = true) by (vm_compute; reflexivity).
  split; [exact Huse|].
  split;
    [exact (proj1 (C3_failed_fetch_bypasses_the_random_walk Q _ s Huse)
              (Rejected "timeout of 10000ms exceeded") I)|].
  split_and!; try (vm_compute; reflexivity).
  intros r Hr0 Hr1 Heq.
  pose proof (Q_round_le (108372 * (1 + (r - 0.5) * 0.004))%Q) as Hle.
  unfold walk_price in Heq. cbn [Math_round nmul nadd nsub lit Q_number] in Heq.
  rewrite Heq in Hle. lra.
Defined.

(** C4. A request that fails (rejection, missing or undecodable body) starts
    no cool-down: [fetchLiveData] answers it with the fallback quotes, so
    [updatePricesFromMCX] returns through its [try] branch and leaves the
    switch of the live source and the timers as they were, and the next tick
    queries the exchange again.  The cool-down that its [catch] implements
    (disable the live source, walk, set a timer five minutes ahead, whose
    expiry enables the live source again) is reached by a reply that decodes
    to no quote only.  While the live source is disabled, a tick does not
    depend on what the exchange would answer. *)
Theorem C4_failed_fetch_starts_no_cooldown :
  ∀ (N : Type) (JN : JsNumber N) (s : Server N),
    (∀ axios,
       fetch_failed axios →
       ∃ s', updatePricesFromMCX axios s = Done tt s' ∧
             useMCXData s' = useMCXData s ∧ timeouts s' = timeouts s) ∧
    (∀ axios,
       useMCXData s = true → fetch_failed axios →
       let s' := final (updatePrices axios s) in
       useMCXData s' = true ∧ timeouts s' = timeouts s) ∧
    (∀ data,
       populated (currentPrices s) METRO_CITIES →
       has_quote (payload_quotes data (clock s)) = false →
       ∃ s', updatePricesFromMCX (Resolved (Some (Some data))) s = Done tt s' ∧
             useMCXData s' = false ∧
             timeouts s' = timeouts s ++ [(clock s + 5 * 60 * 1000)%Z]) ∧
    (∀ T t ev,
       useMCXData s = false → timeouts s = [T] → (T <= t)%Z →
       let s1 := run_timeouts (set_clock (Z.max (clock s) t) s) in
       useMCXData s1 = true ∧ timeouts s1 = [] ∧
       deliver t ev s = final (handle ev s1)) ∧
    (∀ axios axios',
       useMCXData s = false → updatePrices axios s = updatePrices axios' s).
Proof.
  intros N JN s. split_and!.
  - intros axios Hfail. eexists.
    split; [by apply updatePricesFromMCX_failed|done].
  - intros axios Huse Hfail s'. subst s'.
    by rewrite updatePrices_failed.
  - intros data Hpop Hq.
    destruct (updatePricesFromMCX_cooldown data s Hpop Hq)
      as (s' & Hrun & _ & _ & Hu & Ht).
    by exists s'.
  - intros T t ev Huse Ht Hle s1. subst s1. unfold deliver.
    rewrite (run_timeouts_due _ T); [done|done|cbn; lia].
  - intros axios axios' Huse. by rewrite !updatePrices_disabled.
Qed.

(** The request of a tick times out, on the server started with the exchange
    unreachable: the live source is still enabled and no timer is set; the
    tick ten seconds later queries the exchange again and uses its reply
    (gold at 100000 prices Mumbai's 24k at 103015). *)
Lemma C4_failed_fetch_starts_no_cooldown_witness :
  let s : Server Q := started_uneven in
  (∃ s', updatePricesFromMCX (Rejected "timeout of 10000ms exceeded") s
         = Done tt s' ∧
         useMCXData s' = useMCXData s ∧ timeouts s' = timeouts s) ∧
  useMCXData s = true ∧
  useMCXData (after_timeout (N := Q)) = true ∧
  timeouts (after_timeout (N := Q)) = [] ∧
  (clock (after_retry (N := Q)) - clock (after_timeout (N := Q)) = 10000)%Z ∧
  (k24 ∘ gold) <$> currentPrices (after_retry (N := Q)) !! "mumbai"
  = Some 103015%Q ∧
  Math_round (100000 * (24 / 23.88) * getCityMultiplier "mumbai")%Q
  = 103015%Q.
Proof.
  intros s.
  split;
    [exact (proj1 (C4_failed_fetch_starts_no_cooldown Q _ s)
              (Rejected "timeout of 10000ms exceeded") I)|].
  split_and!; vm_compute; reflexivity.
Defined.

(** * Further properties of the code *)

(** ** The shape of the table: one entry per city, keyed by its identifier *)

Lemma wp_Done_inv {S A} (m : Eff S A) s a s' (Q : A → S → Prop) E :
  wp m s Q E → m s = Done a s' → Q a s'.
Proof. unfold wp. intros Hwp Hrun. by rewrite Hrun in Hwp. Qed.

Section Shape.
Context {N : Type} `{JsNumber N}.

Lemma entries_keyed_empty : entries_keyed (N := N) ∅.
Proof. intros k b Hk. by rewrite lookup_empty in Hk. Qed.

Lemma entries_keyed_insert (m : gmap string (Bundle N)) b :
  entries_keyed m → cityInfo b ∈ METRO_CITIES →
  entries_keyed (<[cid (cityInfo b) := b]> m).
Proof.
  intros Hm Hb k b' Hk.
  apply lookup_insert_Some in Hk as [[<- <-]|[_ Hk]]; [done|by apply Hm].
Qed.

Lemma populated_insert_city (m : gmap string (Bundle N)) l c b :
  populated m l → populated (<[cid c := b]> m) (l ++ [c]).
Proof.
  intros Hm c' Hc. apply elem_of_app in Hc as [Hc|Hc].
  - apply lookup_insert_is_Some'. right. by apply Hm.
  - apply list_elem_of_singleton in Hc as ->.
    apply lookup_insert_is_Some'. by left.
Qed.

Lemma populated_insert_key (m : gmap string (Bundle N)) l k b :
  populated m l → populated (<[k := b]> m) l.
Proof.
  intros Hm c' Hc. apply lookup_insert_is_Some'. right. by apply Hm.
Qed.

(** In a table of that shape the entry of a city carries that city. *)
Lemma table_shape_lookup (m : gmap string (Bundle N)) c :
  table_shape m → c ∈ METRO_CITIES →
  ∃ b, m !! cid c = Some b ∧ cityInfo b = c.
Proof.
  intros [Hk Hp] Hc. destruct (Hp c Hc) as [b Hb]. exists b. split; [done|].
  destruct (Hk _ _ Hb) as [Hin Hid].
  apply list_elem_of_lookup in Hin as [i Hi].
  apply list_elem_of_lookup in Hc as [j Hj].
  assert (Hij : i = j).
  { eapply NoDup_lookup; [apply METRO_CITIES_NoDup| |].
    - rewrite list_lookup_fmap, Hi. reflexivity.
    - rewrite list_lookup_fmap, Hj. cbn. by rewrite Hid. }
  subst j. congruence.
Qed.

Lemma table_shape_keys (m : gmap string (Bundle N)) k :
  table_shape m → is_Some (m !! k) ↔ k ∈ cid <$> METRO_CITIES.
Proof.
  intros [Hk Hp]. split.
  - intros [b Hb]. destruct (Hk _ _ Hb) as [Hin <-].
    apply list_elem_of_fmap. by exists (cityInfo b).
  - intros Hin. apply list_elem_of_fmap in Hin as (c & -> & Hc). by apply Hp.
Qed.

Lemma table_shape_size (m : gmap string (Bundle N)) :
  table_shape m → size m = 20%nat.
Proof.
  intros Hm.
  assert (Hd : dom m = list_to_set (cid <$> METRO_CITIES)).
  { apply set_eq. intros k. rewrite elem_of_dom, elem_of_list_to_set.
    by apply table_shape_keys. }
  rewrite <- size_dom, Hd, size_list_to_set by apply METRO_CITIES_NoDup.
  reflexivity.
Qed.

(** [initializePrices] writes the entry of every city. *)
Lemma wp_initializePrices_shape (s : Server N) :
  entries_keyed (currentPrices s) →
  wp initializePrices s
     (fun _ s' => table_shape (currentPrices s')) (fun _ _ => False).
Proof.
  intros Hk. unfold initializePrices.
  eapply wp_mono;
    [apply (wp_forEach _
       (fun visited s' =>
          entries_keyed (currentPrices s') ∧
          populated (currentPrices s') visited)
       (fun _ _ => False))| |done].
  - split; [done|]. intros c Hc. by apply elem_of_nil in Hc.
  - clear s Hk. intros visited city rest s Hl [Hk Hp].
    assert (Hcity : city ∈ METRO_CITIES).
    { rewrite Hl. apply elem_of_app. right. by left. }
    eapply wp_Done; [reflexivity|].
    cbn [currentPrices set_currentPrices set_drawn]. split.
    + by apply (entries_keyed_insert _ (Build_Bundle city _ _ _ _ _)).
    + by apply populated_insert_city.
  - intros u s' [Hk' Hp']. by split.
Qed.

(** The random walk rewrites each entry in place, under the same key. *)
Lemma wp_updatePricesSimulated_shape (s : Server N) :
  table_shape (currentPrices s) →
  wp updatePricesSimulated s
     (fun _ s' => table_shape (currentPrices s')) (fun _ _ => False).
Proof.
  intros Hs. unfold updatePricesSimulated. apply wp_bind.
  eapply wp_mono;
    [apply (wp_forEach _ (fun _ s' => table_shape (currentPrices s'))
              (fun _ _ => False)); [done|]| |done].
  - clear s Hs. intros visited city rest s Hl Hs.
    assert (Hcity : city ∈ METRO_CITIES).
    { rewrite Hl. apply elem_of_app. right. by left. }
    destruct (table_shape_lookup _ _ Hs Hcity) as (b & Hb & Hinfo).
    eapply wp_Done; [by apply walk_city_eq|].
    cbn [currentPrices set_currentPrices set_drawn].
    destruct Hs as [Hk Hp]. split.
    + rewrite <- Hinfo at 1.
      apply (entries_keyed_insert _ (walk_bundle _ _ _ b)); [done|].
      cbn [cityInfo walk_bundle]. by rewrite Hinfo.
    + by apply populated_insert_key.
  - intros u s' Hs'. cbv beta. by apply wp_modify.
Qed.

Lemma live_table_shape (d : McxData N) now : table_shape (live_table d now).
Proof.
  split.
  - intros k b Hk. apply table_of_inv in Hk as [(c & Hc & -> & ->)|Hk];
      [done|by rewrite lookup_empty in Hk].
  - intros c Hc. unfold live_table.
    rewrite table_of_lookup; [done|apply METRO_CITIES_NoDup|done].
Qed.

Lemma wp_updatePricesFromMCX_shape axios (s : Server N) :
  table_shape (currentPrices s) →
  wp (updatePricesFromMCX axios) s
     (fun _ s' => table_shape (currentPrices s')) (fun _ _ => False).
Proof.
  intros Hs.
  destruct (fetchLiveData_returns axios s) as (d & n & Hf & _).
  destruct (has_quote d) eqn:Hq.
  - eapply wp_Done; [exact (updatePricesFromMCX_live _ _ _ _ Hf Hq)|].
    apply live_table_shape.
  - eapply wp_rewrite; [exact (updatePricesFromMCX_no_quote _ _ _ _ Hf Hq)|].
    apply wp_bind, wp_modify. apply wp_bind.
    eapply wp_mono; [by apply wp_updatePricesSimulated_shape| |done].
    intros u s' Hs'. by apply wp_modify.
Qed.

Lemma wp_updatePrices_shape axios (s : Server N) :
  table_shape (currentPrices s) →
  wp (updatePrices axios) s
     (fun _ s' => table_shape (currentPrices s')) (fun _ _ => False).
Proof.
  intros Hs. eapply wp_rewrite; [apply updatePrices_eq|].
  apply wp_try_catch. destruct (useMCXData s).
  - eapply wp_mono; [by apply wp_updatePricesFromMCX_shape|done|done].
  - eapply wp_mono; [by apply wp_updatePricesSimulated_shape|done|done].
Qed.

Lemma wp_majorMarketUpdate_shape (s : Server N) :
  entries_keyed (currentPrices s) →
  wp majorMarketUpdate s
     (fun _ s' => table_shape (currentPrices s')) (fun _ _ => False).
Proof.
  intros Hk. unfold majorMarketUpdate.
  apply wp_bind, wp_Math_random. apply wp_bind, wp_modify.
  by apply wp_initializePrices_shape.
Qed.

Lemma wp_initializeApp_shape axios (s : Server N) :
  entries_keyed (currentPrices s) →
  wp (initializeApp axios) s
     (fun _ s' => table_shape (currentPrices s')) (fun _ _ => False).
Proof.
  intros Hk.
  destruct (fetchLiveData_returns axios s) as (d & n & Hf & _).
  destruct (has_quote d) eqn:Hq.
  - eapply wp_Done; [exact (initializeApp_live _ _ _ _ Hf Hq)|].
    apply live_table_shape.
  - eapply wp_rewrite; [exact (initializeApp_no_quote _ _ _ _ Hf Hq)|].
    apply wp_bind, wp_modify. by apply wp_initializePrices_shape.
Qed.

Lemma run_timeouts_table (s : Server N) :
  currentPrices (run_timeouts s) = currentPrices s.
Proof. unfold run_timeouts. by case_match. Qed.

Lemma deliver_shape t ev (s : Server N) :
  table_shape (currentPrices s) → table_shape (currentPrices (deliver t ev s)).
Proof.
  intros Hs. unfold deliver.
  set (s1 := run_timeouts _).
  assert (Hs1 : table_shape (currentPrices s1)).
  { subst s1. by rewrite run_timeouts_table. }
  clearbody s1.
  apply (wp_final _ _ (fun s' => table_shape (currentPrices s'))).
  destruct ev as [axios| |cityId]; cbn [handle].
  - eapply wp_mono; [by apply wp_updatePrices_shape|done|done].
  - eapply wp_mono; [apply wp_majorMarketUpdate_shape; apply Hs1|done|done].
  - apply wp_bind. unfold get_api_prices_cityId.
    apply wp_bind, wp_gets. by case_match.
Qed.

Lemma run_shape tr (s : Server N) :
  table_shape (currentPrices s) → table_shape (currentPrices (run tr s)).
Proof.
  revert s. induction tr as [|[t ev] tr IH]; intros s Hs; [done|].
  cbn [run]. by apply IH, deliver_shape.
Qed.

Lemma started_shape axios rnd t0 :
  table_shape (currentPrices (final (initializeApp axios (boot rnd t0)))).
Proof.
  apply (wp_final _ _ (fun s' => table_shape (currentPrices s'))).
  eapply wp_mono; [apply wp_initializeApp_shape|done|done].
  apply entries_keyed_empty.
Qed.
End Shape.

(** X1. After start-up and any sequence of fast ticks, major ticks and
    requests, whatever the exchange answers and whatever [Math.random()]
    returns, the table has exactly twenty entries: one under the identifier
    of each city of [METRO_CITIES], carrying that city as its [cityInfo],
    and none under any other key. *)
Theorem X1_table_has_one_entry_per_city :
  ∀ (N : Type) (JN : JsNumber N) (rnd : nat → N) (t0 : Z)
    (axios : AxiosResult N) (tr : list (Z * @Event N)),
    let s := run tr (final (initializeApp axios (boot rnd t0))) in
    (∀ c, c ∈ METRO_CITIES →
          ∃ b, currentPrices s !! cid c = Some b ∧ cityInfo b = c) ∧
    (∀ k, is_Some (currentPrices s !! k) ↔ k ∈ cid <$> METRO_CITIES) ∧
    size (currentPrices s) = 20%nat.
Proof.
  intros N JN rnd t0 axios tr s.
  assert (Hs : table_shape (currentPrices s))
    by apply run_shape, started_shape.
  split_and!.
  - intros c Hc. by apply table_shape_lookup.
  - intros k. by apply table_shape_keys.
  - by apply table_shape_size.
Qed.

(** ** What is published, and when *)

Section Publish.
Context {N : Type} `{JsNumber N}.

Lemma initializePrices_emitted (s : Server N) :
  wp initializePrices s
     (fun _ s' => emitted s' = emitted s) (fun _ s' => emitted s' = emitted s).
Proof.
  unfold initializePrices.
  eapply wp_mono;
    [apply (wp_forEach _ (fun _ s' => emitted s' = emitted s)
              (fun _ s' => emitted s' = emitted s)); [done|]| |done].
  - intros visited x rest s' _ Hs'. by eapply wp_Done.
  - done.
Qed.

Lemma majorMarketUpdate_emitted (s : Server N) :
  emitted (final (majorMarketUpdate s)) = emitted s.
Proof.
  apply (wp_final _ _ (fun s' => emitted s' = emitted s)).
  unfold majorMarketUpdate.
  apply wp_bind, wp_Math_random. apply wp_bind, wp_modify.
  eapply wp_mono; [apply initializePrices_emitted|done|done].
Qed.

Lemma initializeApp_emitted axios (s : Server N) :
  emitted (final (initializeApp axios s)) = emitted s.
Proof.
  apply (wp_final _ _ (fun s' => emitted s' = emitted s)).
  destruct (fetchLiveData_returns axios s) as (d & n & Hf & _).
  destruct (has_quote d) eqn:Hq.
  - by eapply wp_Done; [exact (initializeApp_live _ _ _ _ Hf Hq)|].
  - eapply wp_rewrite; [exact (initializeApp_no_quote _ _ _ _ Hf Hq)|].
    apply wp_bind, wp_modify.
    eapply wp_mono; [apply initializePrices_emitted|done|done].
Qed.

(** On a table that has every city a fast tick returns, and publishes the
    table it leaves, once. *)
Lemma updatePrices_publishes axios (s : Server N) :
  populated (currentPrices s) METRO_CITIES →
  ∃ s', updatePrices axios s = Done tt s' ∧
        emitted s' = emitted s ++ [currentPrices s'].
Proof.
  intros Hp. rewrite updatePrices_eq. unfold try_catch.
  destruct (useMCXData s) eqn:Huse.
  - destruct (fetchLiveData_returns axios s) as (d & n & Hf & _).
    destruct (has_quote d) eqn:Hq.
    + rewrite (updatePricesFromMCX_live _ _ _ _ Hf Hq). by eexists.
    + rewrite (updatePricesFromMCX_no_quote _ _ _ _ Hf Hq).
      destruct (updatePricesSimulated_walks
                  (set_useMCXData false (set_drawn n s)) Hp)
        as (s3 & Hrun & _ & He & _).
      unfold bind at 1, modify at 1. unfold bind at 1. rewrite Hrun.
      eexists. split; [reflexivity|]. exact He.
  - destruct (updatePricesSimulated_walks s Hp) as (s3 & -> & _ & He & _).
    by exists s3.
Qed.

Lemma run_timeouts_emitted (s : Server N) :
  emitted (run_timeouts s) = emitted s.
Proof. unfold run_timeouts. by case_match. Qed.

Lemma deliver_emitted t ev (s : Server N) :
  populated (currentPrices s) METRO_CITIES →
  emitted (deliver t ev s) =
  if is_FastTick ev then emitted s ++ [currentPrices (deliver t ev s)]
  else emitted s.
Proof.
  intros Hp. unfold deliver.
  set (s1 := run_timeouts _).
  assert (He1 : emitted s1 = emitted s)
    by (subst s1; by rewrite run_timeouts_emitted).
  assert (Hp1 : populated (currentPrices s1) METRO_CITIES)
    by (subst s1; by rewrite run_timeouts_table).
  clearbody s1. destruct ev as [axios| |cityId]; cbn [handle is_FastTick].
  - destruct (updatePrices_publishes axios s1 Hp1) as (s' & -> & He).
    cbn [final]. by rewrite He, He1.
  - by rewrite majorMarketUpdate_emitted.
  - rewrite <- He1. f_equal.
    unfold get_api_prices_cityId, bind, gets, ret.
    by destruct (js_get (currentPrices s1) cityId).
Qed.

Lemma run_emitted tr (s : Server N) :
  table_shape (currentPrices s) →
  length (emitted (run tr s)) =
  (length (emitted s) +
   length (List.filter (fun tev : Z * Event => is_FastTick tev.2) tr))%nat.
Proof.
  revert s. induction tr as [|[t ev] tr IH]; intros s Hs; [cbn; lia|].
  cbn [run List.filter snd].
  rewrite IH by by apply deliver_shape.
  rewrite deliver_emitted by apply Hs.
  destruct (is_FastTick ev); [|done].
  rewrite length_app. cbn [length]. lia.
Qed.
End Publish.

(** X2. Start-up publishes nothing.  After start-up and any sequence of
    events, a fast tick never throws and appends exactly one snapshot to
    what was published, the table as that tick leaves it, whatever the
    exchange answers and whether or not the live source is enabled; a major
    tick rewrites the table but publishes nothing, and neither does a
    request.  So the number of snapshots published is the number of fast
    ticks. *)
Theorem X2_fast_ticks_publish_the_table_they_leave :
  ∀ (N : Type) (JN : JsNumber N) (rnd : nat → N) (t0 : Z)
    (axios : AxiosResult N) (tr : list (Z * @Event N)),
    let s0 := final (initializeApp axios (boot rnd t0)) in
    let s := run tr s0 in
    emitted s0 = [] ∧
    (∀ axios', ∃ s', updatePrices axios' s = Done tt s' ∧
                     emitted s' = emitted s ++ [currentPrices s']) ∧
    (∀ t ev,
       emitted (deliver t ev s) =
       if is_FastTick ev then emitted s ++ [currentPrices (deliver t ev s)]
       else emitted s) ∧
    length (emitted s) =
    length (List.filter (fun tev : Z * Event => is_FastTick tev.2) tr).
Proof.
  intros N JN rnd t0 axios tr s0 s.
  assert (Hs0 : table_shape (currentPrices s0)) by apply started_shape.
  assert (Hs : table_shape (currentPrices s)) by by apply run_shape.
  assert (He0 : emitted s0 = []) by apply initializeApp_emitted.
  split_and!.
  - done.
  - intros axios'. apply updatePrices_publishes, Hs.
  - intros t ev. apply deliver_emitted, Hs.
  - subst s. rewrite run_emitted by done. by rewrite He0.
Qed.

(** ** The size of a step of the random walk *)

Section WalkBounds.
Local Open Scope Q_scope.

Lemma Q_round_gt (x : Q) : x - (1 # 2) < Q_round x.
Proof.
  unfold Q_round. pose proof (Qlt_floor (x + (1 # 2))) as Hf.
  rewrite inject_Z_plus in Hf. change (inject_Z 1) with 1 in Hf. lra.
Qed.

Lemma walk_price_within (w h p r : Q) :
  w == 2 * h → 0 <= r → r < 1 → 0 <= w → 0 <= p →
  moved_within h (walk_price w p r) p.
Proof.
  intros Hh Hr0 Hr1 Hw Hp. unfold moved_within, walk_price.
  cbn [Math_round nmul nadd nsub lit Q_number].
  set (x := p * (1 + (r - 0.5) * w)).
  pose proof (Q_round_le x) as Hle. pose proof (Q_round_gt x) as Hgt.
  assert (Hrp : 0 <= r * (p * w)).
  { apply Qmult_le_0_compat; [done|]. by apply Qmult_le_0_compat. }
  assert (Hrp' : 0 <= (1 - r) * (p * w)).
  { apply Qmult_le_0_compat; [lra|]. by apply Qmult_le_0_compat. }
  assert (Hx : x == p + (r - 0.5) * (p * w)) by (unfold x; ring).
  assert (Hw2 : h * p == (1 # 2) * (p * w)) by (rewrite Hh; ring).
  apply Qabs_Qle_condition. rewrite Hw2. split; lra.
Qed.

Lemma server_ok_lookup (s : Server Q) c :
  server_ok s → c ∈ METRO_CITIES →
  ∃ b, currentPrices s !! cid c = Some b ∧ bundle_ok b.
Proof.
  intros (_ & _ & He & Hp) Hc. destruct (Hp c Hc) as [b Hb].
  exists b. split; [done|]. by eapply He.
Qed.
End WalkBounds.

Lemma updatePricesSimulated_small (s : Server Q) :
  server_ok s →
  ∃ s', updatePricesSimulated s = Done tt s' ∧
    ∀ c, c ∈ METRO_CITIES →
      ∃ b b',
        currentPrices s !! cid c = Some b ∧
        currentPrices s' !! cid c = Some b' ∧
        lastUpdated b' = clock s ∧ small_step b b'.
Proof.
  intros Hs. pose proof Hs as (Hd & _ & He & Hp).
  destruct (updatePricesSimulated_walks s Hp) as (s' & Hrun & Hw & _).
  exists s'. split; [done|]. intros c Hc.
  apply list_elem_of_lookup in Hc as [j Hj].
  destruct (Hw j c Hj) as (b & Hb & Hb').
  destruct (He _ _ Hb) as ((H24 & H22 & H18) & (H999 & H925)).
  unfold price_ok in *.
  eexists b, _. split_and!; [done|exact Hb'|done|].
  unfold small_step. split_and!; [done|done|..];
    cbn [gold silver walk_bundle k24 k22 k18 s999 s925].
  - apply (walk_price_within 0.004); try apply Hd; try lra; reflexivity.
  - apply (walk_price_within 0.004); try apply Hd; try lra; reflexivity.
  - apply (walk_price_within 0.004); try apply Hd; try lra; reflexivity.
  - apply (walk_price_within 0.006); try apply Hd; try lra; reflexivity.
  - apply (walk_price_within 0.006); try apply Hd; try lra; reflexivity.
Qed.


(** X3. One run of [updatePricesSimulated] on a table of positive prices,
    with draws in [0, 1): it returns, and for every city the new bundle is
    the old one with each gold price moved by at most 0.2% and each silver
    price by at most 0.3% (up to the rounding to a whole rupee), stamped
    with the time of the run; the city and the quotes the bundle was last
    converted from are kept as they were. *)
Theorem X3_random_walk_step_is_small :
  ∀ s : Server Q,
    server_ok s →
    ∃ s', updatePricesSimulated s = Done tt s' ∧
      ∀ c, c ∈ METRO_CITIES →
        ∃ b b',
          currentPrices s !! cid c = Some b ∧
          currentPrices s' !! cid c = Some b' ∧
          lastUpdated b' = clock s ∧ small_step b b'.
Proof. exact updatePricesSimulated_small. Qed.

(** The server started while the exchange is unreachable. *)
Lemma started_ok : server_ok (started (N := Q)).
Proof.
  assert (Hd : draws_ok (fun _ : nat => 0.5%Q))
    by (intros i; split; [unfold Qle; simpl; lia|reflexivity]).
  destruct (boot_ok _ 0 Hd) as (Hd0 & Hb0 & He0).
  apply (wp_final _ _ server_ok).
  eapply wp_mono; [by apply wp_initializeApp|done|done].
Qed.

Lemma X3_random_walk_step_is_small_witness :
  server_ok (started (N := Q)) ∧
  ∃ s', updatePricesSimulated (started (N := Q)) = Done tt s' ∧
    ∀ c, c ∈ METRO_CITIES →
      ∃ b b',
        currentPrices (started (N := Q)) !! cid c = Some b ∧
        currentPrices s' !! cid c = Some b' ∧
        lastUpdated b' = clock (started (N := Q)) ∧ small_step b b'.
Proof.
  split; [exact started_ok|].
  exact (X3_random_walk_step_is_small started started_ok).
Defined.

(** ** A step of the random walk is below the notification threshold *)

Section Quiet.
Local Open Scope Q_scope.

Lemma not_significant (current previous : Q) :
  0 < previous → Qabs (current - previous) <= 0.005 * previous →
  significant current previous = false.
Proof.
  intros Hpos Hle. unfold significant, significantChangeThreshold.
  cbn [nlt ndiv nsub Math_abs lit Q_number]. unfold Q_lt.
  apply negb_false_iff, Qle_bool_iff. by apply Qle_shift_div_r.
Qed.

Lemma significant_same (p : Q) : significant p p = false.
Proof.
  unfold significant, significantChangeThreshold.
  cbn [nlt ndiv nsub Math_abs lit Q_number]. unfold Q_lt.
  apply negb_false_iff, Qle_bool_iff.
  assert (E : p - p == 0) by ring.
  rewrite E. change (Qabs 0) with 0.
  assert (E' : 0 / p == 0) by (unfold Qdiv; ring).
  rewrite E'. unfold Qle. simpl. lia.
Qed.

Lemma cityToasts_same (b : Bundle Q) : cityToasts b b = [].
Proof. unfold cityToasts. by rewrite !significant_same. Qed.

Lemma small_step_quiet (b b' : Bundle Q) :
  250 <= k24 (gold b) → 250 <= s999 (silver b) → small_step b b' →
  cityToasts b' b = [].
Proof.
  intros Hg Hs (_ & _ & H24 & _ & _ & H999 & _).
  unfold moved_within in *. unfold cityToasts.
  rewrite !not_significant; [done|lra|lra|lra|lra].
Qed.
End Quiet.

Section QuietTable.
Context {N : Type} `{JsNumber N}.

Lemma updatePricesSimulated_other (s : Server N) :
  wp updatePricesSimulated s
     (fun _ s' => ∀ k, k ∉ cid <$> METRO_CITIES →
                       currentPrices s' !! k = currentPrices s !! k)
     (fun _ s' => ∀ k, k ∉ cid <$> METRO_CITIES →
                       currentPrices s' !! k = currentPrices s !! k).
Proof.
  unfold updatePricesSimulated. apply wp_bind.
  set (I := fun s' : Server N =>
              ∀ k, k ∉ cid <$> METRO_CITIES →
                   currentPrices s' !! k = currentPrices s !! k).
  eapply wp_mono;
    [apply (wp_forEach _ (fun _ s' => I s') (fun _ s' => I s')); [done|]
    | |done].
  - intros visited x rest s' Hl Hs'.
    assert (Hx : x ∈ METRO_CITIES).
    { rewrite Hl. apply elem_of_app. right. by left. }
    destruct (currentPrices s' !! cid x) as [b|] eqn:Hb.
    + eapply wp_Done; [by apply walk_city_eq|].
      intros k Hk. cbn [currentPrices set_currentPrices set_drawn].
      rewrite lookup_insert_ne; [by apply Hs'|].
      intros <-. apply Hk, list_elem_of_fmap. by exists x.
    + destruct (walk_city_throws x s' Hb) as [e He].
      unfold wp. by rewrite He.
  - intros u s' Hs'. cbv beta. by apply wp_modify.
Qed.

Lemma flat_map_nil {A B} (f : A → list B) (l : list A) :
  (∀ x, x ∈ l → f x = []) → flat_map f l = [].
Proof.
  induction l as [|x l IH]; intros Hf; [done|]. cbn.
  rewrite (Hf x) by by left. apply IH. intros y Hy. apply Hf. by right.
Qed.
End QuietTable.

(** X4. A browser holds the table of a server whose stored prices are
    positive and whose reference prices, gold 24k and silver 999, are at
    least 250; the server runs [updatePricesSimulated] (draws in [0, 1)) and
    the browser handles the snapshot that run publishes.  No toast is
    shown: a step of the walk, 0.2% for gold and 0.3% for silver plus the
    rounding, stays within the 0.5% of [checkSignificantChanges]. *)
Theorem X4_simulated_tick_shows_no_toast :
  ∀ (s : Server Q) (localeCompare : string → string → Z) (a : App Q)
    (timeLabel : string),
    server_ok s → reference_prices_from 250 (currentPrices s) →
    allPrices a = currentPrices s →
    ∃ s' snapshot,
      updatePricesSimulated s = Done tt s' ∧
      last (emitted s') = Some snapshot ∧
      toasts (handlePriceUpdate localeCompare snapshot timeLabel a) = toasts a.
Proof.
  intros s lc a t Hs Href Ha.
  destruct (updatePricesSimulated_small s Hs) as (s' & Hrun & Hstep).
  pose proof Hs as (_ & _ & _ & Hp).
  destruct (updatePricesSimulated_walks s Hp) as (s'' & Hrun' & _ & He & _).
  rewrite Hrun in Hrun'. injection Hrun' as <-.
  pose proof (wp_Done_inv _ _ _ _ _ _
                (updatePricesSimulated_other s) Hrun) as Hother.
  exists s', (currentPrices s'). split_and!; [done|by rewrite He, last_snoc|].
  rewrite handlePriceUpdate_toasts, Ha, flat_map_nil; [by rewrite app_nil_r|].
  intros [k cur] Hk. apply elem_of_map_to_list in Hk. cbn [fst snd].
  destruct (currentPrices s !! k) as [prev|] eqn:Hprev; [|done].
  destruct (decide (k ∈ cid <$> METRO_CITIES)) as [Hin|Hout].
  - apply list_elem_of_fmap in Hin as (c & -> & Hc).
    destruct (Hstep c Hc) as (b & b' & Hb & Hb' & _ & Hsmall).
    assert (b = prev) by congruence. assert (b' = cur) by congruence.
    subst b b'. destruct (Href _ _ Hprev) as [Hg Hsv].
    by apply small_step_quiet.
  - rewrite (Hother k Hout), Hprev in Hk. injection Hk as <-.
    apply cityToasts_same.
Qed.


Lemma started_reference_prices :
  reference_prices_from 250 (currentPrices (started (N := Q))).
Proof.
  apply (map_Forall_to_list
           (fun (_ : string) (b : Bundle Q) =>
              (250 <= k24 (gold b))%Q ∧ (250 <= s999 (silver b))%Q)).
  let l := eval vm_compute in (map_to_list (currentPrices (started (N := Q)))) in
  change (map_to_list (currentPrices (started (N := Q)))) with l.
  repeat constructor; unfold Qle; simpl; lia.
Qed.

Lemma X4_simulated_tick_shows_no_toast_witness :
  let s : Server Q := started in
  let a : App Q := set_allPrices (currentPrices s) new_App in
  (server_ok s ∧ reference_prices_from 250 (currentPrices s)) ∧
  ∃ s' snapshot,
    updatePricesSimulated s = Done tt s' ∧
    last (emitted s') = Some snapshot ∧
    toasts (handlePriceUpdate (fun _ _ => 0%Z) snapshot "10:00:10" a)
    = toasts a.
Proof.
  intros s a. split; [split; [exact started_ok|exact started_reference_prices]|].
  exact (X4_simulated_tick_shows_no_toast s (fun _ _ => 0%Z) a "10:00:10"
           started_ok started_reference_prices eq_refl).
Defined.

(** ** The synthetic table and the five-minute update *)

Section Synthetic.
Context {N : Type} `{JsNumber N}.

Lemma initializePrices_city (city : City) (s : Server N) :
  (base <- gets BASE_PRICES ;;
   g24 <- generateCityPrice (k24 (base_gold base)) (cid city) ;;
   g22 <- generateCityPrice (k22 (base_gold base)) (cid city) ;;
   g18 <- generateCityPrice (k18 (base_gold base)) (cid city) ;;
   s999 <- generateCityPrice (s999 (base_silver base)) (cid city) ;;
   s925 <- generateCityPrice (s925 (base_silver base)) (cid city) ;;
   now <- Date_now ;;
   tg <- getRandomTrend ;;
   ts <- getRandomTrend ;;
   modify (fun s =>
     set_currentPrices
       (<[cid city :=
            {| cityInfo := city;
               gold := {| k24 := g24; k22 := g22; k18 := g18 |};
               silver := {| s999 := s999; s925 := s925 |};
               lastUpdated := now;
               trend := {| tgold := tg; tsilver := ts |};
               mcxData := None |}]> (currentPrices s)) s))%eff s
  = Done tt
      (set_currentPrices
         (<[cid city :=
              init_bundle (BASE_PRICES s) (draws s) (drawn s) (clock s) city]>
            (currentPrices s))
         (set_drawn (7 + drawn s) s)).
Proof. reflexivity. Qed.

(** [initializePrices], city by city. *)
Lemma initializePrices_initialized (s0 : Server N) :
  wp initializePrices s0
     (fun _ s' =>
        initialized METRO_CITIES (BASE_PRICES s0) (draws s0) (drawn s0)
          (clock s0) s' ∧
        (∀ k, k ∉ cid <$> METRO_CITIES →
              currentPrices s' !! k = currentPrices s0 !! k) ∧
        drawn s' = (7 * length METRO_CITIES + drawn s0)%nat ∧
        draws s' = draws s0 ∧ clock s' = clock s0 ∧
        emitted s' = emitted s0 ∧ live_switch s' = live_switch s0 ∧
        BASE_PRICES s' = BASE_PRICES s0)
     (fun _ _ => False).
Proof.
  unfold initializePrices.
  pose proof METRO_CITIES_NoDup as Hnd.
  eapply wp_mono;
    [apply (wp_forEach _
       (fun visited s' =>
          initialized visited (BASE_PRICES s0) (draws s0) (drawn s0)
            (clock s0) s' ∧
          (∀ k, k ∉ cid <$> visited →
                currentPrices s' !! k = currentPrices s0 !! k) ∧
          drawn s' = (7 * length visited + drawn s0)%nat ∧
          draws s' = draws s0 ∧ clock s' = clock s0 ∧
          emitted s' = emitted s0 ∧ live_switch s' = live_switch s0 ∧
          BASE_PRICES s' = BASE_PRICES s0)
       (fun _ _ => False))| |done].
  - split_and!; try done; intros j c Hj; by rewrite lookup_nil in Hj.
  - intros visited x rest s Hl (Hi & Hun & Hn & Hd & Hc & He & Hsw & Hb).
    rewrite Hl, fmap_app, fmap_cons in Hnd.
    apply NoDup_app in Hnd as (Hnd1 & Hdisj & Hnd2).
    assert (Hxv : cid x ∉ cid <$> visited).
    { intros Hin. apply (Hdisj _ Hin). by left. }
    eapply wp_Done; [apply initializePrices_city|].
    unfold live_switch in *.
    cbn [currentPrices set_currentPrices set_drawn drawn draws clock emitted
         BASE_PRICES useMCXData timeouts].
    rewrite Hd, Hc, Hn, Hb. split_and!; try done.
    + unfold initialized. cbn [currentPrices set_currentPrices set_drawn].
      intros j c Hj. apply lookup_app_Some in Hj as [Hj|[Hlen Hj]].
      * rewrite lookup_insert_ne; [by apply Hi|].
        intros Heq. apply Hxv. rewrite Heq.
        apply list_elem_of_fmap. exists c. split; [done|].
        by eapply list_elem_of_lookup_2.
      * apply list_lookup_singleton_Some in Hj as [Hj ->].
        rewrite lookup_insert_eq. do 2 f_equal. lia.
    + intros k Hk. rewrite fmap_app in Hk.
      apply not_elem_of_app in Hk as [Hk1 Hk2].
      rewrite lookup_insert_ne; [by apply Hun|].
      intros <-. apply Hk2. by left.
    + rewrite length_app. cbn. lia.
    + injection Hsw as -> -> _. done.
  - intros u s' (Hi & Hun & Hn & Hd & Hc & He & Hsw & Hb). cbv beta.
    by split_and!.
Qed.

Lemma majorMarketUpdate_eq (s : Server N) :
  majorMarketUpdate s =
  initializePrices
    (set_BASE_PRICES (shock_base (draws s (drawn s)) (BASE_PRICES s))
       (set_drawn (S (drawn s)) s)).
Proof. reflexivity. Qed.
End Synthetic.

Section SyntheticBounds.
Local Open Scope Q_scope.

Lemma variation_upper cityId :
  or_default (N := Q) (table_get cityVariations cityId) 1.0 <= 1.025.
Proof.
  unfold or_default.
  destruct (table_get cityVariations cityId) as [v|] eqn:Hk;
    [|unfold Qle; simpl; lia].
  destruct (truthy (lit v)); [|unfold Qle; simpl; lia].
  apply table_get_In in Hk. cbn in Hk.
  repeat (destruct Hk as [[= _ <-]|Hk]; [unfold Qle; simpl; lia|]).
  done.
Qed.

Lemma jitter_price_within (basePrice r : Q) cityId :
  0 <= r → r < 1 → 0 <= basePrice →
  moved_within 0.005 (jitter_price basePrice cityId r)
    (basePrice * or_default (table_get cityVariations cityId) 1.0).
Proof.
  intros Hr0 Hr1 Hb. unfold moved_within, jitter_price.
  cbn [Math_round nmul nadd lit Q_number].
  pose proof (variation_lower cityId) as Hv.
  set (v := or_default _ _) in *.
  set (x := basePrice * v * (0.995 + r * 0.01)).
  pose proof (Q_round_le x) as Hle. pose proof (Q_round_gt x) as Hgt.
  assert (Hm : 0 <= basePrice * v) by (apply Qmult_le_0_compat; lra).
  assert (Hrm : 0 <= r * (basePrice * v))
    by (by apply Qmult_le_0_compat).
  assert (Hrm' : 0 <= (1 - r) * (basePrice * v))
    by (apply Qmult_le_0_compat; [lra|done]).
  assert (Hx : x == basePrice * v + (r - 0.5) * 0.01 * (basePrice * v))
    by (unfold x; ring).
  apply Qabs_Qle_condition. split; lra.
Qed.

Lemma shock_price_within (r p : Q) :
  0 <= r → r < 1 → 0 <= p → moved_within 0.01 (shock_price r p) p.
Proof.
  intros Hr0 Hr1 Hp.
  apply (walk_price_within 0.02 0.01 p r); try done; lra.
Qed.
End SyntheticBounds.

(** X5. [initializePrices] returns and writes, over whatever the table
    held, one bundle for each of the twenty cities: the five prices are
    [generateCityPrice] of the current base prices, the city is the key's
    own, the time is that of the call and no live quotes are attached; it
    takes seven draws per city, publishes nothing and changes neither the
    base prices nor the switch of the live source.  With the draw in
    [0, 1) and a base price that is not negative, each price lies within
    0.5% (up to the rounding) of the base price times the variation of the
    city, which is between 0.98 and 1.025. *)
Theorem X5_initializePrices_rebuilds_every_bundle :
  (∀ (N : Type) (JN : JsNumber N) (s : Server N),
     ∃ s', initializePrices s = Done tt s' ∧
           initialized METRO_CITIES (BASE_PRICES s) (draws s) (drawn s)
             (clock s) s' ∧
           drawn s' = (140 + drawn s)%nat ∧
           emitted s' = emitted s ∧ BASE_PRICES s' = BASE_PRICES s ∧
           live_switch s' = live_switch s) ∧
  (∀ (basePrice r : Q) (cityId : string),
     (0 <= r)%Q → (r < 1)%Q → (0 <= basePrice)%Q →
     let v := or_default (N := Q) (table_get cityVariations cityId) 1.0 in
     (0.98 <= v)%Q ∧ (v <= 1.025)%Q ∧
     moved_within 0.005 (jitter_price basePrice cityId r) (basePrice * v)).
Proof.
  split.
  - intros N JN s.
    pose proof (initializePrices_initialized s) as Hwp.
    apply wp_done in Hwp
      as ([] & s' & Hrun & Hi & _ & Hn & _ & _ & He & Hsw & Hb).
    exists s'. split_and!.
    + exact Hrun.
    + exact Hi.
    + exact Hn.
    + exact He.
    + exact Hb.
    + exact Hsw.
  - intros basePrice r cityId Hr0 Hr1 Hb v. split_and!.
    + apply variation_lower.
    + apply variation_upper.
    + by apply jitter_price_within.
Qed.

Lemma X5_initializePrices_rebuilds_every_bundle_witness :
  ((0 <= 0.5)%Q ∧ (0.5 < 1)%Q ∧ (0 <= 105500)%Q) ∧
  let v := or_default (N := Q) (table_get cityVariations "mumbai") 1.0 in
  (0.98 <= v)%Q ∧ (v <= 1.025)%Q ∧
  moved_within 0.005 (jitter_price 105500%Q "mumbai" 0.5%Q) (105500 * v).
Proof.
  assert (H0 : (0 <= 0.5)%Q) by (unfold Qle; simpl; lia).
  assert (H1 : (0.5 < 1)%Q) by reflexivity.
  assert (Hb : (0 <= 105500)%Q) by (unfold Qle; simpl; lia).
  split; [done|].
  exact (proj2 X5_initializePrices_rebuilds_every_bundle
           105500%Q 0.5%Q "mumbai" H0 H1 Hb).
Defined.

(** X6. The five-minute update returns; it replaces every base price [p] by
    [round(p * (1 + (r - 0.5) * 0.02))] for the one draw [r] it takes
    first, the same for the five purities, and then rebuilds the bundle of
    every city from the new base prices as [initializePrices] does, so no
    bundle carries live quotes afterwards; it publishes nothing and leaves
    the switch of the live source and its timers alone.  With the draw in
    [0, 1) a base price that is not negative moves by at most 1% (up to the
    rounding). *)
Theorem X6_major_update_rebuilds_the_table_unpublished :
  (∀ (N : Type) (JN : JsNumber N) (s : Server N),
     ∃ s', majorMarketUpdate s = Done tt s' ∧
           BASE_PRICES s' = shock_base (draws s (drawn s)) (BASE_PRICES s) ∧
           initialized METRO_CITIES (BASE_PRICES s') (draws s) (S (drawn s))
             (clock s) s' ∧
           (∀ c, c ∈ METRO_CITIES →
                 ∃ b, currentPrices s' !! cid c = Some b ∧
                      cityInfo b = c ∧ mcxData b = None) ∧
           drawn s' = (141 + drawn s)%nat ∧
           emitted s' = emitted s ∧ live_switch s' = live_switch s) ∧
  (∀ r p : Q,
     (0 <= r)%Q → (r < 1)%Q → (0 <= p)%Q →
     moved_within 0.01 (shock_price r p) p).
Proof.
  split.
  - intros N JN s. rewrite majorMarketUpdate_eq.
    pose proof (initializePrices_initialized
                  (set_BASE_PRICES
                     (shock_base (draws s (drawn s)) (BASE_PRICES s))
                     (set_drawn (S (drawn s)) s))) as Hwp.
    apply wp_done in Hwp
      as ([] & s' & Hrun & Hi & _ & Hn & _ & _ & He & Hsw & Hb).
    cbn [BASE_PRICES draws drawn clock emitted set_BASE_PRICES set_drawn]
      in Hi, Hn, He, Hb.
    exists s'. split_and!.
    + exact Hrun.
    + exact Hb.
    + rewrite Hb. exact Hi.
    + intros c Hc. apply list_elem_of_lookup in Hc as [j Hj].
      eexists. split; [exact (Hi j c Hj)|]. split; reflexivity.
    + rewrite Hn. reflexivity.
    + exact He.
    + exact Hsw.
  - apply shock_price_within.
Qed.

Lemma X6_major_update_rebuilds_the_table_unpublished_witness :
  ((0 <= 0.9)%Q ∧ (0.9 < 1)%Q ∧ (0 <= 105500)%Q) ∧
  moved_within 0.01 (shock_price 0.9%Q 105500%Q) 105500.
Proof.
  assert (H0 : (0 <= 0.9)%Q) by (unfold Qle; simpl; lia).
  assert (H1 : (0.9 < 1)%Q) by reflexivity.
  assert (Hb : (0 <= 105500)%Q) by (unfold Qle; simpl; lia).
  split; [done|].
  exact (proj2 X6_major_update_rebuilds_the_table_unpublished
           0.9%Q 105500%Q H0 H1 Hb).
Defined.

(** ** The conversion of a quote: purities in order *)

Section Purities.
Local Open Scope Q_scope.

Lemma Q_round_mono (x y : Q) : x <= y → Q_round x <= Q_round y.
Proof.
  intros Hxy. unfold Q_round. rewrite <- Zle_Qle.
  apply Qfloor_resp_le. lra.
Qed.

Lemma scale_mono (p a b m : Q) :
  0 <= p → 0 <= m → a <= b → p * a * m <= p * b * m.
Proof.
  intros Hp Hm Hab.
  assert (Hpm : 0 <= p * m) by by apply Qmult_le_0_compat.
  assert (Hd : 0 <= (b - a) * (p * m))
    by (apply Qmult_le_0_compat; [lra|done]).
  assert (E : p * b * m - p * a * m == (b - a) * (p * m)) by ring.
  lra.
Qed.

Lemma getFallback_ordered cityId :
  purity_ordered (getFallbackGoldPrices cityId)
    (getFallbackSilverPrices cityId).
Proof.
  pose proof (getCityMultiplier_lower cityId) as Hm.
  unfold purity_ordered, getFallbackGoldPrices, getFallbackSilverPrices.
  cbn [k24 k22 k18 s999 s925 Math_round nmul lit Q_number].
  set (m := getCityMultiplier cityId) in *.
  split_and!; apply Q_round_mono; lra.
Qed.

Lemma calculate_ordered gq sq cityId :
  quote_nonneg gq → quote_nonneg sq →
  purity_ordered (calculateGoldPrices gq cityId)
    (calculateSilverPrices sq cityId).
Proof.
  intros Hg Hs.
  pose proof (getFallback_ordered cityId) as (F1 & F2 & F3).
  pose proof (getCityMultiplier_lower cityId) as Hm.
  unfold purity_ordered. split_and!.
  - unfold calculateGoldPrices. destruct gq as [q|]; [|done].
    destruct (truthy (ltp q)); cbn [negb]; [|done].
    cbn [k22 k18 Math_round nmul ndiv lit Q_number].
    apply Q_round_mono, scale_mono; [done|lra|].
    unfold Qle; simpl; lia.
  - unfold calculateGoldPrices. destruct gq as [q|]; [|done].
    destruct (truthy (ltp q)); cbn [negb]; [|done].
    cbn [k24 k22 Math_round nmul ndiv lit Q_number].
    apply Q_round_mono, scale_mono; [done|lra|].
    unfold Qle; simpl; lia.
  - unfold calculateSilverPrices. destruct sq as [q|]; [|done].
    destruct (truthy (ltp q)); cbn [negb]; [|done].
    cbn [s999 s925 Math_round nmul lit Q_number].
    apply Q_round_mono.
    assert (Hle : ltp q * 0.925 * getCityMultiplier cityId
                  <= ltp q * 1 * getCityMultiplier cityId)
      by (apply scale_mono; [done|lra|lra]).
    assert (E : ltp q * 1 * getCityMultiplier cityId
                == ltp q * getCityMultiplier cityId) by ring.
    lra.
Qed.
End Purities.

(** X7. The conversion of quotes whose last traded price is not negative
    keeps the purities in order: for every city 18k costs no more than 22k,
    22k no more than 24k and silver 925 no more than 999, whether the prices
    come from the quote or, the quote being absent or priced zero, from the
    fallback constants; so it is in every bundle of the table
    [convertToLocationPrices] builds. *)
Theorem X7_live_prices_are_ordered_by_purity :
  ∀ (quotes : McxData Q),
    quote_nonneg (mcx_gold quotes) → quote_nonneg (mcx_silver quotes) →
    (∀ cityId,
       purity_ordered (calculateGoldPrices (mcx_gold quotes) cityId)
         (calculateSilverPrices (mcx_silver quotes) cityId)) ∧
    (∀ (s : Server Q) (cities : list City),
       ∃ table,
         convertToLocationPrices quotes cities s = Done table s ∧
         ∀ k b, table !! k = Some b → purity_ordered (gold b) (silver b)).
Proof.
  intros quotes Hg Hs. split.
  - intros cityId. by apply calculate_ordered.
  - intros s cities. eexists. split; [apply convertToLocationPrices_eq|].
    intros k b Hk. apply table_of_inv in Hk as [(c & _ & _ & ->)|Hk];
      [|by rewrite lookup_empty in Hk].
    by apply calculate_ordered.
Qed.

Lemma X7_live_prices_are_ordered_by_purity_witness :
  let quotes : McxData Q :=
    {| mcx_gold := Some (quote_at "GOLD" 100000%Q); mcx_silver := None |} in
  (quote_nonneg (mcx_gold quotes) ∧ quote_nonneg (mcx_silver quotes)) ∧
  ∀ cityId,
    purity_ordered (calculateGoldPrices (mcx_gold quotes) cityId)
      (calculateSilverPrices (mcx_silver quotes) cityId).
Proof.
  intros quotes.
  assert (Hg : quote_nonneg (mcx_gold quotes)) by (cbn; unfold Qle; simpl; lia).
  assert (Hs : quote_nonneg (mcx_silver quotes)) by exact I.
  split; [done|].
  exact (proj1 (X7_live_prices_are_ordered_by_purity quotes Hg Hs)).
Defined.

(** ** The decoding of the reply *)

Section Parse.
Context {N : Type} `{JsNumber N}.




End Parse.


(** ** The health check, the raw route and the alternative source *)

Section HealthCheck.
Context {N : Type} `{JsNumber N}.

Lemma healthCheck_eq axios (s s1 : Server N) quotes :
  fetchLiveData axios s = Done quotes s1 →
  healthCheck axios s =
  Done (match mcx_gold quotes with
        | Some q => HealthQuote q
        | None =>
            match mcx_silver quotes with
            | Some q => HealthQuote q
            | None => HealthUndefined
            end
        end) s1.
Proof. intros Hf. unfold healthCheck, try_catch, bind. by rewrite Hf. Qed.

Lemma get_api_mcx_raw_eq axios (s s1 : Server N) quotes :
  fetchLiveData axios s = Done quotes s1 →
  get_api_mcx_raw axios s = Done (RawJson "MCX India" (clock s1) quotes) s1.
Proof. intros Hf. unfold get_api_mcx_raw, try_catch, bind. by rewrite Hf. Qed.

Lemma run_timeouts_none (s : Server N) :
  timeouts s = [] → run_timeouts s = s.
Proof. intros Ht. unfold run_timeouts. by rewrite Ht. Qed.

(** With the live source disabled and no timer pending, nothing enables
    it again. *)
Lemma deliver_disabled t ev (s : Server N) :
  useMCXData s = false → timeouts s = [] →
  useMCXData (deliver t ev s) = false ∧ timeouts (deliver t ev s) = [].
Proof.
  intros Huse Ht. unfold deliver.
  rewrite run_timeouts_none by done.
  pose proof (handle_switch ev (set_clock (Z.max (clock s) t) s) Huse) as Hsw.
  unfold live_switch in Hsw. cbn in Hsw. by injection Hsw as -> -> _.
Qed.

Lemma run_disabled tr (s : Server N) :
  useMCXData s = false → timeouts s = [] →
  useMCXData (run tr s) = false ∧ timeouts (run tr s) = [].
Proof.
  revert s. induction tr as [|[t ev] tr IH]; intros s Huse Ht; [done|].
  cbn [run]. destruct (deliver_disabled t ev s Huse Ht). by apply IH.
Qed.

Lemma initializeApp_switch_no_quote data (s : Server N) :
  has_quote (payload_quotes data (clock s)) = false →
  useMCXData (final (initializeApp (Resolved (Some (Some data))) s)) = false ∧
  timeouts (final (initializeApp (Resolved (Some (Some data))) s))
  = timeouts s.
Proof.
  intros Hq.
  rewrite (initializeApp_no_quote _ s s _ (fetchLiveData_parsed data s) Hq).
  assert (Hsw : live_switch
                  (final ((modify (set_useMCXData false) ;;
                           initializePrices)%eff s))
                = live_switch (set_useMCXData false s)).
  { apply (wp_final _ _
             (fun s' => live_switch s' = live_switch (set_useMCXData false s))).
    apply wp_bind, wp_modify. apply initializePrices_switch. }
  split.
  - exact (f_equal (fun p : bool * list Z * Z => p.1.1) Hsw).
  - exact (f_equal (fun p : bool * list Z * Z => p.1.2) Hsw).
Qed.

Lemma initializeApp_switch_failed axios (s : Server N) :
  fetch_failed axios →
  useMCXData (final (initializeApp axios s)) = useMCXData s.
Proof.
  intros Hfail.
  by rewrite (initializeApp_live axios s _ _
                (fetchLiveData_failed axios s Hfail)
                (fallback_quotes_has_quote _ _ _)).
Qed.
End HealthCheck.

(** X9. [healthCheck] never resolves to the [false] of its [catch], because
    [fetchLiveData] never throws.  When the request fails (rejection,
    missing or undecodable body) it resolves to the gold quote of the
    fallback data, a truthy value: an unreachable exchange is reported
    healthy.  It resolves to [undefined] exactly when the reply decodes to
    no quote. *)
Theorem X9_healthCheck_is_truthy_when_the_request_fails :
  ∀ (N : Type) (JN : JsNumber N) (axios : AxiosResult N) (s : Server N),
    ∃ h n,
      healthCheck axios s = Done h (set_drawn n s) ∧
      h ≠ HealthFalse ∧
      (fetch_failed axios →
       ∃ q, mcx_gold (fallback_quotes (draws s) (drawn s) (clock s)) = Some q ∧
            h = HealthQuote q) ∧
      (h = HealthUndefined ↔
       ∃ data, axios = Resolved (Some (Some data)) ∧
               has_quote (payload_quotes data (clock s)) = false).
Proof.
  intros N JN axios s.
  destruct (fetchLiveData_returns axios s) as (quotes & n & Hf & Hfb).
  eexists _, n. split; [exact (healthCheck_eq _ _ _ _ Hf)|].
  split_and!.
  - by destruct (mcx_gold quotes), (mcx_silver quotes).
  - intros Hfail. rewrite (Hfb Hfail). by eexists.
  - destruct axios as [e|[[data|]|]].
    + rewrite (Hfb I). split; [done|]. by intros (data & ? & _).
    + assert (Hquotes : quotes = payload_quotes data (clock s)).
      { rewrite fetchLiveData_parsed in Hf. by injection Hf as <- _. }
      split.
      * intros Hu. exists data. split; [done|].
        rewrite <- Hquotes. unfold has_quote.
        by destruct (mcx_gold quotes), (mcx_silver quotes).
      * intros (data' & [= <-] & Hq).
        rewrite <- Hquotes in Hq. unfold has_quote in Hq.
        by destruct (mcx_gold quotes), (mcx_silver quotes).
    + rewrite (Hfb I). split; [done|]. by intros (data & ? & _).
    + rewrite (Hfb I). split; [done|]. by intros (data & ? & _).
Qed.

(** X10. [GET /api/mcx-raw] never answers 500: it always sends, with status
    200, the source name "MCX India", the time of the request and the
    quotes [fetchLiveData] returned, which are those decoded from the reply
    of the exchange or, when the request fails, the fallback quotes drawn at
    random.  The table, what was published, the base prices and the switch
    of the live source are left as they were. *)
Theorem X10_mcx_raw_route_never_answers_500 :
  ∀ (N : Type) (JN : JsNumber N) (axios : AxiosResult N) (s : Server N),
    ∃ quotes n,
      get_api_mcx_raw axios s
      = Done (RawJson "MCX India" (clock s) quotes) (set_drawn n s) ∧
      (fetch_failed axios →
       quotes = fallback_quotes (draws s) (drawn s) (clock s)) ∧
      (∀ data, axios = Resolved (Some (Some data)) →
               quotes = payload_quotes data (clock s) ∧ n = drawn s).
Proof.
  intros N JN axios s.
  destruct (fetchLiveData_returns axios s) as (quotes & n & Hf & Hfb).
  exists quotes, n. split_and!.
  - exact (get_api_mcx_raw_eq _ _ _ _ Hf).
  - exact Hfb.
  - intros data ->. rewrite fetchLiveData_parsed in Hf.
    injection Hf as <- Hs. split; [done|].
    by apply (f_equal drawn) in Hs.
Qed.

(** X11. [fetchMCXDataAlternative] returns the fallback data whatever its
    request settles to: on success [parseHTMLData] ignores the page, on
    failure the [catch] answers.  With draws in [0, 1) the fallback gold
    price lies between 104700 and 105700, within the low and high the quote
    reports, the fallback silver price between 122800 and 124800, which is
    not within the low and high the quote reports (a draw of 0 prices silver
    at 122800, below the low of 123100), and the changes in percent between
    -1 and 1 and between -1.5 and 1.5.  The upper bounds are reached in
    binary64: at the largest draw the prices are 105700 and 124800. *)
Theorem X11_alternative_fetch_is_the_fallback_data :
  (∀ (N : Type) (JN : JsNumber N) (axios : AxiosGet) (s : Server N),
     fetchMCXDataAlternative axios s
     = Done (fallback_quotes (draws s) (drawn s) (clock s))
         (set_drawn (6 + drawn s) s) ∧
     getFallbackData s = fetchMCXDataAlternative axios s) ∧
  (∀ (rnd : nat → Q) (i : nat) (now : Z),
     draws_ok rnd →
     ∃ g sv,
       mcx_gold (fallback_quotes rnd i now) = Some g ∧
       mcx_silver (fallback_quotes rnd i now) = Some sv ∧
       (104700 <= ltp g)%Q ∧ (ltp g <= 105700)%Q ∧
       (low g <= ltp g)%Q ∧ (ltp g <= high g)%Q ∧
       (122800 <= ltp sv)%Q ∧ (ltp sv <= 124800)%Q ∧
       (-1 <= changePercent g)%Q ∧ (changePercent g <= 1)%Q ∧
       (-1.5 <= changePercent sv)%Q ∧ (changePercent sv <= 1.5)%Q) ∧
  (∃ sv : Quote Q,
     mcx_silver (fallback_quotes (fun _ => 0%Q) 0 0) = Some sv ∧
     (ltp sv < low sv)%Q) ∧
  ltp <$> mcx_gold (fallback_quotes (fun _ => largest_draw) 0 0)
  = Some 105700%float ∧
  ltp <$> mcx_silver (fallback_quotes (fun _ => largest_draw) 0 0)
  = Some 124800%float ∧
  ltp <$> mcx_gold (fallback_quotes (fun _ => 0%float) 0 0)
  = Some 104700%float ∧
  ltp <$> mcx_silver (fallback_quotes (fun _ => 0%float) 0 0)
  = Some 122800%float.
Proof.
  split_and!; try (vm_compute; reflexivity).
  - intros N JN axios s. by destruct axios.
  - intros rnd i now Hd. eexists _, _. split; [reflexivity|].
    split; [reflexivity|].
    destruct (Hd i) as [? ?]. destruct (Hd (S (S i))) as [? ?].
    destruct (Hd (3 + i)%nat) as [? ?]. destruct (Hd (5 + i)%nat) as [? ?].
    cbn [ltp low high changePercent nadd nsub nmul lit Q_number].
    split_and!; lra.
  - eexists. split; [reflexivity|]. vm_compute. reflexivity.
Qed.

Lemma X11_alternative_fetch_is_the_fallback_data_witness :
  draws_ok (fun _ => 0.5%Q) ∧
  ∃ g sv,
    mcx_gold (fallback_quotes (fun _ => 0.5%Q) 0 0) = Some g ∧
    mcx_silver (fallback_quotes (fun _ => 0.5%Q) 0 0) = Some sv ∧
    (104700 <= ltp g)%Q ∧ (ltp g <= 105700)%Q ∧
    (low g <= ltp g)%Q ∧ (ltp g <= high g)%Q ∧
    (122800 <= ltp sv)%Q ∧ (ltp sv <= 124800)%Q ∧
    (-1 <= changePercent g)%Q ∧ (changePercent g <= 1)%Q ∧
    (-1.5 <= changePercent sv)%Q ∧ (changePercent sv <= 1.5)%Q.
Proof.
  assert (Hd : draws_ok (fun _ : nat => 0.5%Q))
    by (intros i; split; [unfold Qle; simpl; lia|reflexivity]).
  split; [exact Hd|].
  exact (proj1 (proj2 X11_alternative_fetch_is_the_fallback_data)
           (fun _ => 0.5%Q) 0%nat 0%Z Hd).
Defined.

(** X12. [GET /api/status] reports the switch of the live source and
    changes nothing.  If the reply of the exchange at start-up decodes to no
    quote, [initializeApp] disables the live source and, unlike the [catch]
    of [updatePricesFromMCX], sets no timer to enable it again: through the
    events that begin once start-up has completed, handled one after the
    other, it stays disabled and the route reports "Simulated Data".  A tick
    that began before start-up completed is another matter: having read the
    switch as enabled, it resumes in [updatePricesFromMCX], and if its own
    reply decodes to no quote its [catch] sets the five-minute timer, whose
    expiry enables the live source.  If the request at start-up fails
    outright, the route reports the exchange as the source, while the prices
    of the table are converted from the fallback quotes. *)
Theorem X12_status_after_a_start_without_quotes :
  ∀ (N : Type) (JN : JsNumber N) (rnd : nat → N) (t0 : Z),
    (∀ s : Server N,
       get_api_status s =
       Done {| dataSource :=
                 if useMCXData s then "MCX (Multi Commodity Exchange)"
                 else "Simulated Data";
               mcxEnabled := useMCXData s;
               lastUpdate := clock s;
               citiesCount := 20;
               apiStatus := "operational" |} s) ∧
    (∀ (data : Payload N) (tr : list (Z * @Event N)),
       has_quote (payload_quotes data t0) = false →
       let s := run tr (final (initializeApp (Resolved (Some (Some data)))
                                 (boot rnd t0))) in
       useMCXData s = false ∧ timeouts s = [] ∧
       ∃ status, get_api_status s = Done status s ∧
                 dataSource status = "Simulated Data" ∧
                 mcxEnabled status = false) ∧
    (∀ (data data' : Payload N) (t t' : Z),
       has_quote (payload_quotes data t0) = false →
       has_quote (payload_quotes data' t) = false →
       (t + 5 * 60 * 1000 <= t')%Z →
       let s0 := final (initializeApp (Resolved (Some (Some data)))
                          (boot rnd t0)) in
       ∃ s', updatePricesFromMCX (Resolved (Some (Some data')))
               (set_clock t s0) = Done tt s' ∧
             useMCXData s' = false ∧
             timeouts s' = [(t + 5 * 60 * 1000)%Z] ∧
             useMCXData (run_timeouts (set_clock t' s')) = true) ∧
    (∀ axios : AxiosResult N,
       fetch_failed axios →
       let s := final (initializeApp axios (boot rnd t0)) in
       converted_from (fallback_quotes rnd 0 t0) (currentPrices s) ∧
       ∃ status, get_api_status s = Done status s ∧
                 dataSource status = "MCX (Multi Commodity Exchange)" ∧
                 mcxEnabled status = true).
Proof.
  intros N JN rnd t0. split_and!.
  - done.
  - intros data tr Hq s.
    destruct (initializeApp_switch_no_quote data (boot rnd t0) Hq)
      as [Huse Ht].
    destruct (run_disabled tr _ Huse Ht) as [Huse' Ht'].
    fold s in Huse', Ht'. split_and!; [done|done|].
    eexists. split; [reflexivity|]. cbn. by rewrite Huse'.
  - intros data data' t t' Hq Hq' Hle s0.
    destruct (initializeApp_switch_no_quote data (boot rnd t0) Hq)
      as [_ Ht]. fold s0 in Ht. cbn [timeouts boot] in Ht.
    assert (Hpop : populated (currentPrices (set_clock t s0)) METRO_CITIES)
      by exact (proj2 (started_shape _ rnd t0)).
    destruct (updatePricesFromMCX_cooldown data' (set_clock t s0) Hpop Hq')
      as (s' & Hrun & Hw & _ & Hu & Ht').
    cbn [timeouts clock set_clock] in Ht'. rewrite Ht in Ht'.
    exists s'. split_and!; [exact Hrun|exact Hu|exact Ht'|].
    rewrite (run_timeouts_due _ (t + 5 * 60 * 1000)%Z); [done|done|].
    cbn [clock set_clock]. exact Hle.
  - intros axios Hfail s. subst s.
    rewrite (initializeApp_live axios (boot rnd t0) _ _
               (fetchLiveData_failed axios _ Hfail)
               (fallback_quotes_has_quote _ _ _)).
    split; [apply live_table_converted|].
    eexists. split; [reflexivity|]. done.
Qed.

(** Start-up on a reply that is not an array, then a tick whose reply
    quotes gold, a five-minute update and a tick whose request times out. *)
Lemma X12_status_after_a_start_without_quotes_witness :
  let tr : list (Z * @Event Q) :=
    [(10000%Z, FastTick (Resolved (Some (Some (Items [item_at "GOLD" 100000%Q])))));
     (300000%Z, MajorTick); (600000%Z, FastTick (Rejected "timeout"))] in
  let s := run tr (final (initializeApp (Resolved (Some (Some NotArray)))
                            (boot (fun _ => 0.5%Q) 0))) in
  has_quote (payload_quotes (N := Q) NotArray 0) = false ∧
  useMCXData s = false ∧ timeouts s = [] ∧
  ∃ status, get_api_status s = Done status s ∧
            dataSource status = "Simulated Data" ∧
            mcxEnabled status = false.
Proof.
  intros tr s. split; [reflexivity|].
  exact (proj1 (proj2 (X12_status_after_a_start_without_quotes
                         Q _ (fun _ => 0.5%Q) 0%Z))
           NotArray tr eq_refl).
Defined.

(** ** Trends *)

Section TrendDraw.
Local Open Scope Q_scope.

Lemma Qfloor_unique (z : Z) (x : Q) :
  inject_Z z <= x → x < inject_Z (z + 1) → Qfloor x = z.
Proof.
  intros Hlo Hhi.
  pose proof (Qfloor_le x) as Hf1. pose proof (Qlt_floor x) as Hf2.
  assert (H1 : inject_Z (Qfloor x) < inject_Z (z + 1)) by lra.
  assert (H2 : inject_Z z < inject_Z (Qfloor x + 1)) by lra.
  rewrite <- Zlt_Qlt in H1, H2. lia.
Qed.

Lemma trend_of_draw_floor (r : Q) (z : Z) :
  (0 <= z)%Z → inject_Z z <= r * 3 → r * 3 < inject_Z (z + 1) →
  trend_of_draw r = nth_error [up; down; stable] (Z.to_nat z).
Proof.
  intros Hz Hlo Hhi. unfold trend_of_draw.
  cbn [to_index Math_floor nmul lit Q_number]. unfold Q_index, Q_floor.
  rewrite (Qfloor_unique z) by done. rewrite Qfloor_Z.
  rewrite Qeq_bool_refl. cbn [andb].
  by destruct (Z.leb_spec 0 z); [|lia].
Qed.

Lemma trend_of_draw_thirds (r : Q) :
  0 <= r → r < 1 →
  ∃ t, trend_of_draw r = Some t ∧
       (r <= 0.333 → t = up) ∧
       (0.334 <= r → r <= 0.666 → t = down) ∧
       (0.667 <= r → t = stable).
Proof.
  intros Hr0 Hr1.
  destruct (Qlt_le_dec r (1 # 3)) as [H1|H1];
    [|destruct (Qlt_le_dec r (2 # 3)) as [H2|H2]].
  - exists up. rewrite (trend_of_draw_floor r 0); [|lia| |].
    + split_and!; [done|done|intros; lra|intros; lra].
    + change (inject_Z 0) with 0. lra.
    + change (inject_Z (0 + 1)) with 1. lra.
  - exists down. rewrite (trend_of_draw_floor r 1); [|lia| |].
    + split_and!; [done|intros; lra|done|intros; lra].
    + change (inject_Z 1) with 1. lra.
    + change (inject_Z (1 + 1)) with 2. lra.
  - exists stable. rewrite (trend_of_draw_floor r 2); [|lia| |].
    + split_and!; [done|intros; lra|intros; lra|done].
    + change (inject_Z 2) with 2. lra.
    + change (inject_Z (2 + 1)) with 3. lra.
Qed.
End TrendDraw.

(** X13. With its draw [r] in [0, 1), [getRandomTrend] returns a trend that
    is defined, never [undefined]: 'up' for [r] up to 0.333, 'down' from
    0.334 to 0.666 and 'stable' from 0.667 on; it takes that one draw and
    changes nothing else.  Where exactly a trend gives way to the next
    depends on the rounding of [r * 3]: in binary64 the largest double below
    one third already gives 'down', and the largest draw gives 'stable'.  A
    draw of 1, which [Math.random()] does not return, would index past the
    three names and give [undefined]. *)
Theorem X13_getRandomTrend_returns_a_trend :
  ∀ s : Server Q,
    draws_ok (draws s) →
    let r := draws s (drawn s) in
    (∃ t, getRandomTrend s = Done (Some t) (set_drawn (S (drawn s)) s) ∧
          ((r <= 0.333)%Q → t = up) ∧
          ((0.334 <= r)%Q → (r <= 0.666)%Q → t = down) ∧
          ((0.667 <= r)%Q → t = stable)) ∧
    trend_of_draw below_one_third = Some down ∧
    trend_of_draw largest_draw = Some stable ∧
    trend_of_draw 1%Q = None ∧ trend_of_draw 1%float = None.
Proof.
  intros s Hd r. destruct (Hd (drawn s)) as [Hr0 Hr1].
  split; [|split_and!; vm_compute; reflexivity].
  change (getRandomTrend s)
    with (Done (S := Server Q) (trend_of_draw r) (set_drawn (S (drawn s)) s)).
  destruct (trend_of_draw_thirds r Hr0 Hr1) as (t & -> & Ht).
  by exists t.
Qed.

Lemma X13_getRandomTrend_returns_a_trend_witness :
  let s : Server Q := boot (fun _ => 0.5%Q) 0 in
  draws_ok (draws s) ∧
  ∃ t, getRandomTrend s = Done (Some t) (set_drawn 1 s) ∧
       ((0.5 <= 0.333)%Q → t = up) ∧
       ((0.334 <= 0.5)%Q → (0.5 <= 0.666)%Q → t = down) ∧
       ((0.667 <= 0.5)%Q → t = stable).
Proof.
  intros s.
  assert (Hd : draws_ok (draws s))
    by (intros i; split; [unfold Qle; simpl; lia|reflexivity]).
  split; [exact Hd|].
  exact (proj1 (X13_getRandomTrend_returns_a_trend s Hd)).
Defined.

Section LiveTrend.
Context {N : Type} `{JsNumber N}.

Lemma trend_of_gold (t : Trend) : trend_of t "gold" = tgold t.
Proof. reflexivity. Qed.

Lemma trend_of_silver (t : Trend) : trend_of t "silver" = tsilver t.
Proof. reflexivity. Qed.

Lemma votes_cons metalType t (b : Bundle N) l :
  votes metalType t (b :: l) =
  ((match trend_of (trend b) metalType, t with
    | Some up, up | Some down, down | Some stable, stable => 1
    | _, _ => 0
    end) + votes metalType t l)%nat.
Proof.
  unfold votes. cbn [List.filter].
  by destruct (trend_of (trend b) metalType) as [[]|], t.
Qed.

Lemma count_trend_votes metalType (l : list (Bundle N)) u d :
  fold_left (count_trend metalType) l (u, d) =
  ((u + votes metalType up l)%nat, (d + votes metalType down l)%nat).
Proof.
  revert u d. induction l as [|b l IH]; intros u d.
  - unfold votes. cbn. f_equal; lia.
  - cbn [fold_left]. rewrite !votes_cons. unfold count_trend at 2.
    destruct (trend_of (trend b) metalType) as [[]|]; cbn [fst snd];
      rewrite IH; f_equal; lia.
Qed.

Lemma calculateOverallTrend_votes metalType (a : App N) :
  let l := (map_to_list (allPrices a)).*2 in
  calculateOverallTrend metalType a =
  if (votes metalType down l <? votes metalType up l)%nat then up
  else if (votes metalType up l <? votes metalType down l)%nat then down
  else stable.
Proof.
  cbn zeta. unfold calculateOverallTrend. cbn zeta.
  by rewrite count_trend_votes.
Qed.

Lemma votes_all metalType t t' (l : list (Bundle N)) :
  Forall (fun b => trend_of (trend b) metalType = Some t) l →
  votes metalType t' l =
  match t, t' with
  | up, up | down, down | stable, stable => length l
  | _, _ => 0%nat
  end.
Proof.
  induction 1 as [|b l Hb _ IH]; [by destruct t, t'|].
  rewrite votes_cons, IH, Hb. cbn [length].
  by destruct t, t'.
Qed.

Lemma live_table_values (d : McxData N) now :
  Forall (fun b => ∃ c, b = live_bundle d now c)
    (map_to_list (live_table d now)).*2.
Proof.
  apply Forall_forall. intros b Hb.
  apply list_elem_of_fmap in Hb as ([k b'] & -> & Hkb).
  apply elem_of_map_to_list in Hkb.
  apply table_of_inv in Hkb as [(c & _ & _ & ->)|Hk];
    [by exists c|by rewrite lookup_empty in Hk].
Qed.
End LiveTrend.

(** X15. [calculateOverallTrend] is a vote between the cities whose trend
    is 'up' and those whose trend is 'down': 'up' when the former are more,
    'down' when the latter are more, 'stable' on a tie, which includes the
    empty table; cities whose trend is 'stable' or missing do not vote.  On
    a table received from the live path, where every city carries the trend
    of the quote, the overall trend shown is that trend. *)
Theorem X15_overall_trend_is_a_majority_vote :
  ∀ (N : Type) (JN : JsNumber N) (a : App N) (metalType : string),
    let l := (map_to_list (allPrices a)).*2 in
    (calculateOverallTrend metalType a =
     if (votes metalType down l <? votes metalType up l)%nat then up
     else if (votes metalType up l <? votes metalType down l)%nat then down
     else stable) ∧
    (allPrices a = ∅ → calculateOverallTrend metalType a = stable) ∧
    (∀ (quotes : McxData N) (now : Z),
       allPrices a = live_table quotes now →
       calculateOverallTrend "gold" a
       = getTrend (changePercent_or_0 (mcx_gold quotes)) ∧
       calculateOverallTrend "silver" a
       = getTrend (changePercent_or_0 (mcx_silver quotes))).
Proof.
  intros N JN a metalType l. split_and!.
  - apply calculateOverallTrend_votes.
  - intros He. unfold calculateOverallTrend. by rewrite He.
  - intros quotes now Ha.
    assert (Hlen : length (map_to_list (allPrices a)).*2 = 20%nat).
    { rewrite length_fmap, length_map_to_list, Ha.
      apply table_shape_size, live_table_shape. }
    pose proof (live_table_values quotes now) as Hv. rewrite <- Ha in Hv.
    split.
    + rewrite calculateOverallTrend_votes. cbn zeta.
      rewrite !(votes_all "gold"
                  (getTrend (changePercent_or_0 (mcx_gold quotes))));
        [|eapply Forall_impl; [exact Hv|]; by intros b [c ->]..].
      rewrite Hlen. by destruct (getTrend _).
    + rewrite calculateOverallTrend_votes. cbn zeta.
      rewrite !(votes_all "silver"
                  (getTrend (changePercent_or_0 (mcx_silver quotes))));
        [|eapply Forall_impl; [exact Hv|]; by intros b [c ->]..].
      rewrite Hlen. by destruct (getTrend _).
Qed.

Lemma X15_overall_trend_is_a_majority_vote_witness :
  let quotes : McxData Q :=
    {| mcx_gold :=
         Some {| symbol := "GOLD"; ltp := 100000%Q; change := 500%Q;
                 changePercent := 0.5%Q; high := 100000%Q; low := 100000%Q;
                 open := 100000%Q; close := 100000%Q; volume := 0%Q;
                 timestamp := 0 |};
       mcx_silver := None |} in
  let a : App Q := set_allPrices (live_table quotes 0) new_App in
  allPrices a = live_table quotes 0 ∧
  calculateOverallTrend "gold" a = up ∧
  calculateOverallTrend "silver" a = stable.
Proof.
  intros quotes a. split; [reflexivity|].
  exact (proj2 (proj2 (X15_overall_trend_is_a_majority_vote Q _ a "gold"))
           quotes 0%Z eq_refl).
Defined.

(** ** The order of the cards *)

Section Sorting.
Context {A : Type} (cmp : A → A → Z).

Lemma insert_by_perm x (l : list A) : insert_by cmp x l ≡ₚ x :: l.
Proof.
  induction l as [|y l IH]; [done|]. cbn.
  destruct (cmp x y <=? 0)%Z; [done|].
  rewrite IH. apply Permutation_swap.
Qed.

Lemma sort_by_perm (l : list A) : sort_by cmp l ≡ₚ l.
Proof.
  induction l as [|x l IH]; [done|].
  cbn. fold (sort_by cmp l). by rewrite insert_by_perm, IH.
Qed.

Lemma head_insert_by x (l : list A) :
  head (insert_by cmp x l) = Some x ∨
  (head (insert_by cmp x l) = head l ∧
   ∃ y, head l = Some y ∧ ¬ (cmp x y <= 0)%Z).
Proof.
  destruct l as [|y l]; [by left|]. cbn.
  destruct (Z.leb_spec (cmp x y) 0); [by left|].
  right. split; [done|]. exists y. split; [done|lia].
Qed.

Lemma insert_by_ordered x (l : list A) :
  (∀ a b, (cmp a b <= 0)%Z ∨ (cmp b a <= 0)%Z) →
  ordered_by cmp l → ordered_by cmp (insert_by cmp x l).
Proof.
  intros Htot. induction l as [|y l IH]; intros Hl; [done|].
  cbn [insert_by]. destruct (Z.leb_spec (cmp x y) 0) as [Hle|Hgt].
  - split; [|done]. intros z [= <-]. done.
  - destruct Hl as [Hy Hl]. split; [|by apply IH].
    intros z Hz.
    destruct (head_insert_by x l) as [Hx|[Hh _]].
    + rewrite Hx in Hz. injection Hz as <-.
      destruct (Htot x y); [lia|done].
    + rewrite Hh in Hz. by apply Hy.
Qed.

Lemma sort_by_ordered (l : list A) :
  (∀ a b, (cmp a b <= 0)%Z ∨ (cmp b a <= 0)%Z) →
  ordered_by cmp (sort_by cmp l).
Proof.
  intros Htot. induction l as [|x l IH]; [done|].
  cbn. fold (sort_by cmp l). by apply insert_by_ordered.
Qed.
End Sorting.

Lemma ordered_by_fmap {A B} (f : A → B) (cmp : B → B → Z) (l : list A) :
  ordered_by (fun x y => cmp (f x) (f y)) l → ordered_by cmp (f <$> l).
Proof.
  induction l as [|x l IH]; [done|]. intros [Hx Hl]. split; [|by apply IH].
  intros y Hy. destruct l as [|z l]; [done|].
  cbn in Hy. injection Hy as <-. by apply Hx.
Qed.

Section GridOrder.
Context {N : Type} `{JsNumber N}.
Variable localeCompare : string → string → Z.

Lemma renderPriceGrid_dataToRender m (a : App N) :
  priceGrid (renderPriceGrid localeCompare m a) =
  if decide (dataToRender a = ∅)
  then GridMessage "No cities found matching your criteria."
  else GridCards
         (map (createCityCard a m)
            (sort_by
               (fun x y : Bundle N =>
                  localeCompare (cname (cityInfo x)) (cname (cityInfo y)))
               (map_to_list (dataToRender a)).*2)).
Proof. apply renderPriceGrid_grid. Qed.

Lemma card_city_cards m (a : App N) (l : list (Bundle N)) :
  card_city <$> map (createCityCard a m) l = cityInfo <$> l.
Proof. induction l as [|b l IH]; [done|]. cbn. by rewrite <- IH. Qed.

Lemma total_order_by_name :
  total_order localeCompare →
  ∀ x y : Bundle N,
    (localeCompare (cname (cityInfo x)) (cname (cityInfo y)) <= 0)%Z ∨
    (localeCompare (cname (cityInfo y)) (cname (cityInfo x)) <= 0)%Z.
Proof. intros Htot x y. apply Htot. Qed.
End GridOrder.

(** X16. [renderPriceGrid] shows the message when the table it renders
    (the filtered view if it has an entry, else the whole table) is empty;
    otherwise it shows exactly one card for each entry of that table, and,
    when [localeCompare] is a total order, no card comes after the next one
    in the order of the city names.  In the same way the handler of
    ['initialData'] leaves in [cities], the list the city filter is filled
    from, the cities received, reordered by name. *)
Theorem X16_cards_are_the_entries_sorted_by_name :
  ∀ (N : Type) (JN : JsNumber N) (localeCompare : string → string → Z)
    (a : App N),
    (∀ metalFilter,
       let a' := renderPriceGrid localeCompare metalFilter a in
       (dataToRender a = ∅ →
        priceGrid a' = GridMessage "No cities found matching your criteria.") ∧
       (dataToRender a ≠ ∅ →
        ∃ cards,
          priceGrid a' = GridCards cards ∧
          card_city <$> cards ≡ₚ cityInfo <$> (map_to_list (dataToRender a)).*2 ∧
          (total_order localeCompare →
           ordered_by (by_name localeCompare) (card_city <$> cards)))) ∧
    (∀ received table,
       let a' := on_initialData localeCompare received table a in
       cities a' ≡ₚ received ∧
       (total_order localeCompare →
        ordered_by (by_name localeCompare) (cities a'))).
Proof.
  intros N JN lc a. split.
  - intros m a'. subst a'. rewrite renderPriceGrid_dataToRender. split.
    + intros He. by rewrite decide_True.
    + intros Hne. rewrite decide_False by done.
      eexists. split; [reflexivity|]. rewrite card_city_cards. split.
      * by rewrite sort_by_perm.
      * intros Htot. apply ordered_by_fmap.
        apply (sort_by_ordered
                 (fun x y : Bundle N =>
                    lc (cname (cityInfo x)) (cname (cityInfo y)))).
        by apply total_order_by_name.
  - intros received table a'.
    assert (Hc : cities a' =
                 sort_by (fun x y => lc (cname x) (cname y)) received).
    { subst a'. unfold on_initialData, renderPriceGrid.
      by repeat case_match. }
    rewrite Hc. split; [apply sort_by_perm|].
    intros Htot. apply (sort_by_ordered (by_name lc)).
    intros x y. apply Htot.
Qed.

Lemma X16_cards_are_the_entries_sorted_by_name_witness :
  let a : App Q :=
    set_allPrices
      {[ "mumbai" := bundle_at mumbai 107610%Q 126480%Q;
         "pune" := bundle_at {| cid := "pune"; cname := "Pune";
                                cstate := "Maharashtra" |}
                     107400%Q 126230%Q ]} new_App in
  (dataToRender a ≠ ∅ ∧ total_order by_length) ∧
  ∃ cards,
    priceGrid (renderPriceGrid by_length "" a) = GridCards cards ∧
    card_city <$> cards ≡ₚ cityInfo <$> (map_to_list (dataToRender a)).*2 ∧
    ordered_by (by_name by_length) (card_city <$> cards).
Proof.
  intros a.
  assert (Hne : dataToRender a ≠ ∅).
  { unfold dataToRender. rewrite decide_True by reflexivity.
    apply insert_non_empty. }
  assert (Htot : total_order by_length)
    by (intros x y; unfold by_length; lia).
  split; [done|].
  destruct (proj2 (proj1 (X16_cards_are_the_entries_sorted_by_name
                            Q _ by_length a) "") Hne)
    as (cards & Hg & Hp & Ho).
  exists cards. split_and!; [exact Hg|exact Hp|exact (Ho Htot)].
Defined.

(** ** What a card shows *)

Section Cards.
Context {N : Type} `{JsNumber N}.
Variable localeCompare : string → string → Z.

Lemma elem_of_grid_cards m (a : App N) card :
  card ∈ grid_cards (priceGrid (renderPriceGrid localeCompare m a)) →
  ∃ k b, dataToRender a !! k = Some b ∧ card = createCityCard a m b.
Proof.
  rewrite renderPriceGrid_dataToRender.
  destruct (decide (dataToRender a = ∅)) as [He|Hne]; cbn [grid_cards].
  - intros Hc. by apply elem_of_nil in Hc.
  - intros Hc. apply list_elem_of_fmap in Hc as (b & -> & Hb).
    rewrite sort_by_perm in Hb.
    apply list_elem_of_fmap in Hb as ([k b'] & -> & Hkb).
    apply elem_of_map_to_list in Hkb. by exists k, b'.
Qed.

Lemma length_grid_cards m (a : App N) :
  length (grid_cards (priceGrid (renderPriceGrid localeCompare m a)))
  = size (dataToRender a).
Proof.
  rewrite renderPriceGrid_dataToRender.
  destruct (decide (dataToRender a = ∅)) as [He|Hne]; cbn [grid_cards].
  - by rewrite He, map_size_empty.
  - by rewrite length_map, length_sort_by, length_fmap, length_map_to_list.
Qed.

Lemma createCityCard_previous (a a' : App N) m b :
  previousPrices a = previousPrices a' →
  createCityCard a m b = createCityCard a' m b.
Proof. intros Hp. unfold createCityCard. by rewrite Hp. Qed.

Lemma renderPriceGrid_previous m (a a' : App N) :
  previousPrices a = previousPrices a' → dataToRender a = dataToRender a' →
  priceGrid (renderPriceGrid localeCompare m a)
  = priceGrid (renderPriceGrid localeCompare m a').
Proof.
  intros Hp Hd. rewrite !renderPriceGrid_dataToRender, Hd.
  case_decide; [done|]. f_equal. apply map_ext. intros b.
  by apply createCityCard_previous.
Qed.

Lemma section_shown (m metalType : string) :
  nonempty m && negb (String.eqb m metalType) = false ↔
  m = "" ∨ m = metalType.
Proof.
  destruct m as [|ch m]; cbn [nonempty andb].
  - split; [by left|done].
  - rewrite negb_false_iff, String.eqb_eq.
    split; [by right|]. by intros [|].
Qed.

Lemma is_Some_if {A} (c : bool) (x : A) :
  is_Some (if c then None else Some x) ↔ c = false.
Proof. destruct c; split; [intros [? [=]]|discriminate|done|by eexists]. Qed.

Lemma sections_of_card m (a : App N) b :
  (is_Some (card_gold (createCityCard a m b)) ↔ m = "" ∨ m = "gold") ∧
  (is_Some (card_silver (createCityCard a m b)) ↔ m = "" ∨ m = "silver") ∧
  (∀ rows, card_gold (createCityCard a m b) = Some rows →
           row_purity <$> rows = ["24k"; "22k"; "18k"] ∧
           row_price <$> rows = [k24 (gold b); k22 (gold b); k18 (gold b)]) ∧
  (∀ rows, card_silver (createCityCard a m b) = Some rows →
           row_purity <$> rows = ["925"; "999"] ∧
           row_price <$> rows = [s925 (silver b); s999 (silver b)]).
Proof.
  unfold createCityCard. cbn [card_gold card_silver].
  unfold renderGoldSection, renderSilverSection. split_and!.
  - rewrite is_Some_if. apply section_shown.
  - rewrite is_Some_if. apply section_shown.
  - intros rows Hr. destruct (nonempty m && _); [discriminate|].
    by injection Hr as <-.
  - intros rows Hr. destruct (nonempty m && _); [discriminate|].
    by injection Hr as <-.
Qed.
End Cards.

Section Neutral.
Variable localeCompare : string → string → Z.

Lemma price_row_unchanged purity (p : Q) :
  (row_change (price_row purity p (Some p)) == 0)%Q ∧
  changeClass (row_change (price_row purity p (Some p))) = "neutral".
Proof.
  unfold price_row. cbn [row_change].
  assert (E : (if truthy p then p else p) = p) by by destruct (truthy p).
  rewrite E. split; [cbn; ring|].
  unfold changeClass. cbn [nlt nsub lit Q_number]. unfold Q_lt.
  assert (H1 : Qle_bool (p - p) 0 = true) by (apply Qle_bool_iff; lra).
  assert (H2 : Qle_bool 0 (p - p) = true) by (apply Qle_bool_iff; lra).
  by rewrite H1, H2.
Qed.

Lemma card_unchanged (a : App Q) b :
  previousPrices a !! cid (cityInfo b) = Some b →
  length (card_rows (createCityCard a "" b)) = 5%nat ∧
  ∀ row, row ∈ card_rows (createCityCard a "" b) →
         (row_change row == 0)%Q ∧ changeClass (row_change row) = "neutral".
Proof.
  intros Hp. unfold createCityCard, card_rows. rewrite Hp.
  cbn [card_gold card_silver fmap option_fmap option_map
       renderGoldSection renderSilverSection nonempty andb default app
       length].
  split; [done|]. intros row Hrow.
  repeat (apply elem_of_cons in Hrow as [->|Hrow];
          [apply price_row_unchanged|]).
  by apply elem_of_nil in Hrow.
Qed.
End Neutral.

(** X17. The first render (exact arithmetic).  The handler of
    ['initialData'], on an application whose filtered view is empty and for
    a table keyed by the identifiers of its cities, shows one card for each
    entry of the table, with the three gold rows and the two silver rows,
    and every row is neutral: the previous prices are a copy of the prices
    received, so each change is 0. *)
Theorem X17_first_render_shows_no_change :
  ∀ (localeCompare : string → string → Z) (a : App Q) (received : list City)
    (table : gmap string (Bundle Q)),
    filteredData a = ∅ →
    (∀ k b, table !! k = Some b → cid (cityInfo b) = k) →
    let a' := on_initialData localeCompare received table a in
    length (grid_cards (priceGrid a')) = size table ∧
    ∀ card, card ∈ grid_cards (priceGrid a') →
      length (card_rows card) = 5%nat ∧
      ∀ row, row ∈ card_rows card →
        (row_change row == 0)%Q ∧ changeClass (row_change row) = "neutral".
Proof.
  intros lc a received table Hf Hkey a'. subst a'. unfold on_initialData.
  match goal with
  | |- context [renderPriceGrid lc "" ?x] => set (a1 := x)
  end.
  assert (Hd : dataToRender a1 = table).
  { unfold dataToRender. subst a1. cbn [filteredData allPrices set_cities
      set_previousPrices set_allPrices]. by rewrite Hf, decide_True. }
  split.
  - by rewrite length_grid_cards, Hd.
  - intros card Hcard.
    apply elem_of_grid_cards in Hcard as (k & b & Hb & ->).
    rewrite Hd in Hb. apply card_unchanged.
    subst a1. cbn [previousPrices set_cities set_previousPrices
      set_allPrices]. unfold deep_copy. by rewrite (Hkey _ _ Hb).
Qed.

Lemma X17_first_render_shows_no_change_witness :
  let table : gmap string (Bundle Q) :=
    {[ "mumbai" := bundle_at mumbai 107610%Q 126480%Q ]} in
  let a' := on_initialData (fun _ _ => 0%Z) [mumbai] table new_App in
  (filteredData (new_App (N := Q)) = ∅ ∧
   ∀ k b, table !! k = Some b → cid (cityInfo b) = k) ∧
  length (grid_cards (priceGrid a')) = size table ∧
  ∀ card, card ∈ grid_cards (priceGrid a') →
    length (card_rows card) = 5%nat ∧
    ∀ row, row ∈ card_rows card →
      (row_change row == 0)%Q ∧ changeClass (row_change row) = "neutral".
Proof.
  intros table a'.
  assert (Hkey : ∀ k b, table !! k = Some b → cid (cityInfo b) = k).
  { intros k b Hk. apply lookup_singleton_Some in Hk as [<- <-]. done. }
  split; [split; [reflexivity|exact Hkey]|].
  exact (X17_first_render_shows_no_change (fun _ _ => 0%Z) new_App [mumbai]
           table eq_refl Hkey).
Defined.

(** X18. Once a filter that matches some city has been applied, a later
    snapshot is stored and charted but not shown: [handlePriceUpdate] renders
    the filtered view, which [applyFilters] alone recomputes, so the grid
    shows one card for each city that passed the filter, built from the
    bundle that city had when the filter was applied and compared with that
    same table, with both metal sections whatever the metal filter says; the
    grid is the same whatever the snapshot holds. *)
Theorem X18_filtered_grid_ignores_later_snapshots :
  ∀ (N : Type) (JN : JsNumber N) (localeCompare : string → string → Z)
    (a : App N) (cityFilter metalFilter searchInput timeLabel : string)
    (newPrices : gmap string (Bundle N)),
    let a1 := applyFilters localeCompare cityFilter metalFilter searchInput a in
    let a2 := handlePriceUpdate localeCompare newPrices timeLabel a1 in
    filteredData a1 ≠ ∅ →
    allPrices a2 = newPrices ∧ filteredData a2 = filteredData a1 ∧
    length (grid_cards (priceGrid a2)) = size (filteredData a1) ∧
    (∀ card, card ∈ grid_cards (priceGrid a2) →
       ∃ k b, allPrices a !! k = Some b ∧
              passes cityFilter (toLowerCase searchInput) k b = true ∧
              card = createCityCard (set_previousPrices (allPrices a) a) "" b) ∧
    (∀ newPrices',
       priceGrid (handlePriceUpdate localeCompare newPrices' timeLabel a1)
       = priceGrid a2).
Proof.
  intros N JN lc a c m q t newPrices a1 a2 Hne.
  assert (Hall : allPrices a1 = allPrices a).
  { subst a1. unfold applyFilters.
    match goal with
    | |- context [renderPriceGrid lc ?m ?x] =>
        by destruct (renderPriceGrid_frame lc m x) as (-> & _)
    end. }
  assert (Hgrid : ∀ np,
            priceGrid (handlePriceUpdate lc np t a1) =
            priceGrid (renderPriceGrid lc ""
                         (set_previousPrices (allPrices a) a1))).
  { intros np. unfold handlePriceUpdate.
    change (priceGrid (checkSignificantChanges ?x)) with (priceGrid x).
    apply renderPriceGrid_previous.
    - destruct (updateChartData_frame t
                  (set_allPrices np
                     (set_previousPrices (deep_copy (allPrices a1)) a1)))
        as (_ & -> & _). cbn. by rewrite Hall.
    - unfold dataToRender.
      destruct (updateChartData_frame t
                  (set_allPrices np
                     (set_previousPrices (deep_copy (allPrices a1)) a1)))
        as (_ & _ & -> & _). cbn [filteredData set_allPrices
        set_previousPrices]. by rewrite !decide_False by done. }
  assert (Hd : dataToRender (set_previousPrices (allPrices a) a1)
               = filteredData a1).
  { unfold dataToRender. cbn [filteredData set_previousPrices].
    by rewrite decide_False. }
  split_and!.
  - apply (handlePriceUpdate_snapshots lc newPrices t a1).
  - apply handlePriceUpdate_filteredData.
  - subst a2. by rewrite Hgrid, length_grid_cards, Hd.
  - intros card Hcard. subst a2. rewrite Hgrid in Hcard.
    apply elem_of_grid_cards in Hcard as (k & b & Hb & ->).
    rewrite Hd in Hb. apply applyFilters_lookup in Hb as [Hb Hpass].
    exists k, b. split_and!; [done|done|].
    by apply createCityCard_previous.
  - intros np. subst a2. by rewrite !Hgrid.
Qed.

Lemma X18_filtered_grid_ignores_later_snapshots_witness :
  let a : App Q :=
    set_allPrices {[ "mumbai" := bundle_at mumbai 107610%Q 126480%Q ]}
      new_App in
  let a1 := applyFilters (fun _ _ => 0%Z) "mumbai" "gold" "" a in
  filteredData a1 ≠ ∅ ∧
  ∀ newPrices',
    priceGrid (handlePriceUpdate (fun _ _ => 0%Z) newPrices' "10:00:10" a1)
    = priceGrid
        (handlePriceUpdate (fun _ _ => 0%Z)
           {[ "mumbai" := bundle_at mumbai 108500%Q 126480%Q ]}
           "10:00:10" a1).
Proof.
  intros a a1.
  assert (Hne : filteredData a1 ≠ ∅).
  { subst a1 a. rewrite applyFilters_filteredData.
    cbn [allPrices set_allPrices].
    rewrite map_filter_singleton_True by reflexivity.
    apply insert_non_empty. }
  split; [exact Hne|].
  exact (proj2 (proj2 (proj2 (proj2
    (X18_filtered_grid_ignores_later_snapshots Q _ (fun _ _ => 0%Z) a
       "mumbai" "gold" "" "10:00:10"
       {[ "mumbai" := bundle_at mumbai 108500%Q 126480%Q ]} Hne))))).
Defined.

(** ** Filters *)

Section FilterFacts.
Context {N : Type} `{JsNumber N}.
Variable localeCompare : string → string → Z.

Lemma passes_no_filter k (b : Bundle N) : passes "" "" k b = true.
Proof. reflexivity. Qed.

Lemma passes_city c q k (b : Bundle N) :
  c ≠ "" → passes c q k b = true → k = c.
Proof.
  intros Hc. unfold passes. destruct c as [|ch c]; [done|].
  cbn [nonempty andb]. intros Hp. apply andb_true_iff in Hp as [Hp _].
  apply negb_true_iff, negb_false_iff in Hp. by apply String.eqb_eq.
Qed.

Lemma size_at_most_one (m : gmap string (Bundle N)) c :
  (∀ k b, m !! k = Some b → k = c) → (size m ≤ 1)%nat.
Proof.
  intros Hm. destruct (m !! c) as [b|] eqn:Hc.
  - assert (E : m = {[c := b]}).
    { apply map_eq. intros k. destruct (decide (k = c)) as [->|Hk].
      - by rewrite lookup_singleton_eq.
      - rewrite lookup_singleton_ne by done.
        destruct (m !! k) as [b'|] eqn:Hk'; [|done].
        by apply Hm in Hk'. }
    by rewrite E, map_size_singleton.
  - assert (E : m = ∅).
    { apply map_empty. intros k. destruct (m !! k) as [b'|] eqn:Hk'; [|done].
      pose proof (Hm _ _ Hk') as ->. congruence. }
    rewrite E, map_size_empty. lia.
Qed.

Lemma applyFilters_allPrices c m q (a : App N) :
  allPrices (applyFilters localeCompare c m q a) = allPrices a.
Proof.
  unfold applyFilters.
  match goal with
  | |- context [renderPriceGrid localeCompare ?m ?x] =>
      by destruct (renderPriceGrid_frame localeCompare m x) as (-> & _)
  end.
Qed.

Lemma applyFilters_card c m q (a : App N) card :
  card ∈ grid_cards (priceGrid (applyFilters localeCompare c m q a)) →
  ∃ b a1, card = createCityCard a1 m b.
Proof.
  unfold applyFilters. intros Hcard.
  apply elem_of_grid_cards in Hcard as (k & b & _ & ->). by eexists _, _.
Qed.
End FilterFacts.

(** X19. [applyFilters] never changes the table.  With no city selected and
    an empty search text every entry is kept.  With a city selected the
    filtered view holds at most one entry, under the identifier selected.
    The metal filter removes no card: in every card shown the gold section
    is present exactly when the filter is empty or 'gold', with the rows
    24k, 22k, 18k, and the silver section exactly when it is empty or
    'silver', with the rows 925, 999. *)
Theorem X19_what_the_three_filters_select :
  ∀ (N : Type) (JN : JsNumber N) (localeCompare : string → string → Z)
    (a : App N) (cityFilter metalFilter searchInput : string),
    let a' := applyFilters localeCompare cityFilter metalFilter searchInput a in
    allPrices a' = allPrices a ∧
    (cityFilter = "" → searchInput = "" → filteredData a' = allPrices a) ∧
    (cityFilter ≠ "" →
     (∀ k b, filteredData a' !! k = Some b → k = cityFilter) ∧
     (size (filteredData a') ≤ 1)%nat) ∧
    (∀ card, card ∈ grid_cards (priceGrid a') →
       (is_Some (card_gold card) ↔ metalFilter = "" ∨ metalFilter = "gold") ∧
       (is_Some (card_silver card)
        ↔ metalFilter = "" ∨ metalFilter = "silver") ∧
       (∀ rows, card_gold card = Some rows →
                row_purity <$> rows = ["24k"; "22k"; "18k"]) ∧
       (∀ rows, card_silver card = Some rows →
                row_purity <$> rows = ["925"; "999"])).
Proof.
  intros N JN lc a c m q a'. subst a'. split_and!.
  - apply applyFilters_allPrices.
  - intros -> ->. rewrite applyFilters_filteredData.
    apply map_filter_id. intros k b _. reflexivity.
  - intros Hc.
    assert (Hk : ∀ k b,
              filteredData (applyFilters lc c m q a) !! k = Some b → k = c).
    { intros k b Hb. apply applyFilters_lookup in Hb as [_ Hp].
      by eapply passes_city. }
    split; [exact Hk|]. by eapply size_at_most_one.
  - intros card Hcard.
    apply applyFilters_card in Hcard as (b & a1 & ->).
    destruct (sections_of_card m a1 b) as (Hg & Hs & Hgr & Hsr).
    split_and!; [exact Hg|exact Hs| |].
    + intros rows Hr. by destruct (Hgr rows Hr).
    + intros rows Hr. by destruct (Hsr rows Hr).
Qed.

Lemma X19_what_the_three_filters_select_witness :
  let a : App Q :=
    set_allPrices
      {[ "mumbai" := bundle_at mumbai 107610%Q 126480%Q;
         "pune" := bundle_at {| cid := "pune"; cname := "Pune";
                                cstate := "Maharashtra" |}
                     107400%Q 126230%Q ]} new_App in
  let a' := applyFilters (fun _ _ => 0%Z) "pune" "silver" "maha" a in
  "pune" ≠ "" ∧
  (∀ k b, filteredData a' !! k = Some b → k = "pune") ∧
  (size (filteredData a') ≤ 1)%nat.
Proof.
  intros a a'.
  assert (Hc : "pune" ≠ "") by discriminate.
  split; [exact Hc|].
  exact (proj1 (proj2 (proj2
           (X19_what_the_three_filters_select Q _ (fun _ _ => 0%Z) a
              "pune" "silver" "maha"))) Hc).
Defined.

(** ** Toasts *)

Section ToastFacts.
Context {N : Type} `{JsNumber N}.

Lemma cityToasts_length (current previous : Bundle N) :
  (length (cityToasts current previous) ≤ 2)%nat ∧
  Forall (fun toast => toast_type toast = "info")
    (cityToasts current previous).
Proof.
  unfold cityToasts.
  destruct (significant (k24 _) _), (significant (s999 _) _); cbn;
    split; try lia; by repeat constructor.
Qed.

Lemma flat_map_bound {A B} (f : A → list B) (P : B → Prop) n (l : list A) :
  (∀ x, (length (f x) ≤ n)%nat ∧ Forall P (f x)) →
  (length (flat_map f l) ≤ n * length l)%nat ∧ Forall P (flat_map f l).
Proof.
  intros Hf. induction l as [|x l [IHl IHP]]; [cbn; split; [lia|done]|].
  cbn [flat_map]. destruct (Hf x) as [Hx HPx].
  rewrite length_app. cbn [length]. split; [lia|].
  by apply Forall_app.
Qed.
End ToastFacts.

(** X20. A snapshot adds at most two toasts for each of its cities, all of
    type 'info', after those already shown.  In exact arithmetic a snapshot
    equal to the table already held adds none. *)
Theorem X20_toasts_added_by_a_snapshot :
  (∀ (N : Type) (JN : JsNumber N) (localeCompare : string → string → Z)
     (a : App N) (newPrices : gmap string (Bundle N)) (timeLabel : string),
     ∃ added,
       toasts (handlePriceUpdate localeCompare newPrices timeLabel a)
       = toasts a ++ added ∧
       (length added ≤ 2 * size newPrices)%nat ∧
       Forall (fun toast => toast_type toast = "info") added) ∧
  (∀ (localeCompare : string → string → Z) (a : App Q) (timeLabel : string),
     toasts (handlePriceUpdate localeCompare (allPrices a) timeLabel a)
     = toasts a).
Proof.
  split.
  - intros N JN lc a newPrices t. eexists.
    split; [apply handlePriceUpdate_toasts|].
    rewrite <- (length_map_to_list newPrices).
    apply flat_map_bound. intros [k cur]. cbn [fst snd].
    destruct (allPrices a !! k) as [prev|]; [apply cityToasts_length|].
    cbn. split; [lia|done].
  - intros lc a t. rewrite handlePriceUpdate_toasts, flat_map_nil;
      [by rewrite app_nil_r|].
    intros [k cur] Hk. apply elem_of_map_to_list in Hk. cbn [fst snd].
    rewrite Hk. apply cityToasts_same.
Qed.

(** ** The overview and the charts *)

Section OverviewCharts.
Context {N : Type} `{JsNumber N}.
Variable localeCompare : string → string → Z.

Lemma last_tail_snoc {A} (l : list A) x :
  l ≠ [] → last (tail (l ++ [x])) = Some x.
Proof. destruct l as [|y l]; [done|]. intros _. cbn. apply last_snoc. Qed.

Lemma last_append_point t (p : N) c :
  (0 < maxPoints c)%nat → length (timestamps c) = length (prices c) →
  last (timestamps (append_point t p c)) = Some t ∧
  last (prices (append_point t p c)) = Some p.
Proof.
  intros Hpos Hlen. unfold append_point.
  destruct (Nat.ltb_spec (maxPoints c) (length (timestamps c ++ [t])))
    as [Hlt|Hge]; cbn [timestamps prices].
  - rewrite length_app in Hlt. cbn in Hlt.
    split; apply last_tail_snoc.
    + intros He. rewrite He in Hlt. cbn in Hlt. lia.
    + intros He. rewrite He in Hlen. rewrite Hlen in Hlt. cbn in Hlt. lia.
  - split; apply last_snoc.
Qed.

Lemma handlePriceUpdate_charts newPrices t (a : App N) :
  let a1 := set_allPrices newPrices
              (set_previousPrices (deep_copy (allPrices a)) a) in
  chart_gold (handlePriceUpdate localeCompare newPrices t a)
  = chart_gold (updateChartData t a1) ∧
  chart_silver (handlePriceUpdate localeCompare newPrices t a)
  = chart_silver (updateChartData t a1).
Proof.
  cbn zeta. unfold handlePriceUpdate.
  cbn [checkSignificantChanges set_toasts chart_gold chart_silver].
  match goal with
  | |- context [renderPriceGrid localeCompare ?m ?x] =>
      by destruct (renderPriceGrid_charts localeCompare m x) as [-> ->]
  end.
Qed.

Lemma handlePriceUpdate_allPrices newPrices t (a : App N) :
  allPrices (handlePriceUpdate localeCompare newPrices t a) = newPrices.
Proof. apply (handlePriceUpdate_snapshots localeCompare newPrices t a). Qed.

Lemma updateMarketOverview_Some (a : App N) :
  allPrices a ≠ ∅ →
  updateMarketOverview a =
  Some {| avgGoldPrice :=
            average (fun city => k24 (gold city)) (map_to_list (allPrices a)).*2;
          avgSilverPrice :=
            average (fun city => s999 (silver city))
              (map_to_list (allPrices a)).*2;
          goldTrend := updateTrendDisplay (calculateOverallTrend "gold" a);
          silverTrend :=
            updateTrendDisplay (calculateOverallTrend "silver" a) |}.
Proof.
  intros Hne. unfold updateMarketOverview.
  rewrite length_fmap, length_map_to_list.
  apply map_size_non_empty_iff in Hne.
  by destruct (Nat.eqb_spec (size (allPrices a)) 0); [lia|].
Qed.

Lemma updateChartData_nonempty t (a : App N) :
  allPrices a ≠ ∅ →
  updateChartData t a =
  set_charts
    (append_point t
       (average (fun city => k24 (gold city)) (map_to_list (allPrices a)).*2)
       (chart_gold a))
    (append_point t
       (average (fun city => s999 (silver city)) (map_to_list (allPrices a)).*2)
       (chart_silver a)) a.
Proof.
  intros Hne. unfold updateChartData.
  apply map_size_non_empty_iff in Hne.
  by destruct (Nat.eqb_spec (size (allPrices a)) 0); [lia|].
Qed.
End OverviewCharts.

(** X21. Handling a snapshot that is not empty, with the chart series within
    their caps: the point appended to each chart series is the last one of
    the series, labelled with the time of the update, and its value is the
    average [updateMarketOverview] displays for that metal: the two are the
    same computation on the same table.  On an empty snapshot nothing is
    appended and the overview is not written. *)
Theorem X21_chart_point_is_the_average_displayed :
  ∀ (N : Type) (JN : JsNumber N) (localeCompare : string → string → Z)
    (a : App N) (newPrices : gmap string (Bundle N)) (timeLabel : string),
    let a' := handlePriceUpdate localeCompare newPrices timeLabel a in
    charts_ok a →
    (newPrices ≠ ∅ →
     ∃ overview,
       updateMarketOverview a' = Some overview ∧
       last (prices (chart_gold a')) = Some (avgGoldPrice overview) ∧
       last (prices (chart_silver a')) = Some (avgSilverPrice overview) ∧
       last (timestamps (chart_gold a')) = Some timeLabel ∧
       last (timestamps (chart_silver a')) = Some timeLabel) ∧
    (newPrices = ∅ →
     updateMarketOverview a' = None ∧
     chart_gold a' = chart_gold a ∧ chart_silver a' = chart_silver a).
Proof.
  intros N JN lc a newPrices t a' ((Hg1 & Hg2) & (Hs1 & Hs2) & Hmg & Hms).
  destruct (handlePriceUpdate_charts lc newPrices t a) as [Hcg Hcs].
  pose proof (handlePriceUpdate_allPrices lc newPrices t a) as Hall.
  fold a' in Hcg, Hcs, Hall. split.
  - intros Hne. eexists. split.
    { apply updateMarketOverview_Some. by rewrite Hall. }
    cbn [avgGoldPrice avgSilverPrice]. rewrite Hall, Hcg, Hcs.
    rewrite updateChartData_nonempty by done.
    cbn [chart_gold chart_silver set_charts allPrices set_allPrices
         set_previousPrices].
    destruct (last_append_point t
                (average (fun city => k24 (gold city))
                   (map_to_list newPrices).*2) (chart_gold a))
      as [Ht1 Hp1]; [lia|done|].
    destruct (last_append_point t
                (average (fun city => s999 (silver city))
                   (map_to_list newPrices).*2) (chart_silver a))
      as [Ht2 Hp2]; [lia|done|].
    by split_and!.
  - intros ->. split_and!.
    + unfold updateMarketOverview. by rewrite Hall.
    + by rewrite Hcg.
    + by rewrite Hcs.
Qed.

Lemma X21_chart_point_is_the_average_displayed_witness :
  let newPrices : gmap string (Bundle Q) :=
    {[ "mumbai" := bundle_at mumbai 107610%Q 126480%Q ]} in
  let a' := handlePriceUpdate (fun _ _ => 0%Z) newPrices "10:00:10" new_App in
  (charts_ok (new_App (N := Q)) ∧ newPrices ≠ ∅) ∧
  ∃ overview,
    updateMarketOverview a' = Some overview ∧
    last (prices (chart_gold a')) = Some (avgGoldPrice overview) ∧
    last (prices (chart_silver a')) = Some (avgSilverPrice overview) ∧
    last (timestamps (chart_gold a')) = Some "10:00:10" ∧
    last (timestamps (chart_silver a')) = Some "10:00:10".
Proof.
  intros newPrices a'.
  assert (Hok : charts_ok (new_App (N := Q)))
    by (unfold charts_ok, series_ok; cbn; lia).
  assert (Hne : newPrices ≠ ∅) by apply insert_non_empty.
  split; [done|].
  exact (proj1 (X21_chart_point_is_the_average_displayed Q _ (fun _ _ => 0%Z)
                  new_App newPrices "10:00:10" Hok) Hne).
Defined.

Section AverageBounds.
Local Open Scope Q_scope.

Lemma sum_bounds (f : Bundle Q → Q) lo hi (l : list (Bundle Q)) acc :
  Forall (fun b => lo <= f b ∧ f b <= hi) l →
  acc + inject_Z (Z.of_nat (length l)) * lo
  <= fold_left (fun sum city => (sum + f city)%js) l acc ∧
  fold_left (fun sum city => (sum + f city)%js) l acc
  <= acc + inject_Z (Z.of_nat (length l)) * hi.
Proof.
  intros Hl. revert acc. induction Hl as [|b l [Hlo Hhi] _ IH]; intros acc.
  - cbn [fold_left length]. change (inject_Z (Z.of_nat 0)) with 0.
    split; lra.
  - cbn [fold_left length]. destruct (IH (acc + f b)%js) as [IH1 IH2].
    cbn [nadd Q_number] in *.
    rewrite Nat2Z.inj_succ, <- Z.add_1_r, inject_Z_plus.
    change (inject_Z 1) with 1. split; lra.
Qed.

Lemma average_bounds (f : Bundle Q → Q) lo hi (l : list (Bundle Q)) :
  l ≠ [] → Forall (fun b => lo <= f b ∧ f b <= hi) l →
  Q_round lo <= average f l ∧ average f l <= Q_round hi.
Proof.
  intros Hne Hl. unfold average.
  cbn [Math_round ndiv lit Q_number].
  destruct (sum_bounds f lo hi l 0 Hl) as [H1 H2].
  cbn [lit Q_number] in H1, H2.
  set (sum := fold_left _ l 0) in *.
  set (n := inject_Z (Z.of_nat (length l))) in *.
  assert (Hn : 0 < n).
  { subst n. change 0 with (inject_Z 0). rewrite <- Zlt_Qlt.
    destruct l; [done|]. cbn [length]. lia. }
  split; apply Q_round_mono.
  - apply Qle_shift_div_l; [done|]. lra.
  - apply Qle_shift_div_r; [done|]. lra.
Qed.
End AverageBounds.

(** X22. In exact arithmetic the average the overview displays for a metal
    lies between the rounded lowest and the rounded highest price of the
    cities of the table: if every city's gold 24k (silver 999) price is
    between [lo] and [hi], so is the average shown, up to the rounding of
    the two bounds; and when all cities have the same price [p], the average
    is [p] rounded. *)
Theorem X22_average_lies_between_the_city_prices :
  ∀ (a : App Q) (overview : Overview Q) (lo hi : Q),
    updateMarketOverview a = Some overview →
    ((∀ k b, allPrices a !! k = Some b →
             (lo <= k24 (gold b))%Q ∧ (k24 (gold b) <= hi)%Q) →
     (Q_round lo <= avgGoldPrice overview)%Q ∧
     (avgGoldPrice overview <= Q_round hi)%Q) ∧
    ((∀ k b, allPrices a !! k = Some b →
             (lo <= s999 (silver b))%Q ∧ (s999 (silver b) <= hi)%Q) →
     (Q_round lo <= avgSilverPrice overview)%Q ∧
     (avgSilverPrice overview <= Q_round hi)%Q) ∧
    ((∀ k b, allPrices a !! k = Some b → k24 (gold b) = lo) →
     (avgGoldPrice overview == Q_round lo)%Q).
Proof.
  intros a overview lo hi Hov.
  assert (Hne : (map_to_list (allPrices a)).*2 ≠ []).
  { intros He. unfold updateMarketOverview in Hov. by rewrite He in Hov. }
  assert (Hall : ∀ P : Bundle Q → Prop,
            (∀ k b, allPrices a !! k = Some b → P b) →
            Forall P (map_to_list (allPrices a)).*2).
  { intros P HP. apply Forall_forall. intros b Hb.
    apply list_elem_of_fmap in Hb as ([k b'] & -> & Hkb).
    apply elem_of_map_to_list in Hkb. by eapply HP. }
  assert (Hgold : avgGoldPrice overview =
                  average (fun city => k24 (gold city))
                    (map_to_list (allPrices a)).*2).
  { unfold updateMarketOverview in Hov.
    destruct (length _ =? 0)%nat; [done|]. by injection Hov as <-. }
  assert (Hsilver : avgSilverPrice overview =
                    average (fun city => s999 (silver city))
                      (map_to_list (allPrices a)).*2).
  { unfold updateMarketOverview in Hov.
    destruct (length _ =? 0)%nat; [done|]. by injection Hov as <-. }
  split_and!.
  - intros Hb. rewrite Hgold. apply average_bounds; [done|].
    by apply Hall.
  - intros Hb. rewrite Hsilver. apply average_bounds; [done|].
    by apply Hall.
  - intros Hb. rewrite Hgold.
    destruct (average_bounds (fun city => k24 (gold city)) lo lo
                (map_to_list (allPrices a)).*2 Hne) as [H1 H2].
    { apply Hall. intros k b Hk. rewrite (Hb k b Hk). lra. }
    lra.
Qed.

Lemma X22_average_lies_between_the_city_prices_witness :
  let a : App Q :=
    set_allPrices
      {[ "mumbai" := bundle_at mumbai 107610%Q 126480%Q;
         "pune" := bundle_at {| cid := "pune"; cname := "Pune";
                                cstate := "Maharashtra" |}
                     107400%Q 126230%Q ]} new_App in
  ∃ overview,
    updateMarketOverview a = Some overview ∧
    (Q_round 107400 <= avgGoldPrice overview)%Q ∧
    (avgGoldPrice overview <= Q_round 107610)%Q.
Proof.
  intros a.
  assert (Hne : allPrices a ≠ ∅) by apply insert_non_empty.
  eexists. split; [exact (updateMarketOverview_Some a Hne)|].
  apply (proj1 (X22_average_lies_between_the_city_prices a _
                  107400%Q 107610%Q (updateMarketOverview_Some a Hne))).
  intros k b Hk. cbn [allPrices set_allPrices a] in Hk.
  apply lookup_insert_Some in Hk as [[_ <-]|[_ Hk]].
  - cbn. split; unfold Qle; simpl; lia.
  - apply lookup_singleton_Some in Hk as [_ <-].
    cbn. split; unfold Qle; simpl; lia.
Defined.

(** ** The time frame of a chart *)

Section Timeframe.
Context {N : Type} `{JsNumber N}.

Lemma timeframe_points_cases timeframe :
  timeframe_points timeframe = 60%nat ∨ timeframe_points timeframe = 36%nat ∨
  timeframe_points timeframe = 24%nat.
Proof.
  unfold timeframe_points. repeat case_match; auto.
Qed.

Lemma chartData_of_canvas (a : App N) canvasId :
  chartData_of a (metal_of_canvas canvasId) =
  Some (if includes canvasId "gold" then chart_gold a else chart_silver a).
Proof. unfold metal_of_canvas. by destruct (includes canvasId "gold"). Qed.

Lemma charts_of_set_view canvasId (v : ChartView N) ch :
  charts_of (set_view (metal_of_canvas canvasId) v ch)
    (metal_of_canvas canvasId) = Some v ∧
  charts_of (set_view (metal_of_canvas canvasId) v ch)
    (other_metal canvasId) = charts_of ch (other_metal canvasId).
Proof.
  unfold metal_of_canvas, other_metal.
  by destruct (includes canvasId "gold").
Qed.
End Timeframe.

(** X23. A time-frame button, on a chart whose instance exists, makes the
    chart of its own card (gold when the [id] of the canvas contains
    "gold", silver otherwise) display the last 60 ('1h', or any other
    value), 36 ('6h') or 24 ('24h') points of the stored series, in order,
    or the whole series when it is shorter; labels and values stay aligned.
    Since a series never holds more than 60 points, '1h' displays all of
    it.  The other chart is left as it is, and so is a chart whose instance
    is missing. *)
Theorem X23_time_frame_shows_the_last_points :
  ∀ (N : Type) (JN : JsNumber N) (a : App N) (ch : Charts N)
    (canvasId timeframe : string),
    let metalType := metal_of_canvas canvasId in
    let n := timeframe_points timeframe in
    let ch' := updateChartTimeframe canvasId timeframe a ch in
    charts_ok a →
    (n = 60%nat ∨ n = 36%nat ∨ n = 24%nat) ∧
    (timeframe = "6h" → n = 36%nat) ∧ (timeframe = "24h" → n = 24%nat) ∧
    charts_of ch' (other_metal canvasId) = charts_of ch (other_metal canvasId) ∧
    (charts_of ch metalType = None → ch' = ch) ∧
    (is_Some (charts_of ch metalType) →
     ∃ series view,
       chartData_of a metalType = Some series ∧
       charts_of ch' metalType = Some view ∧
       view_labels view
       = drop (length (timestamps series) - n) (timestamps series) ∧
       view_data view = drop (length (prices series) - n) (prices series) ∧
       length (view_labels view) = (length (timestamps series) `min` n)%nat ∧
       length (view_data view) = length (view_labels view) ∧
       (n = 60%nat →
        view_labels view = timestamps series ∧
        view_data view = prices series)).
Proof.
  intros N JN a ch canvasId timeframe metalType n ch' Hok.
  assert (Hseries : ∃ series,
            chartData_of a metalType = Some series ∧ series_ok series ∧
            maxPoints series = 60%nat).
  { subst metalType. rewrite chartData_of_canvas.
    destruct Hok as (Hg & Hs & Hmg & Hms).
    destruct (includes canvasId "gold"); eexists; by split_and!. }
  destruct Hseries as (series & Hdata & [Hlen Hcap] & Hmax).
  split_and!.
  - apply timeframe_points_cases.
  - by intros ->.
  - by intros ->.
  - subst ch'. unfold updateChartTimeframe.
    fold (metal_of_canvas canvasId). fold metalType. rewrite Hdata.
    destruct (charts_of ch metalType); [|done].
    apply charts_of_set_view.
  - intros Hnone. subst ch'. unfold updateChartTimeframe.
    fold (metal_of_canvas canvasId). fold metalType. by rewrite Hnone.
  - intros [v0 Hv0]. exists series. eexists. split; [done|].
    subst ch'. unfold updateChartTimeframe.
    fold (metal_of_canvas canvasId). fold metalType. rewrite Hdata, Hv0.
    split; [apply charts_of_set_view|].
    cbn [view_labels view_data]. fold n. rewrite <- Hlen.
    split_and!; [done|done| | |].
    + rewrite length_drop. lia.
    + rewrite !length_drop. lia.
    + intros Hn. rewrite Hmax in Hcap.
      replace (length (timestamps series) - n)%nat with 0%nat by lia.
      by rewrite !drop_0.
Qed.

Lemma X23_time_frame_shows_the_last_points_witness :
  let a : App Q := new_App in
  let ch : Charts Q :=
    {| charts_gold := Some {| view_labels := []; view_data := [] |};
       charts_silver := None |} in
  charts_ok a ∧
  charts_of (updateChartTimeframe "goldChart" "6h" a ch) "silver"
  = charts_of ch "silver".
Proof.
  intros a ch.
  assert (Hok : charts_ok a) by (unfold charts_ok, series_ok; cbn; lia).
  split; [exact Hok|].
  exact (proj1 (proj2 (proj2 (proj2
    (X23_time_frame_shows_the_last_points Q _ a ch "goldChart" "6h" Hok))))).
Defined.

(** ** From the server to the first render *)

Section FirstRender.
Context {N : Type} `{JsNumber N}.
Variable localeCompare : string → string → Z.


End FirstRender.


(** ** A tick on a table that lacks a city *)

Section Missing.
Context {N : Type} `{JsNumber N}.

Lemma walk_city_missing city (s : Server N) :
  currentPrices s !! cid city = None →
  walk_city city s = Thrown missing_city_error s.
Proof.
  intros Hb. unfold walk_city, bind at 1, gets at 1. by rewrite Hb.
Qed.

(** The loop stops at the first city the table lacks; the cities before it
    have taken their step, nothing is published. *)
Lemma updatePricesSimulated_missing (s : Server N) c :
  c ∈ METRO_CITIES → currentPrices s !! cid c = None →
  wp updatePricesSimulated s (fun _ _ => False)
     (fun e s' =>
        e = missing_city_error ∧ currentPrices s' !! cid c = None ∧
        emitted s' = emitted s ∧ live_switch s' = live_switch s).
Proof.
  intros Hc Hmiss. unfold updatePricesSimulated. apply wp_bind.
  pose proof METRO_CITIES_NoDup as Hnd.
  eapply wp_mono;
    [apply (wp_forEach _
       (fun visited s' =>
          (c ∉ visited) ∧ currentPrices s' !! cid c = None ∧
          emitted s' = emitted s ∧ live_switch s' = live_switch s)
       (fun e s' =>
          e = missing_city_error ∧ currentPrices s' !! cid c = None ∧
          emitted s' = emitted s ∧ live_switch s' = live_switch s))| |done].
  - split_and!; [apply not_elem_of_nil|done|done|done].
  - intros visited x rest s' Hl (Hv & Hm & He & Hsw).
    destruct (currentPrices s' !! cid x) as [b|] eqn:Hb.
    + eapply wp_Done; [by apply walk_city_eq|].
      assert (Hxc : x ≠ c) by (intros ->; congruence).
      assert (Hid : cid x ≠ cid c).
      { intros Heq. apply Hxc.
        apply list_elem_of_lookup in Hc as [j Hj].
        assert (Hx : x ∈ METRO_CITIES)
          by (rewrite Hl; apply elem_of_app; right; by left).
        apply list_elem_of_lookup in Hx as [i Hi].
        assert (i = j).
        { eapply NoDup_lookup; [exact Hnd| |].
          - rewrite list_lookup_fmap, Hi. reflexivity.
          - rewrite list_lookup_fmap, Hj. cbn. by rewrite Heq. }
        subst j. congruence. }
      unfold live_switch in *.
      cbn [currentPrices set_currentPrices set_drawn emitted useMCXData
           timeouts clock].
      split_and!; [|by rewrite lookup_insert_ne|done|done].
      apply not_elem_of_app. split; [done|].
      by apply not_elem_of_cons; split; [apply not_eq_sym|apply not_elem_of_nil].
    + unfold wp. rewrite walk_city_missing by done. by split_and!.
  - intros u s' (Hv & _). cbv beta. by destruct Hv.
Qed.

Lemma thrown_of_wp {A} (m : Eff (Server N) A) s
    (E : string → Server N → Prop) :
  wp m s (fun _ _ => False) E → ∃ e s', m s = Thrown e s' ∧ E e s'.
Proof. unfold wp. destruct (m s) as [x s'|e s']; [done|by eexists _, _]. Qed.
End Missing.

(** X25. [updatePricesSimulated] on a table that lacks a city (the table is
    empty until start-up has completed) throws the [TypeError] of reading
    a property of [undefined] and publishes nothing.  [updatePrices] has no
    answer to it: with the live source disabled its [catch] runs the same
    loop, which throws again, so the tick fails; with the live source
    enabled and a reply that carries no quote, the [catch] of
    [updatePricesFromMCX] disables the live source and then fails before it
    sets the timer that would enable it again. *)
Theorem X25_a_tick_on_a_table_lacking_a_city_throws :
  ∀ (N : Type) (JN : JsNumber N) (s : Server N) (c : City),
    c ∈ METRO_CITIES → currentPrices s !! cid c = None →
    (∃ s', updatePricesSimulated s = Thrown missing_city_error s' ∧
           emitted s' = emitted s) ∧
    (∀ axios,
       useMCXData s = false →
       ∃ s', updatePrices axios s = Thrown missing_city_error s' ∧
             emitted s' = emitted s ∧ live_switch s' = live_switch s) ∧
    (∀ data,
       useMCXData s = true →
       has_quote (payload_quotes data (clock s)) = false →
       ∃ s', updatePrices (Resolved (Some (Some data))) s
             = Thrown missing_city_error s' ∧
             emitted s' = emitted s ∧
             useMCXData s' = false ∧ timeouts s' = timeouts s).
Proof.
  intros N JN s c Hc Hmiss.
  assert (Htwice : ∀ s0 : Server N,
            currentPrices s0 !! cid c = None →
            ∃ s', try_catch updatePricesSimulated
                    (fun _ => updatePricesSimulated) s0
                  = Thrown missing_city_error s' ∧
                  emitted s' = emitted s0 ∧ live_switch s' = live_switch s0).
  { intros s0 Hm0.
    destruct (thrown_of_wp _ _ _ (updatePricesSimulated_missing s0 c Hc Hm0))
      as (e1 & s1 & Hrun1 & -> & Hm1 & He1 & Hsw1).
    destruct (thrown_of_wp _ _ _ (updatePricesSimulated_missing s1 c Hc Hm1))
      as (e2 & s2 & Hrun2 & -> & Hm2 & He2 & Hsw2).
    exists s2. unfold try_catch. rewrite Hrun1, Hrun2.
    split_and!; [done|congruence|congruence]. }
  split_and!.
  - destruct (thrown_of_wp _ _ _ (updatePricesSimulated_missing s c Hc Hmiss))
      as (e1 & s1 & Hrun1 & -> & _ & He1 & _).
    by exists s1.
  - intros axios Huse. rewrite updatePrices_disabled by done.
    by apply Htwice.
  - intros data Huse Hq.
    destruct (thrown_of_wp _ _ _
                (updatePricesSimulated_missing (set_useMCXData false s) c Hc
                   Hmiss))
      as (e1 & s1 & Hrun1 & -> & Hm1 & He1 & Hsw1).
    destruct (thrown_of_wp _ _ _ (updatePricesSimulated_missing s1 c Hc Hm1))
      as (e2 & s2 & Hrun2 & -> & Hm2 & He2 & Hsw2).
    exists s2. split_and!.
    + rewrite updatePrices_eq, Huse. unfold try_catch at 1.
      rewrite (updatePricesFromMCX_no_quote _ s s _
                 (fetchLiveData_parsed data s) Hq).
      unfold bind at 1, modify at 1. unfold bind at 1.
      rewrite Hrun1. exact Hrun2.
    + rewrite He2, He1. reflexivity.
    + exact (eq_trans (f_equal (fun p : bool * list Z * Z => p.1.1) Hsw2)
               (f_equal (fun p : bool * list Z * Z => p.1.1) Hsw1)).
    + exact (eq_trans (f_equal (fun p : bool * list Z * Z => p.1.2) Hsw2)
               (f_equal (fun p : bool * list Z * Z => p.1.2) Hsw1)).
Qed.

Lemma X25_a_tick_on_a_table_lacking_a_city_throws_witness :
  let s : Server Q := boot (fun _ => 0.5%Q) 0 in
  (mumbai ∈ METRO_CITIES ∧ currentPrices s !! cid mumbai = None) ∧
  ∃ s', updatePricesSimulated s = Thrown missing_city_error s' ∧
        emitted s' = emitted s.
Proof.
  intros s.
  assert (Hc : mumbai ∈ METRO_CITIES) by (apply list_elem_of_In; cbn; auto).
  assert (Hm : currentPrices s !! cid mumbai = None) by reflexivity.
  split; [done|].
  exact (proj1 (X25_a_tick_on_a_table_lacking_a_city_throws Q _ s mumbai
                  Hc Hm)).
Defined.

(** ** A snapshot resets the time frame *)

Section ResetView.
Context {N : Type} `{JsNumber N}.

Lemma updateCharts_nonempty (a : App N) ch :
  allPrices a ≠ ∅ →
  updateCharts a ch =
  {| charts_gold :=
       match charts_gold ch with
       | Some _ => Some (whole_series (chart_gold a))
       | None => None
       end;
     charts_silver :=
       match charts_silver ch with
       | Some _ => Some (whole_series (chart_silver a))
       | None => None
       end |}.
Proof.
  intros Hne. unfold updateCharts.
  apply map_size_non_empty_iff in Hne.
  destruct (Nat.eqb_spec (size (allPrices a)) 0); [lia|].
  destruct ch as [[g|] [sv|]]; reflexivity.
Qed.

Lemma match_is_Some {A B} (o1 o2 : option A) (x : B) :
  (is_Some o1 ↔ is_Some o2) →
  match o1 with Some _ => Some x | None => None end
  = match o2 with Some _ => Some x | None => None end.
Proof.
  intros Hiff. destruct o1 as [y1|], o2 as [y2|]; try done.
  - exfalso. eapply is_Some_None, Hiff. by eexists.
  - exfalso. eapply is_Some_None, Hiff. by eexists.
Qed.

Lemma updateChartTimeframe_instances canvasId timeframe (a : App N) ch :
  is_Some (charts_gold (updateChartTimeframe canvasId timeframe a ch))
  ↔ is_Some (charts_gold ch).
Proof.
  unfold updateChartTimeframe.
  destruct (includes canvasId "gold"), ch as [[g|] [sv|]]; cbn;
    split; intros [? ?]; try done; by eexists.
Qed.

Lemma updateChartTimeframe_instances_silver canvasId timeframe (a : App N) ch :
  is_Some (charts_silver (updateChartTimeframe canvasId timeframe a ch))
  ↔ is_Some (charts_silver ch).
Proof.
  unfold updateChartTimeframe.
  destruct (includes canvasId "gold"), ch as [[g|] [sv|]]; cbn;
    split; intros [? ?]; try done; by eexists.
Qed.
End ResetView.

(** X26. The time frame chosen for a chart lasts until the next snapshot.
    [updateChartData], on a table that is not empty, ends by making each
    chart whose instance exists display its whole stored series; so after
    a time-frame button and then a snapshot the charts display what they
    would display had the button not been used.  An instance that is
    missing stays missing. *)
Theorem X26_a_snapshot_resets_the_time_frame :
  ∀ (N : Type) (JN : JsNumber N) (localeCompare : string → string → Z)
    (a : App N) (ch : Charts N) (canvasId timeframe timeLabel : string)
    (newPrices : gmap string (Bundle N)),
    let ch1 := updateChartTimeframe canvasId timeframe a ch in
    let a' := handlePriceUpdate localeCompare newPrices timeLabel a in
    newPrices ≠ ∅ →
    updateCharts a' ch1 = updateCharts a' ch ∧
    (is_Some (charts_gold ch) →
     charts_gold (updateCharts a' ch1) = Some (whole_series (chart_gold a'))) ∧
    (is_Some (charts_silver ch) →
     charts_silver (updateCharts a' ch1)
     = Some (whole_series (chart_silver a'))) ∧
    (charts_gold ch = None → charts_gold (updateCharts a' ch1) = None) ∧
    (charts_silver ch = None → charts_silver (updateCharts a' ch1) = None).
Proof.
  intros N JN lc a ch canvasId timeframe t newPrices ch1 a' Hne.
  assert (Ha : allPrices a' ≠ ∅).
  { subst a'. by rewrite handlePriceUpdate_allPrices. }
  rewrite !updateCharts_nonempty by done.
  pose proof (updateChartTimeframe_instances canvasId timeframe a ch) as Hg.
  pose proof (updateChartTimeframe_instances_silver canvasId timeframe a ch)
    as Hs.
  fold ch1 in Hg, Hs. cbn [charts_gold charts_silver].
  rewrite (match_is_Some _ _ (whole_series (chart_gold a')) Hg).
  rewrite (match_is_Some _ _ (whole_series (chart_silver a')) Hs).
  split_and!.
  - done.
  - by intros [g ->].
  - by intros [sv ->].
  - by intros ->.
  - by intros ->.
Qed.

Lemma X26_a_snapshot_resets_the_time_frame_witness :
  let newPrices : gmap string (Bundle Q) :=
    {[ "mumbai" := bundle_at mumbai 107610%Q 126480%Q ]} in
  let ch : Charts Q :=
    {| charts_gold := Some {| view_labels := []; view_data := [] |};
       charts_silver := None |} in
  let a' := handlePriceUpdate (fun _ _ => 0%Z) newPrices "10:00:10" new_App in
  newPrices ≠ ∅ ∧
  updateCharts a' (updateChartTimeframe "goldChart" "24h" new_App ch)
  = updateCharts a' ch.
Proof.
  intros newPrices ch a'.
  assert (Hne : newPrices ≠ ∅) by apply insert_non_empty.
  split; [exact Hne|].
  exact (proj1 (X26_a_snapshot_resets_the_time_frame Q _ (fun _ _ => 0%Z)
                  new_App ch "goldChart" "24h" "10:00:10" newPrices Hne)).
Defined.

(** ** Transport losses that overlap *)

Section Overlap.
Context {N : Type} `{JsNumber N}.
Variable localeCompare : string → string → Z.

Lemma disconnects_pending n (a : App N) :
  (retryCount a < maxRetries a)%nat →
  let a1 := client_run localeCompare (replicate n Disconnect) a in
  pending a1 =
    pending a ++ replicate n (2 ^ Z.of_nat (retryCount a) * 1000)%Z ∧
  retryCount a1 = retryCount a ∧ maxRetries a1 = maxRetries a ∧
  sockets a1 = sockets a.
Proof.
  revert a. induction n as [|n IH]; intros a Hlt.
  - cbn. by rewrite app_nil_r.
  - cbn [replicate]. unfold client_run. cbn [fold_left].
    fold (client_run localeCompare (replicate n Disconnect)
            (client_step localeCompare Disconnect a)).
    cbn [client_step]. unfold on_disconnect.
    rewrite handleReconnection_below by done.
    set (a0 := set_pending _ _).
    destruct (IH a0) as (Hp & Hr & Hm & Hs); [done|].
    cbn zeta in *. rewrite Hp, Hr, Hm, Hs. subst a0.
    cbn [pending retryCount maxRetries sockets set_pending showToast
         set_toasts].
    by rewrite <- app_assoc.
Qed.

Lemma timers_fire n (a : App N) d :
  pending a = replicate n d →
  let a2 := client_run localeCompare (replicate n (TimerFires 0)) a in
  pending a2 = [] ∧ retryCount a2 = (retryCount a + n)%nat ∧
  sockets a2 = (sockets a + n)%nat.
Proof.
  revert a. induction n as [|n IH]; intros a Hp.
  - cbn. split_and!; [done|lia|lia].
  - cbn [replicate]. unfold client_run. cbn [fold_left].
    fold (client_run localeCompare (replicate n (TimerFires 0))
            (client_step localeCompare (TimerFires 0) a)).
    cbn [client_step]. rewrite Hp. cbn [replicate lookup list_lookup].
    set (a0 := reconnection_attempt _).
    destruct (IH a0) as (Hp' & Hr & Hs); [done|].
    cbn zeta in *. rewrite Hp', Hr, Hs. subst a0.
    cbn [retryCount sockets reconnection_attempt initializeSocket
         set_sockets set_retryCount set_pending].
    split_and!; [done|lia|lia].
Qed.
End Overlap.

(** X27. The back-off and the limit of five retries hold for losses that
    come one after the other, not for losses that overlap.  If [n]
    ['disconnect'] events arrive before any reconnection timer expires
    (every socket opened so far reports the loss), each of them schedules
    an attempt with the same delay, [2^retryCount] seconds, since the
    counter only moves when a timer expires; when the [n] timers expire,
    [n] sockets are opened and the counter has advanced by [n], whatever
    [maxRetries] is. *)
Theorem X27_overlapping_losses_are_not_limited :
  ∀ (N : Type) (JN : JsNumber N) (localeCompare : string → string → Z)
    (a : App N) (n : nat),
    (retryCount a < maxRetries a)%nat → pending a = [] →
    let a1 := client_run localeCompare (replicate n Disconnect) a in
    let a2 := client_run localeCompare (replicate n (TimerFires 0)) a1 in
    pending a1 = replicate n (2 ^ Z.of_nat (retryCount a) * 1000)%Z ∧
    retryCount a1 = retryCount a ∧ sockets a1 = sockets a ∧
    pending a2 = [] ∧ retryCount a2 = (retryCount a + n)%nat ∧
    sockets a2 = (sockets a + n)%nat.
Proof.
  intros N JN lc a n Hlt Hp a1 a2.
  destruct (disconnects_pending lc n a Hlt) as (Hp1 & Hr1 & _ & Hs1).
  fold a1 in Hp1, Hr1, Hs1. rewrite Hp in Hp1. cbn [app] in Hp1.
  destruct (timers_fire lc n a1 _ Hp1) as (Hp2 & Hr2 & Hs2).
  fold a2 in Hp2, Hr2, Hs2.
  split_and!; [done|done|done|done|lia|lia].
Qed.

(** Eight overlapping losses on the connected application, whose limit is
    five retries. *)
Lemma X27_overlapping_losses_are_not_limited_witness :
  let a : App Q := connected_App in
  let a1 := client_run (fun _ _ => 0%Z) (replicate 8 Disconnect) a in
  let a2 := client_run (fun _ _ => 0%Z) (replicate 8 (TimerFires 0)) a1 in
  ((retryCount a < maxRetries a)%nat ∧ pending a = []) ∧
  pending a1 = replicate 8 (2 ^ Z.of_nat (retryCount a) * 1000)%Z ∧
  retryCount a1 = retryCount a ∧ sockets a1 = sockets a ∧
  pending a2 = [] ∧ retryCount a2 = (retryCount a + 8)%nat ∧
  sockets a2 = (sockets a + 8)%nat.
Proof.
  intros a.
  assert (Hlt : (retryCount a < maxRetries a)%nat) by (vm_compute; lia).
  assert (Hp : pending a = []) by reflexivity.
  exact (conj (conj Hlt Hp)
           (X27_overlapping_losses_are_not_limited Q _ (fun _ _ => 0%Z)
              a 8 Hlt Hp)).
Defined.
